(** * rnn-learn: configuration set-up and validation (src/rnn-learn/main.c)

    A shallow embedding of the front end of [rnn-learn]: the option setters,
    the option table [opt_info], the configuration-file reader, the
    command-line reader, the target set-up, [check_parameters] and the order
    in which [main] runs them before it hands the configuration record to
    [training_main].

    Conventions.
    - C integers ([int], [long], [unsigned long]) are [Z]; the platform is
      LP64, so [unsigned long] wraps modulo [2^64].
    - [double] is [spec_float] (IEEE 754 binary64 values with their
      comparison [SFltb] / [SFleb]; a comparison with a NaN is false).
    - A [char*] that may be [NULL] is an [option string].
    - [exit], [print_error_msg] and output are effects recorded in an
      [outcome]: the events written so far and how the call ended.
    - What main.c takes from libc ([atoi], [atol], [atof], [strtoul],
      [getopt]), from the build configuration (the default macros) and from
      the other translation units ([read_target_from_file], the allocation
      macros, the [str_to_*] parsers) is a record of parameters. *)

From Stdlib Require Import ZArith List String Ascii Bool Lia.
From Stdlib Require Import Floats.SpecFloat.
Import ListNotations.

Local Open Scope string_scope.
Local Open Scope list_scope.
Local Open Scope Z_scope.

(** ** C strings *)

Module CString.

Definition newline : ascii := "010"%char.

Definition strlen (s : string) : Z := Z.of_nat (String.length s).

(** [strcmp(a, b) == 0] *)
Definition streq (a b : string) : bool := String.eqb a b.

(** membership of a character in an accept set, as [strpbrk] and [strchr]
    test it *)
Fixpoint mem (c : ascii) (set : string) : bool :=
  match set with
  | EmptyString => false
  | String a set' => Ascii.eqb c a || mem c set'
  end.

(** [if ((p = strpbrk(str, set)) != NULL) { *p = '\0'; }]: the string is cut
    at the first character that belongs to [set]. *)
Fixpoint cut_at (set : string) (str : string) : string :=
  match str with
  | EmptyString => EmptyString
  | String a str' => if mem a set then EmptyString else String a (cut_at set str')
  end.

(** [p = strchr(str, c)] followed by [*p = '\0'; p++]: the text before the
    first [c] and the text after it, or [None] when [c] does not occur. *)
Fixpoint split_at (c : ascii) (str : string) : option (string * string) :=
  match str with
  | EmptyString => None
  | String a str' =>
      if Ascii.eqb a c then Some (EmptyString, str')
      else match split_at c str' with
           | Some (l, r) => Some (String a l, r)
           | None => None
           end
  end.

(** [while ( *str == c) str++;] *)
Fixpoint skip_leading (c : ascii) (str : string) : string :=
  match str with
  | EmptyString => EmptyString
  | String a str' => if Ascii.eqb a c then skip_leading c str' else str
  end.

(** the backward loop of [strip]: trailing occurrences of [c] are
    overwritten by the terminator *)
Fixpoint drop_trailing (c : ascii) (str : string) : string :=
  match str with
  | EmptyString => EmptyString
  | String a str' =>
      match drop_trailing c str' with
      | EmptyString => if Ascii.eqb a c then EmptyString else String a EmptyString
      | rest => String a rest
      end
  end.

End CString.

(** [strip(str, c)]; a [NULL] argument is returned as it is. *)
Definition strip (str : option string) (c : ascii) : option string :=
  match str with
  | None => None
  | Some s => Some (CString.drop_trailing c (CString.skip_leading c s))
  end.

(** [parse_option_and_arg(str, &opt, &arg)]: the pair [( *opt, *arg)]. *)
Definition parse_option_and_arg (str : string)
  : option string * option string :=
  let str := CString.cut_at (String "#" (String CString.newline EmptyString)) str in
  if 0 <? CString.strlen str then
    match CString.split_at "=" str with
    | Some (s, p) => (strip (Some s) " ", strip (Some p) " ")
    | None => (strip (Some str) " ", strip None " ")
    end
  else (None, None).

(** ** Effects: messages, [exit], and the outcome of a call *)

Inductive fmt_arg : Type :=
| Arg_s (s : string)
| Arg_d (n : Z).

Inductive event : Type :=
| print_error_msg (fmt : string) (args : list fmt_arg)
| fprintf_stderr (text : string)
| display_help
| display_version.

Inductive exit_status : Type := EXIT_SUCCESS | EXIT_FAILURE.

(** How a call ends. [Returns] carries the result; [Exits] is a call of
    [exit]; [Undefined] is a [NULL] handed to a libc function that reads a
    string; [OutOfFuel] stands for configuration files that include one
    another more deeply than the fuel allows. *)
Inductive outcome (A : Type) : Type :=
| Returns (log : list event) (a : A)
| Exits (log : list event) (status : exit_status)
| Undefined (log : list event)
| OutOfFuel (log : list event).

Arguments Returns {A} log a.
Arguments Exits {A} log status.
Arguments Undefined {A} log.
Arguments OutOfFuel {A} log.

Definition ret {A} (a : A) : outcome A := Returns [] a.

Definition after {A} (l : list event) (m : outcome A) : outcome A :=
  match m with
  | Returns l' a => Returns (l ++ l') a
  | Exits l' s => Exits (l ++ l') s
  | Undefined l' => Undefined (l ++ l')
  | OutOfFuel l' => OutOfFuel (l ++ l')
  end.

Definition bind {A B} (m : outcome A) (k : A -> outcome B) : outcome B :=
  match m with
  | Returns l a => after l (k a)
  | Exits l s => Exits l s
  | Undefined l => Undefined l
  | OutOfFuel l => OutOfFuel l
  end.

Notation "x <- m ;; k" := (bind m (fun x => k))
  (at level 61, m at next level, right associativity).

Definition fatal {A} (fmt : string) (args : list fmt_arg) : outcome A :=
  Exits [print_error_msg fmt args] EXIT_FAILURE.

Definition warn {A} (fmt : string) (args : list fmt_arg) (a : A) : outcome A :=
  Returns [print_error_msg fmt args] a.

Definition outcome_map {A B} (f : A -> B) (m : outcome A) : outcome B :=
  match m with
  | Returns l a => Returns l (f a)
  | Exits l s => Exits l s
  | Undefined l => Undefined l
  | OutOfFuel l => OutOfFuel l
  end.

(** ** The configuration record *)

(** The thirteen [FILENAME] tokens the interval macros are instantiated
    with: member [interval_for_FILENAME] of [iop] is [interval_for iop
    FILENAME]. *)
Inductive interval_file : Type :=
| state_file | closed_state_file | weight_file | threshold_file | tau_file
| init_file | rep_init_file | adapt_lr_file | error_file
| closed_error_file | lyapunov_file | entropy_file | period_file.

Definition interval_file_eqb (a b : interval_file) : bool :=
  match a, b with
  | state_file, state_file | closed_state_file, closed_state_file
  | weight_file, weight_file | threshold_file, threshold_file
  | tau_file, tau_file | init_file, init_file
  | rep_init_file, rep_init_file | adapt_lr_file, adapt_lr_file
  | error_file, error_file | closed_error_file, closed_error_file
  | lyapunov_file, lyapunov_file | entropy_file, entropy_file
  | period_file, period_file => true
  | _, _ => false
  end.

Definition interval_files : list interval_file :=
  [state_file; closed_state_file; weight_file; threshold_file; tau_file;
   init_file; rep_init_file; adapt_lr_file; error_file; closed_error_file;
   lyapunov_file; entropy_file; period_file].

(** The contents of an array that [setup_parameters] allocates and a
    [str_to_*] parser fills; the element types are declared in parameter.h. *)
Inductive cell : Type :=
| Cell_int (n : Z)
| Cell_double (x : spec_float).

Definition array : Type := list cell.
Definition matrix : Type := list array.

(** Record updates are written [with_FIELD v r]: [r] with member [FIELD]
    replaced by [v]. *)

(** [struct print_interval]: the interval policy of one output stream. The
    four [_set_OPT_flag] members record that [OPT] was set for this stream
    explicitly. *)
Record print_interval : Type := {
  interval : Z;
  init : Z;
  end_ : Z;
  use_logscale_interval : Z;
  _set_interval_flag : Z;
  _set_init_flag : Z;
  _set_end_flag : Z;
  _set_use_logscale_interval_flag : Z
}.

Definition with_interval (v : Z)
  (r : print_interval) : print_interval :=
  {| interval := v; init := init r; end_ := end_ r; use_logscale_interval :=
     use_logscale_interval r; _set_interval_flag := _set_interval_flag r;
     _set_init_flag := _set_init_flag r; _set_end_flag := _set_end_flag r;
     _set_use_logscale_interval_flag := _set_use_logscale_interval_flag r |}.

Definition with_init (v : Z)
  (r : print_interval) : print_interval :=
  {| interval := interval r; init := v; end_ := end_ r; use_logscale_interval
     := use_logscale_interval r; _set_interval_flag := _set_interval_flag r;
     _set_init_flag := _set_init_flag r; _set_end_flag := _set_end_flag r;
     _set_use_logscale_interval_flag := _set_use_logscale_interval_flag r |}.

Definition with_end_ (v : Z)
  (r : print_interval) : print_interval :=
  {| interval := interval r; init := init r; end_ := v; use_logscale_interval
     := use_logscale_interval r; _set_interval_flag := _set_interval_flag r;
     _set_init_flag := _set_init_flag r; _set_end_flag := _set_end_flag r;
     _set_use_logscale_interval_flag := _set_use_logscale_interval_flag r |}.

Definition with_use_logscale_interval (v : Z)
  (r : print_interval) : print_interval :=
  {| interval := interval r; init := init r; end_ := end_ r;
     use_logscale_interval := v; _set_interval_flag := _set_interval_flag r;
     _set_init_flag := _set_init_flag r; _set_end_flag := _set_end_flag r;
     _set_use_logscale_interval_flag := _set_use_logscale_interval_flag r |}.

Definition with_set_interval_flag (v : Z)
  (r : print_interval) : print_interval :=
  {| interval := interval r; init := init r; end_ := end_ r;
     use_logscale_interval := use_logscale_interval r; _set_interval_flag :=
     v; _set_init_flag := _set_init_flag r; _set_end_flag := _set_end_flag r;
     _set_use_logscale_interval_flag := _set_use_logscale_interval_flag r |}.

Definition with_set_init_flag (v : Z)
  (r : print_interval) : print_interval :=
  {| interval := interval r; init := init r; end_ := end_ r;
     use_logscale_interval := use_logscale_interval r; _set_interval_flag :=
     _set_interval_flag r; _set_init_flag := v; _set_end_flag := _set_end_flag
     r; _set_use_logscale_interval_flag := _set_use_logscale_interval_flag r
     |}.

Definition with_set_end_flag (v : Z)
  (r : print_interval) : print_interval :=
  {| interval := interval r; init := init r; end_ := end_ r;
     use_logscale_interval := use_logscale_interval r; _set_interval_flag :=
     _set_interval_flag r; _set_init_flag := _set_init_flag r; _set_end_flag
     := v; _set_use_logscale_interval_flag := _set_use_logscale_interval_flag
     r |}.

Definition with_set_use_logscale_interval_flag (v : Z)
  (r : print_interval) : print_interval :=
  {| interval := interval r; init := init r; end_ := end_ r;
     use_logscale_interval := use_logscale_interval r; _set_interval_flag :=
     _set_interval_flag r; _set_init_flag := _set_init_flag r; _set_end_flag
     := _set_end_flag r; _set_use_logscale_interval_flag := v |}.

(** Member [mp] of [struct general_parameters]. *)
Record model_parameters : Type := {
  seed : Z;
  epoch_size : Z;
  use_adaptive_lr : Z;
  rho : spec_float;
  momentum : spec_float;
  c_state_size : Z;
  rep_init_size : Z;
  delay_length : Z;
  output_type : Z;
  fixed_weight : Z;
  fixed_threshold : Z;
  fixed_tau : Z;
  fixed_init_c_state : Z;
  connection_i2c : string;
  connection_c2c : string;
  connection_c2o : string;
  connection_c2v : string;
  const_init_c : string;
  softmax_group : string;
  init_tau : string;
  prior_strength : spec_float;
  rep_init_variance : spec_float;
  lambda : spec_float;
  alpha : spec_float
}.

Definition with_seed (v : Z)
  (r : model_parameters) : model_parameters :=
  {| seed := v; epoch_size := epoch_size r; use_adaptive_lr := use_adaptive_lr
     r; rho := rho r; momentum := momentum r; c_state_size := c_state_size r;
     rep_init_size := rep_init_size r; delay_length := delay_length r;
     output_type := output_type r; fixed_weight := fixed_weight r;
     fixed_threshold := fixed_threshold r; fixed_tau := fixed_tau r;
     fixed_init_c_state := fixed_init_c_state r; connection_i2c :=
     connection_i2c r; connection_c2c := connection_c2c r; connection_c2o :=
     connection_c2o r; connection_c2v := connection_c2v r; const_init_c :=
     const_init_c r; softmax_group := softmax_group r; init_tau := init_tau r;
     prior_strength := prior_strength r; rep_init_variance :=
     rep_init_variance r; lambda := lambda r; alpha := alpha r |}.

Definition with_epoch_size (v : Z)
  (r : model_parameters) : model_parameters :=
  {| seed := seed r; epoch_size := v; use_adaptive_lr := use_adaptive_lr r;
     rho := rho r; momentum := momentum r; c_state_size := c_state_size r;
     rep_init_size := rep_init_size r; delay_length := delay_length r;
     output_type := output_type r; fixed_weight := fixed_weight r;
     fixed_threshold := fixed_threshold r; fixed_tau := fixed_tau r;
     fixed_init_c_state := fixed_init_c_state r; connection_i2c :=
     connection_i2c r; connection_c2c := connection_c2c r; connection_c2o :=
     connection_c2o r; connection_c2v := connection_c2v r; const_init_c :=
     const_init_c r; softmax_group := softmax_group r; init_tau := init_tau r;
     prior_strength := prior_strength r; rep_init_variance :=
     rep_init_variance r; lambda := lambda r; alpha := alpha r |}.

Definition with_use_adaptive_lr (v : Z)
  (r : model_parameters) : model_parameters :=
  {| seed := seed r; epoch_size := epoch_size r; use_adaptive_lr := v; rho :=
     rho r; momentum := momentum r; c_state_size := c_state_size r;
     rep_init_size := rep_init_size r; delay_length := delay_length r;
     output_type := output_type r; fixed_weight := fixed_weight r;
     fixed_threshold := fixed_threshold r; fixed_tau := fixed_tau r;
     fixed_init_c_state := fixed_init_c_state r; connection_i2c :=
     connection_i2c r; connection_c2c := connection_c2c r; connection_c2o :=
     connection_c2o r; connection_c2v := connection_c2v r; const_init_c :=
     const_init_c r; softmax_group := softmax_group r; init_tau := init_tau r;
     prior_strength := prior_strength r; rep_init_variance :=
     rep_init_variance r; lambda := lambda r; alpha := alpha r |}.

Definition with_rho (v : spec_float)
  (r : model_parameters) : model_parameters :=
  {| seed := seed r; epoch_size := epoch_size r; use_adaptive_lr :=
     use_adaptive_lr r; rho := v; momentum := momentum r; c_state_size :=
     c_state_size r; rep_init_size := rep_init_size r; delay_length :=
     delay_length r; output_type := output_type r; fixed_weight :=
     fixed_weight r; fixed_threshold := fixed_threshold r; fixed_tau :=
     fixed_tau r; fixed_init_c_state := fixed_init_c_state r; connection_i2c
     := connection_i2c r; connection_c2c := connection_c2c r; connection_c2o
     := connection_c2o r; connection_c2v := connection_c2v r; const_init_c :=
     const_init_c r; softmax_group := softmax_group r; init_tau := init_tau r;
     prior_strength := prior_strength r; rep_init_variance :=
     rep_init_variance r; lambda := lambda r; alpha := alpha r |}.

Definition with_momentum (v : spec_float)
  (r : model_parameters) : model_parameters :=
  {| seed := seed r; epoch_size := epoch_size r; use_adaptive_lr :=
     use_adaptive_lr r; rho := rho r; momentum := v; c_state_size :=
     c_state_size r; rep_init_size := rep_init_size r; delay_length :=
     delay_length r; output_type := output_type r; fixed_weight :=
     fixed_weight r; fixed_threshold := fixed_threshold r; fixed_tau :=
     fixed_tau r; fixed_init_c_state := fixed_init_c_state r; connection_i2c
     := connection_i2c r; connection_c2c := connection_c2c r; connection_c2o
     := connection_c2o r; connection_c2v := connection_c2v r; const_init_c :=
     const_init_c r; softmax_group := softmax_group r; init_tau := init_tau r;
     prior_strength := prior_strength r; rep_init_variance :=
     rep_init_variance r; lambda := lambda r; alpha := alpha r |}.

Definition with_c_state_size (v : Z)
  (r : model_parameters) : model_parameters :=
  {| seed := seed r; epoch_size := epoch_size r; use_adaptive_lr :=
     use_adaptive_lr r; rho := rho r; momentum := momentum r; c_state_size :=
     v; rep_init_size := rep_init_size r; delay_length := delay_length r;
     output_type := output_type r; fixed_weight := fixed_weight r;
     fixed_threshold := fixed_threshold r; fixed_tau := fixed_tau r;
     fixed_init_c_state := fixed_init_c_state r; connection_i2c :=
     connection_i2c r; connection_c2c := connection_c2c r; connection_c2o :=
     connection_c2o r; connection_c2v := connection_c2v r; const_init_c :=
     const_init_c r; softmax_group := softmax_group r; init_tau := init_tau r;
     prior_strength := prior_strength r; rep_init_variance :=
     rep_init_variance r; lambda := lambda r; alpha := alpha r |}.

Definition with_rep_init_size (v : Z)
  (r : model_parameters) : model_parameters :=
  {| seed := seed r; epoch_size := epoch_size r; use_adaptive_lr :=
     use_adaptive_lr r; rho := rho r; momentum := momentum r; c_state_size :=
     c_state_size r; rep_init_size := v; delay_length := delay_length r;
     output_type := output_type r; fixed_weight := fixed_weight r;
     fixed_threshold := fixed_threshold r; fixed_tau := fixed_tau r;
     fixed_init_c_state := fixed_init_c_state r; connection_i2c :=
     connection_i2c r; connection_c2c := connection_c2c r; connection_c2o :=
     connection_c2o r; connection_c2v := connection_c2v r; const_init_c :=
     const_init_c r; softmax_group := softmax_group r; init_tau := init_tau r;
     prior_strength := prior_strength r; rep_init_variance :=
     rep_init_variance r; lambda := lambda r; alpha := alpha r |}.

Definition with_delay_length (v : Z)
  (r : model_parameters) : model_parameters :=
  {| seed := seed r; epoch_size := epoch_size r; use_adaptive_lr :=
     use_adaptive_lr r; rho := rho r; momentum := momentum r; c_state_size :=
     c_state_size r; rep_init_size := rep_init_size r; delay_length := v;
     output_type := output_type r; fixed_weight := fixed_weight r;
     fixed_threshold := fixed_threshold r; fixed_tau := fixed_tau r;
     fixed_init_c_state := fixed_init_c_state r; connection_i2c :=
     connection_i2c r; connection_c2c := connection_c2c r; connection_c2o :=
     connection_c2o r; connection_c2v := connection_c2v r; const_init_c :=
     const_init_c r; softmax_group := softmax_group r; init_tau := init_tau r;
     prior_strength := prior_strength r; rep_init_variance :=
     rep_init_variance r; lambda := lambda r; alpha := alpha r |}.

Definition with_output_type (v : Z)
  (r : model_parameters) : model_parameters :=
  {| seed := seed r; epoch_size := epoch_size r; use_adaptive_lr :=
     use_adaptive_lr r; rho := rho r; momentum := momentum r; c_state_size :=
     c_state_size r; rep_init_size := rep_init_size r; delay_length :=
     delay_length r; output_type := v; fixed_weight := fixed_weight r;
     fixed_threshold := fixed_threshold r; fixed_tau := fixed_tau r;
     fixed_init_c_state := fixed_init_c_state r; connection_i2c :=
     connection_i2c r; connection_c2c := connection_c2c r; connection_c2o :=
     connection_c2o r; connection_c2v := connection_c2v r; const_init_c :=
     const_init_c r; softmax_group := softmax_group r; init_tau := init_tau r;
     prior_strength := prior_strength r; rep_init_variance :=
     rep_init_variance r; lambda := lambda r; alpha := alpha r |}.

Definition with_fixed_weight (v : Z)
  (r : model_parameters) : model_parameters :=
  {| seed := seed r; epoch_size := epoch_size r; use_adaptive_lr :=
     use_adaptive_lr r; rho := rho r; momentum := momentum r; c_state_size :=
     c_state_size r; rep_init_size := rep_init_size r; delay_length :=
     delay_length r; output_type := output_type r; fixed_weight := v;
     fixed_threshold := fixed_threshold r; fixed_tau := fixed_tau r;
     fixed_init_c_state := fixed_init_c_state r; connection_i2c :=
     connection_i2c r; connection_c2c := connection_c2c r; connection_c2o :=
     connection_c2o r; connection_c2v := connection_c2v r; const_init_c :=
     const_init_c r; softmax_group := softmax_group r; init_tau := init_tau r;
     prior_strength := prior_strength r; rep_init_variance :=
     rep_init_variance r; lambda := lambda r; alpha := alpha r |}.

Definition with_fixed_threshold (v : Z)
  (r : model_parameters) : model_parameters :=
  {| seed := seed r; epoch_size := epoch_size r; use_adaptive_lr :=
     use_adaptive_lr r; rho := rho r; momentum := momentum r; c_state_size :=
     c_state_size r; rep_init_size := rep_init_size r; delay_length :=
     delay_length r; output_type := output_type r; fixed_weight :=
     fixed_weight r; fixed_threshold := v; fixed_tau := fixed_tau r;
     fixed_init_c_state := fixed_init_c_state r; connection_i2c :=
     connection_i2c r; connection_c2c := connection_c2c r; connection_c2o :=
     connection_c2o r; connection_c2v := connection_c2v r; const_init_c :=
     const_init_c r; softmax_group := softmax_group r; init_tau := init_tau r;
     prior_strength := prior_strength r; rep_init_variance :=
     rep_init_variance r; lambda := lambda r; alpha := alpha r |}.

Definition with_fixed_tau (v : Z)
  (r : model_parameters) : model_parameters :=
  {| seed := seed r; epoch_size := epoch_size r; use_adaptive_lr :=
     use_adaptive_lr r; rho := rho r; momentum := momentum r; c_state_size :=
     c_state_size r; rep_init_size := rep_init_size r; delay_length :=
     delay_length r; output_type := output_type r; fixed_weight :=
     fixed_weight r; fixed_threshold := fixed_threshold r; fixed_tau := v;
     fixed_init_c_state := fixed_init_c_state r; connection_i2c :=
     connection_i2c r; connection_c2c := connection_c2c r; connection_c2o :=
     connection_c2o r; connection_c2v := connection_c2v r; const_init_c :=
     const_init_c r; softmax_group := softmax_group r; init_tau := init_tau r;
     prior_strength := prior_strength r; rep_init_variance :=
     rep_init_variance r; lambda := lambda r; alpha := alpha r |}.

Definition with_fixed_init_c_state (v : Z)
  (r : model_parameters) : model_parameters :=
  {| seed := seed r; epoch_size := epoch_size r; use_adaptive_lr :=
     use_adaptive_lr r; rho := rho r; momentum := momentum r; c_state_size :=
     c_state_size r; rep_init_size := rep_init_size r; delay_length :=
     delay_length r; output_type := output_type r; fixed_weight :=
     fixed_weight r; fixed_threshold := fixed_threshold r; fixed_tau :=
     fixed_tau r; fixed_init_c_state := v; connection_i2c := connection_i2c r;
     connection_c2c := connection_c2c r; connection_c2o := connection_c2o r;
     connection_c2v := connection_c2v r; const_init_c := const_init_c r;
     softmax_group := softmax_group r; init_tau := init_tau r; prior_strength
     := prior_strength r; rep_init_variance := rep_init_variance r; lambda :=
     lambda r; alpha := alpha r |}.

Definition with_connection_i2c (v : string)
  (r : model_parameters) : model_parameters :=
  {| seed := seed r; epoch_size := epoch_size r; use_adaptive_lr :=
     use_adaptive_lr r; rho := rho r; momentum := momentum r; c_state_size :=
     c_state_size r; rep_init_size := rep_init_size r; delay_length :=
     delay_length r; output_type := output_type r; fixed_weight :=
     fixed_weight r; fixed_threshold := fixed_threshold r; fixed_tau :=
     fixed_tau r; fixed_init_c_state := fixed_init_c_state r; connection_i2c
     := v; connection_c2c := connection_c2c r; connection_c2o :=
     connection_c2o r; connection_c2v := connection_c2v r; const_init_c :=
     const_init_c r; softmax_group := softmax_group r; init_tau := init_tau r;
     prior_strength := prior_strength r; rep_init_variance :=
     rep_init_variance r; lambda := lambda r; alpha := alpha r |}.

Definition with_connection_c2c (v : string)
  (r : model_parameters) : model_parameters :=
  {| seed := seed r; epoch_size := epoch_size r; use_adaptive_lr :=
     use_adaptive_lr r; rho := rho r; momentum := momentum r; c_state_size :=
     c_state_size r; rep_init_size := rep_init_size r; delay_length :=
     delay_length r; output_type := output_type r; fixed_weight :=
     fixed_weight r; fixed_threshold := fixed_threshold r; fixed_tau :=
     fixed_tau r; fixed_init_c_state := fixed_init_c_state r; connection_i2c
     := connection_i2c r; connection_c2c := v; connection_c2o :=
     connection_c2o r; connection_c2v := connection_c2v r; const_init_c :=
     const_init_c r; softmax_group := softmax_group r; init_tau := init_tau r;
     prior_strength := prior_strength r; rep_init_variance :=
     rep_init_variance r; lambda := lambda r; alpha := alpha r |}.

Definition with_connection_c2o (v : string)
  (r : model_parameters) : model_parameters :=
  {| seed := seed r; epoch_size := epoch_size r; use_adaptive_lr :=
     use_adaptive_lr r; rho := rho r; momentum := momentum r; c_state_size :=
     c_state_size r; rep_init_size := rep_init_size r; delay_length :=
     delay_length r; output_type := output_type r; fixed_weight :=
     fixed_weight r; fixed_threshold := fixed_threshold r; fixed_tau :=
     fixed_tau r; fixed_init_c_state := fixed_init_c_state r; connection_i2c
     := connection_i2c r; connection_c2c := connection_c2c r; connection_c2o
     := v; connection_c2v := connection_c2v r; const_init_c := const_init_c r;
     softmax_group := softmax_group r; init_tau := init_tau r; prior_strength
     := prior_strength r; rep_init_variance := rep_init_variance r; lambda :=
     lambda r; alpha := alpha r |}.

Definition with_connection_c2v (v : string)
  (r : model_parameters) : model_parameters :=
  {| seed := seed r; epoch_size := epoch_size r; use_adaptive_lr :=
     use_adaptive_lr r; rho := rho r; momentum := momentum r; c_state_size :=
     c_state_size r; rep_init_size := rep_init_size r; delay_length :=
     delay_length r; output_type := output_type r; fixed_weight :=
     fixed_weight r; fixed_threshold := fixed_threshold r; fixed_tau :=
     fixed_tau r; fixed_init_c_state := fixed_init_c_state r; connection_i2c
     := connection_i2c r; connection_c2c := connection_c2c r; connection_c2o
     := connection_c2o r; connection_c2v := v; const_init_c := const_init_c r;
     softmax_group := softmax_group r; init_tau := init_tau r; prior_strength
     := prior_strength r; rep_init_variance := rep_init_variance r; lambda :=
     lambda r; alpha := alpha r |}.

Definition with_const_init_c (v : string)
  (r : model_parameters) : model_parameters :=
  {| seed := seed r; epoch_size := epoch_size r; use_adaptive_lr :=
     use_adaptive_lr r; rho := rho r; momentum := momentum r; c_state_size :=
     c_state_size r; rep_init_size := rep_init_size r; delay_length :=
     delay_length r; output_type := output_type r; fixed_weight :=
     fixed_weight r; fixed_threshold := fixed_threshold r; fixed_tau :=
     fixed_tau r; fixed_init_c_state := fixed_init_c_state r; connection_i2c
     := connection_i2c r; connection_c2c := connection_c2c r; connection_c2o
     := connection_c2o r; connection_c2v := connection_c2v r; const_init_c :=
     v; softmax_group := softmax_group r; init_tau := init_tau r;
     prior_strength := prior_strength r; rep_init_variance :=
     rep_init_variance r; lambda := lambda r; alpha := alpha r |}.

Definition with_softmax_group (v : string)
  (r : model_parameters) : model_parameters :=
  {| seed := seed r; epoch_size := epoch_size r; use_adaptive_lr :=
     use_adaptive_lr r; rho := rho r; momentum := momentum r; c_state_size :=
     c_state_size r; rep_init_size := rep_init_size r; delay_length :=
     delay_length r; output_type := output_type r; fixed_weight :=
     fixed_weight r; fixed_threshold := fixed_threshold r; fixed_tau :=
     fixed_tau r; fixed_init_c_state := fixed_init_c_state r; connection_i2c
     := connection_i2c r; connection_c2c := connection_c2c r; connection_c2o
     := connection_c2o r; connection_c2v := connection_c2v r; const_init_c :=
     const_init_c r; softmax_group := v; init_tau := init_tau r;
     prior_strength := prior_strength r; rep_init_variance :=
     rep_init_variance r; lambda := lambda r; alpha := alpha r |}.

Definition with_init_tau (v : string)
  (r : model_parameters) : model_parameters :=
  {| seed := seed r; epoch_size := epoch_size r; use_adaptive_lr :=
     use_adaptive_lr r; rho := rho r; momentum := momentum r; c_state_size :=
     c_state_size r; rep_init_size := rep_init_size r; delay_length :=
     delay_length r; output_type := output_type r; fixed_weight :=
     fixed_weight r; fixed_threshold := fixed_threshold r; fixed_tau :=
     fixed_tau r; fixed_init_c_state := fixed_init_c_state r; connection_i2c
     := connection_i2c r; connection_c2c := connection_c2c r; connection_c2o
     := connection_c2o r; connection_c2v := connection_c2v r; const_init_c :=
     const_init_c r; softmax_group := softmax_group r; init_tau := v;
     prior_strength := prior_strength r; rep_init_variance :=
     rep_init_variance r; lambda := lambda r; alpha := alpha r |}.

Definition with_prior_strength (v : spec_float)
  (r : model_parameters) : model_parameters :=
  {| seed := seed r; epoch_size := epoch_size r; use_adaptive_lr :=
     use_adaptive_lr r; rho := rho r; momentum := momentum r; c_state_size :=
     c_state_size r; rep_init_size := rep_init_size r; delay_length :=
     delay_length r; output_type := output_type r; fixed_weight :=
     fixed_weight r; fixed_threshold := fixed_threshold r; fixed_tau :=
     fixed_tau r; fixed_init_c_state := fixed_init_c_state r; connection_i2c
     := connection_i2c r; connection_c2c := connection_c2c r; connection_c2o
     := connection_c2o r; connection_c2v := connection_c2v r; const_init_c :=
     const_init_c r; softmax_group := softmax_group r; init_tau := init_tau r;
     prior_strength := v; rep_init_variance := rep_init_variance r; lambda :=
     lambda r; alpha := alpha r |}.

Definition with_rep_init_variance (v : spec_float)
  (r : model_parameters) : model_parameters :=
  {| seed := seed r; epoch_size := epoch_size r; use_adaptive_lr :=
     use_adaptive_lr r; rho := rho r; momentum := momentum r; c_state_size :=
     c_state_size r; rep_init_size := rep_init_size r; delay_length :=
     delay_length r; output_type := output_type r; fixed_weight :=
     fixed_weight r; fixed_threshold := fixed_threshold r; fixed_tau :=
     fixed_tau r; fixed_init_c_state := fixed_init_c_state r; connection_i2c
     := connection_i2c r; connection_c2c := connection_c2c r; connection_c2o
     := connection_c2o r; connection_c2v := connection_c2v r; const_init_c :=
     const_init_c r; softmax_group := softmax_group r; init_tau := init_tau r;
     prior_strength := prior_strength r; rep_init_variance := v; lambda :=
     lambda r; alpha := alpha r |}.

Definition with_lambda (v : spec_float)
  (r : model_parameters) : model_parameters :=
  {| seed := seed r; epoch_size := epoch_size r; use_adaptive_lr :=
     use_adaptive_lr r; rho := rho r; momentum := momentum r; c_state_size :=
     c_state_size r; rep_init_size := rep_init_size r; delay_length :=
     delay_length r; output_type := output_type r; fixed_weight :=
     fixed_weight r; fixed_threshold := fixed_threshold r; fixed_tau :=
     fixed_tau r; fixed_init_c_state := fixed_init_c_state r; connection_i2c
     := connection_i2c r; connection_c2c := connection_c2c r; connection_c2o
     := connection_c2o r; connection_c2v := connection_c2v r; const_init_c :=
     const_init_c r; softmax_group := softmax_group r; init_tau := init_tau r;
     prior_strength := prior_strength r; rep_init_variance :=
     rep_init_variance r; lambda := v; alpha := alpha r |}.

Definition with_alpha (v : spec_float)
  (r : model_parameters) : model_parameters :=
  {| seed := seed r; epoch_size := epoch_size r; use_adaptive_lr :=
     use_adaptive_lr r; rho := rho r; momentum := momentum r; c_state_size :=
     c_state_size r; rep_init_size := rep_init_size r; delay_length :=
     delay_length r; output_type := output_type r; fixed_weight :=
     fixed_weight r; fixed_threshold := fixed_threshold r; fixed_tau :=
     fixed_tau r; fixed_init_c_state := fixed_init_c_state r; connection_i2c
     := connection_i2c r; connection_c2c := connection_c2c r; connection_c2o
     := connection_c2o r; connection_c2v := connection_c2v r; const_init_c :=
     const_init_c r; softmax_group := softmax_group r; init_tau := init_tau r;
     prior_strength := prior_strength r; rep_init_variance :=
     rep_init_variance r; lambda := lambda r; alpha := v |}.

(** Member [ap]. *)
Record analysis_parameters : Type := {
  truncate_length : Z;
  block_length : Z;
  divide_num : Z;
  lyapunov_spectrum_size : Z;
  threshold_period : spec_float
}.

Definition with_truncate_length (v : Z)
  (r : analysis_parameters) : analysis_parameters :=
  {| truncate_length := v; block_length := block_length r; divide_num :=
     divide_num r; lyapunov_spectrum_size := lyapunov_spectrum_size r;
     threshold_period := threshold_period r |}.

Definition with_block_length (v : Z)
  (r : analysis_parameters) : analysis_parameters :=
  {| truncate_length := truncate_length r; block_length := v; divide_num :=
     divide_num r; lyapunov_spectrum_size := lyapunov_spectrum_size r;
     threshold_period := threshold_period r |}.

Definition with_divide_num (v : Z)
  (r : analysis_parameters) : analysis_parameters :=
  {| truncate_length := truncate_length r; block_length := block_length r;
     divide_num := v; lyapunov_spectrum_size := lyapunov_spectrum_size r;
     threshold_period := threshold_period r |}.

Definition with_lyapunov_spectrum_size (v : Z)
  (r : analysis_parameters) : analysis_parameters :=
  {| truncate_length := truncate_length r; block_length := block_length r;
     divide_num := divide_num r; lyapunov_spectrum_size := v; threshold_period
     := threshold_period r |}.

Definition with_threshold_period (v : spec_float)
  (r : analysis_parameters) : analysis_parameters :=
  {| truncate_length := truncate_length r; block_length := block_length r;
     divide_num := divide_num r; lyapunov_spectrum_size :=
     lyapunov_spectrum_size r; threshold_period := v |}.

(** Member [iop]: fifteen file names, the default interval policy, the
    thirteen per-stream policies and the verbosity flag. *)
Record io_parameters : Type := {
  state_filename : string;
  closed_state_filename : string;
  weight_filename : string;
  threshold_filename : string;
  tau_filename : string;
  init_filename : string;
  rep_init_filename : string;
  adapt_lr_filename : string;
  error_filename : string;
  closed_error_filename : string;
  lyapunov_filename : string;
  entropy_filename : string;
  period_filename : string;
  save_filename : string;
  load_filename : string;
  default_interval : print_interval;
  interval_for : interval_file -> print_interval;
  verbose : Z
}.

Definition with_state_filename (v : string)
  (r : io_parameters) : io_parameters :=
  {| state_filename := v; closed_state_filename := closed_state_filename r;
     weight_filename := weight_filename r; threshold_filename :=
     threshold_filename r; tau_filename := tau_filename r; init_filename :=
     init_filename r; rep_init_filename := rep_init_filename r;
     adapt_lr_filename := adapt_lr_filename r; error_filename :=
     error_filename r; closed_error_filename := closed_error_filename r;
     lyapunov_filename := lyapunov_filename r; entropy_filename :=
     entropy_filename r; period_filename := period_filename r; save_filename
     := save_filename r; load_filename := load_filename r; default_interval :=
     default_interval r; interval_for := interval_for r; verbose := verbose r
     |}.

Definition with_closed_state_filename (v : string)
  (r : io_parameters) : io_parameters :=
  {| state_filename := state_filename r; closed_state_filename := v;
     weight_filename := weight_filename r; threshold_filename :=
     threshold_filename r; tau_filename := tau_filename r; init_filename :=
     init_filename r; rep_init_filename := rep_init_filename r;
     adapt_lr_filename := adapt_lr_filename r; error_filename :=
     error_filename r; closed_error_filename := closed_error_filename r;
     lyapunov_filename := lyapunov_filename r; entropy_filename :=
     entropy_filename r; period_filename := period_filename r; save_filename
     := save_filename r; load_filename := load_filename r; default_interval :=
     default_interval r; interval_for := interval_for r; verbose := verbose r
     |}.

Definition with_weight_filename (v : string)
  (r : io_parameters) : io_parameters :=
  {| state_filename := state_filename r; closed_state_filename :=
     closed_state_filename r; weight_filename := v; threshold_filename :=
     threshold_filename r; tau_filename := tau_filename r; init_filename :=
     init_filename r; rep_init_filename := rep_init_filename r;
     adapt_lr_filename := adapt_lr_filename r; error_filename :=
     error_filename r; closed_error_filename := closed_error_filename r;
     lyapunov_filename := lyapunov_filename r; entropy_filename :=
     entropy_filename r; period_filename := period_filename r; save_filename
     := save_filename r; load_filename := load_filename r; default_interval :=
     default_interval r; interval_for := interval_for r; verbose := verbose r
     |}.

Definition with_threshold_filename (v : string)
  (r : io_parameters) : io_parameters :=
  {| state_filename := state_filename r; closed_state_filename :=
     closed_state_filename r; weight_filename := weight_filename r;
     threshold_filename := v; tau_filename := tau_filename r; init_filename :=
     init_filename r; rep_init_filename := rep_init_filename r;
     adapt_lr_filename := adapt_lr_filename r; error_filename :=
     error_filename r; closed_error_filename := closed_error_filename r;
     lyapunov_filename := lyapunov_filename r; entropy_filename :=
     entropy_filename r; period_filename := period_filename r; save_filename
     := save_filename r; load_filename := load_filename r; default_interval :=
     default_interval r; interval_for := interval_for r; verbose := verbose r
     |}.

Definition with_tau_filename (v : string)
  (r : io_parameters) : io_parameters :=
  {| state_filename := state_filename r; closed_state_filename :=
     closed_state_filename r; weight_filename := weight_filename r;
     threshold_filename := threshold_filename r; tau_filename := v;
     init_filename := init_filename r; rep_init_filename := rep_init_filename
     r; adapt_lr_filename := adapt_lr_filename r; error_filename :=
     error_filename r; closed_error_filename := closed_error_filename r;
     lyapunov_filename := lyapunov_filename r; entropy_filename :=
     entropy_filename r; period_filename := period_filename r; save_filename
     := save_filename r; load_filename := load_filename r; default_interval :=
     default_interval r; interval_for := interval_for r; verbose := verbose r
     |}.

Definition with_init_filename (v : string)
  (r : io_parameters) : io_parameters :=
  {| state_filename := state_filename r; closed_state_filename :=
     closed_state_filename r; weight_filename := weight_filename r;
     threshold_filename := threshold_filename r; tau_filename := tau_filename
     r; init_filename := v; rep_init_filename := rep_init_filename r;
     adapt_lr_filename := adapt_lr_filename r; error_filename :=
     error_filename r; closed_error_filename := closed_error_filename r;
     lyapunov_filename := lyapunov_filename r; entropy_filename :=
     entropy_filename r; period_filename := period_filename r; save_filename
     := save_filename r; load_filename := load_filename r; default_interval :=
     default_interval r; interval_for := interval_for r; verbose := verbose r
     |}.

Definition with_rep_init_filename (v : string)
  (r : io_parameters) : io_parameters :=
  {| state_filename := state_filename r; closed_state_filename :=
     closed_state_filename r; weight_filename := weight_filename r;
     threshold_filename := threshold_filename r; tau_filename := tau_filename
     r; init_filename := init_filename r; rep_init_filename := v;
     adapt_lr_filename := adapt_lr_filename r; error_filename :=
     error_filename r; closed_error_filename := closed_error_filename r;
     lyapunov_filename := lyapunov_filename r; entropy_filename :=
     entropy_filename r; period_filename := period_filename r; save_filename
     := save_filename r; load_filename := load_filename r; default_interval :=
     default_interval r; interval_for := interval_for r; verbose := verbose r
     |}.

Definition with_adapt_lr_filename (v : string)
  (r : io_parameters) : io_parameters :=
  {| state_filename := state_filename r; closed_state_filename :=
     closed_state_filename r; weight_filename := weight_filename r;
     threshold_filename := threshold_filename r; tau_filename := tau_filename
     r; init_filename := init_filename r; rep_init_filename :=
     rep_init_filename r; adapt_lr_filename := v; error_filename :=
     error_filename r; closed_error_filename := closed_error_filename r;
     lyapunov_filename := lyapunov_filename r; entropy_filename :=
     entropy_filename r; period_filename := period_filename r; save_filename
     := save_filename r; load_filename := load_filename r; default_interval :=
     default_interval r; interval_for := interval_for r; verbose := verbose r
     |}.

Definition with_error_filename (v : string)
  (r : io_parameters) : io_parameters :=
  {| state_filename := state_filename r; closed_state_filename :=
     closed_state_filename r; weight_filename := weight_filename r;
     threshold_filename := threshold_filename r; tau_filename := tau_filename
     r; init_filename := init_filename r; rep_init_filename :=
     rep_init_filename r; adapt_lr_filename := adapt_lr_filename r;
     error_filename := v; closed_error_filename := closed_error_filename r;
     lyapunov_filename := lyapunov_filename r; entropy_filename :=
     entropy_filename r; period_filename := period_filename r; save_filename
     := save_filename r; load_filename := load_filename r; default_interval :=
     default_interval r; interval_for := interval_for r; verbose := verbose r
     |}.

Definition with_closed_error_filename (v : string)
  (r : io_parameters) : io_parameters :=
  {| state_filename := state_filename r; closed_state_filename :=
     closed_state_filename r; weight_filename := weight_filename r;
     threshold_filename := threshold_filename r; tau_filename := tau_filename
     r; init_filename := init_filename r; rep_init_filename :=
     rep_init_filename r; adapt_lr_filename := adapt_lr_filename r;
     error_filename := error_filename r; closed_error_filename := v;
     lyapunov_filename := lyapunov_filename r; entropy_filename :=
     entropy_filename r; period_filename := period_filename r; save_filename
     := save_filename r; load_filename := load_filename r; default_interval :=
     default_interval r; interval_for := interval_for r; verbose := verbose r
     |}.

Definition with_lyapunov_filename (v : string)
  (r : io_parameters) : io_parameters :=
  {| state_filename := state_filename r; closed_state_filename :=
     closed_state_filename r; weight_filename := weight_filename r;
     threshold_filename := threshold_filename r; tau_filename := tau_filename
     r; init_filename := init_filename r; rep_init_filename :=
     rep_init_filename r; adapt_lr_filename := adapt_lr_filename r;
     error_filename := error_filename r; closed_error_filename :=
     closed_error_filename r; lyapunov_filename := v; entropy_filename :=
     entropy_filename r; period_filename := period_filename r; save_filename
     := save_filename r; load_filename := load_filename r; default_interval :=
     default_interval r; interval_for := interval_for r; verbose := verbose r
     |}.

Definition with_entropy_filename (v : string)
  (r : io_parameters) : io_parameters :=
  {| state_filename := state_filename r; closed_state_filename :=
     closed_state_filename r; weight_filename := weight_filename r;
     threshold_filename := threshold_filename r; tau_filename := tau_filename
     r; init_filename := init_filename r; rep_init_filename :=
     rep_init_filename r; adapt_lr_filename := adapt_lr_filename r;
     error_filename := error_filename r; closed_error_filename :=
     closed_error_filename r; lyapunov_filename := lyapunov_filename r;
     entropy_filename := v; period_filename := period_filename r;
     save_filename := save_filename r; load_filename := load_filename r;
     default_interval := default_interval r; interval_for := interval_for r;
     verbose := verbose r |}.

Definition with_period_filename (v : string)
  (r : io_parameters) : io_parameters :=
  {| state_filename := state_filename r; closed_state_filename :=
     closed_state_filename r; weight_filename := weight_filename r;
     threshold_filename := threshold_filename r; tau_filename := tau_filename
     r; init_filename := init_filename r; rep_init_filename :=
     rep_init_filename r; adapt_lr_filename := adapt_lr_filename r;
     error_filename := error_filename r; closed_error_filename :=
     closed_error_filename r; lyapunov_filename := lyapunov_filename r;
     entropy_filename := entropy_filename r; period_filename := v;
     save_filename := save_filename r; load_filename := load_filename r;
     default_interval := default_interval r; interval_for := interval_for r;
     verbose := verbose r |}.

Definition with_save_filename (v : string)
  (r : io_parameters) : io_parameters :=
  {| state_filename := state_filename r; closed_state_filename :=
     closed_state_filename r; weight_filename := weight_filename r;
     threshold_filename := threshold_filename r; tau_filename := tau_filename
     r; init_filename := init_filename r; rep_init_filename :=
     rep_init_filename r; adapt_lr_filename := adapt_lr_filename r;
     error_filename := error_filename r; closed_error_filename :=
     closed_error_filename r; lyapunov_filename := lyapunov_filename r;
     entropy_filename := entropy_filename r; period_filename :=
     period_filename r; save_filename := v; load_filename := load_filename r;
     default_interval := default_interval r; interval_for := interval_for r;
     verbose := verbose r |}.

Definition with_load_filename (v : string)
  (r : io_parameters) : io_parameters :=
  {| state_filename := state_filename r; closed_state_filename :=
     closed_state_filename r; weight_filename := weight_filename r;
     threshold_filename := threshold_filename r; tau_filename := tau_filename
     r; init_filename := init_filename r; rep_init_filename :=
     rep_init_filename r; adapt_lr_filename := adapt_lr_filename r;
     error_filename := error_filename r; closed_error_filename :=
     closed_error_filename r; lyapunov_filename := lyapunov_filename r;
     entropy_filename := entropy_filename r; period_filename :=
     period_filename r; save_filename := save_filename r; load_filename := v;
     default_interval := default_interval r; interval_for := interval_for r;
     verbose := verbose r |}.

Definition with_default_interval (v : print_interval)
  (r : io_parameters) : io_parameters :=
  {| state_filename := state_filename r; closed_state_filename :=
     closed_state_filename r; weight_filename := weight_filename r;
     threshold_filename := threshold_filename r; tau_filename := tau_filename
     r; init_filename := init_filename r; rep_init_filename :=
     rep_init_filename r; adapt_lr_filename := adapt_lr_filename r;
     error_filename := error_filename r; closed_error_filename :=
     closed_error_filename r; lyapunov_filename := lyapunov_filename r;
     entropy_filename := entropy_filename r; period_filename :=
     period_filename r; save_filename := save_filename r; load_filename :=
     load_filename r; default_interval := v; interval_for := interval_for r;
     verbose := verbose r |}.

Definition with_interval_for (v : interval_file -> print_interval)
  (r : io_parameters) : io_parameters :=
  {| state_filename := state_filename r; closed_state_filename :=
     closed_state_filename r; weight_filename := weight_filename r;
     threshold_filename := threshold_filename r; tau_filename := tau_filename
     r; init_filename := init_filename r; rep_init_filename :=
     rep_init_filename r; adapt_lr_filename := adapt_lr_filename r;
     error_filename := error_filename r; closed_error_filename :=
     closed_error_filename r; lyapunov_filename := lyapunov_filename r;
     entropy_filename := entropy_filename r; period_filename :=
     period_filename r; save_filename := save_filename r; load_filename :=
     load_filename r; default_interval := default_interval r; interval_for :=
     v; verbose := verbose r |}.

Definition with_verbose (v : Z)
  (r : io_parameters) : io_parameters :=
  {| state_filename := state_filename r; closed_state_filename :=
     closed_state_filename r; weight_filename := weight_filename r;
     threshold_filename := threshold_filename r; tau_filename := tau_filename
     r; init_filename := init_filename r; rep_init_filename :=
     rep_init_filename r; adapt_lr_filename := adapt_lr_filename r;
     error_filename := error_filename r; closed_error_filename :=
     closed_error_filename r; lyapunov_filename := lyapunov_filename r;
     entropy_filename := entropy_filename r; period_filename :=
     period_filename r; save_filename := save_filename r; load_filename :=
     load_filename r; default_interval := default_interval r; interval_for :=
     interval_for r; verbose := v |}.

(** Member [inp]: what [setup_parameters] derives. A pointer member that
    main.c has not assigned is [None]; [inp.const_init_c] and [inp.init_tau]
    carry the prefix [inp_] to tell them from the strings of [mp]. *)
Record internal_parameters : Type := {
  adapt_lr : spec_float;
  init_epoch : Z;
  has_connection_ci : option matrix;
  has_connection_cc : option matrix;
  has_connection_oc : option matrix;
  has_connection_vc : option matrix;
  connectivity_ci : option matrix;
  connectivity_cc : option matrix;
  connectivity_oc : option matrix;
  connectivity_vc : option matrix;
  softmax_group_num : option Z;
  softmax_group_id : option array;
  inp_const_init_c : option array;
  inp_init_tau : option array
}.

Definition with_adapt_lr (v : spec_float)
  (r : internal_parameters) : internal_parameters :=
  {| adapt_lr := v; init_epoch := init_epoch r; has_connection_ci :=
     has_connection_ci r; has_connection_cc := has_connection_cc r;
     has_connection_oc := has_connection_oc r; has_connection_vc :=
     has_connection_vc r; connectivity_ci := connectivity_ci r;
     connectivity_cc := connectivity_cc r; connectivity_oc := connectivity_oc
     r; connectivity_vc := connectivity_vc r; softmax_group_num :=
     softmax_group_num r; softmax_group_id := softmax_group_id r;
     inp_const_init_c := inp_const_init_c r; inp_init_tau := inp_init_tau r |}.

Definition with_init_epoch (v : Z)
  (r : internal_parameters) : internal_parameters :=
  {| adapt_lr := adapt_lr r; init_epoch := v; has_connection_ci :=
     has_connection_ci r; has_connection_cc := has_connection_cc r;
     has_connection_oc := has_connection_oc r; has_connection_vc :=
     has_connection_vc r; connectivity_ci := connectivity_ci r;
     connectivity_cc := connectivity_cc r; connectivity_oc := connectivity_oc
     r; connectivity_vc := connectivity_vc r; softmax_group_num :=
     softmax_group_num r; softmax_group_id := softmax_group_id r;
     inp_const_init_c := inp_const_init_c r; inp_init_tau := inp_init_tau r |}.

(** [struct general_parameters]. *)
Record general_parameters : Type := {
  mp : model_parameters;
  ap : analysis_parameters;
  iop : io_parameters;
  inp : internal_parameters
}.

Definition with_mp (v : model_parameters)
  (r : general_parameters) : general_parameters :=
  {| mp := v; ap := ap r; iop := iop r; inp := inp r |}.

Definition with_ap (v : analysis_parameters)
  (r : general_parameters) : general_parameters :=
  {| mp := mp r; ap := v; iop := iop r; inp := inp r |}.

Definition with_iop (v : io_parameters)
  (r : general_parameters) : general_parameters :=
  {| mp := mp r; ap := ap r; iop := v; inp := inp r |}.

Definition with_inp (v : internal_parameters)
  (r : general_parameters) : general_parameters :=
  {| mp := mp r; ap := ap r; iop := iop r; inp := v |}.

(** [struct target_reader] (target.h): main.c reads the number of parsed
    sequences and their dimension. *)
Record target_reader : Type := {
  num : Z;
  dimension : Z
}.

(** ** What main.c takes from elsewhere *)

(** libc. [strtoul s] is [strtoul(s, NULL, 0)]. [getopt argv] is the scan of
    the whole command line with the option string
    [s:n:r:t:d:k:e:l:x:m:ap:f:i:o:c:Vvh]: the successive return values of
    [getopt] with [optarg] at each of them, and the operands
    [argv[optind .. argc)] that are left when it returns [-1]. *)
Record libc : Type := {
  atoi : string -> Z;
  atol : string -> Z;
  atof : string -> spec_float;
  strtoul : string -> Z;
  getopt : list string -> list (ascii * option string) * list string
}.

(** The default macros of the build configuration. [INIT_TAU] is used
    through [TO_STRING] only, so it is the text of the macro. *)
Record defaults : Type := {
  EPOCH_SIZE : Z;
  RHO : spec_float;
  MOMENTUM : spec_float;
  C_STATE_SIZE : Z;
  REP_INIT_SIZE : Z;
  DELAY_LENGTH : Z;
  OUTPUT_TYPE : Z;
  INIT_TAU : string;
  PRIOR_STRENGTH : spec_float;
  REP_INIT_VARIANCE : spec_float;
  LAMBDA : spec_float;
  ALPHA : spec_float;
  TRUNCATE_LENGTH : Z;
  BLOCK_LENGTH : Z;
  DIVIDE_NUM : Z;
  LYAPUNOV_SPECTRUM_SIZE : Z;
  THRESHOLD_PERIOD : spec_float;
  STATE_FILENAME : string;
  CLOSED_STATE_FILENAME : string;
  WEIGHT_FILENAME : string;
  THRESHOLD_FILENAME : string;
  TAU_FILENAME : string;
  INIT_FILENAME : string;
  REP_INIT_FILENAME : string;
  ADAPT_LR_FILENAME : string;
  ERROR_FILENAME : string;
  CLOSED_ERROR_FILENAME : string;
  LYAPUNOV_FILENAME : string;
  ENTROPY_FILENAME : string;
  PERIOD_FILENAME : string;
  SAVE_FILENAME : string;
  LOAD_FILENAME : string;
  PRINT_INTERVAL : Z
}.

(** The other translation units and the macros of utils.h, each of which may
    end the process. [read_target_from_file t sep lines] is [None] when the
    C function returns [-1]. *)
Record externals : Type := {
  init_target_reader : target_reader;
  read_target_from_file :
    target_reader -> string -> list string -> option target_reader;
  MALLOC : Z -> outcome unit;
  MALLOC2 : Z -> Z -> outcome unit;
  str_to_connection : string -> Z -> Z -> outcome (matrix * matrix);
  str_to_softmax_group : string -> Z -> outcome (Z * array);
  str_to_const_init_c : string -> Z -> outcome array;
  str_to_init_tau : string -> Z -> outcome array
}.

(** The files [fopen] can open for reading, each as the lines [getline]
    returns; [None] when [fopen] fails. *)
Definition filesystem : Type := string -> option (list string).

(** ** [init_parameters] *)

Definition LONG_MAX : Z := 9223372036854775807.

Definition to_unsigned_long (x : Z) : Z := x mod 2 ^ 64.

(** [(((unsigned long)(time(NULL) * getpid())) % 4294967295) + 1] *)
Definition default_seed (time pid : Z) : Z :=
  to_unsigned_long (time * pid) mod 4294967295 + 1.

Definition default_print_interval (D : defaults) : print_interval :=
  {| interval := PRINT_INTERVAL D;
     init := 0;
     end_ := LONG_MAX;
     use_logscale_interval := 0;
     _set_interval_flag := 0;
     _set_init_flag := 0;
     _set_end_flag := 0;
     _set_use_logscale_interval_flag := 0 |}.

(** [time] and [pid] are what [time(NULL)] and [getpid()] return; [gp] is the
    storage the caller passes, whose member [inp] is left as it is. *)
Definition init_parameters (D : defaults) (time pid : Z)
  (gp : general_parameters) : general_parameters :=
  {| mp :=
       {| seed := default_seed time pid;
          epoch_size := EPOCH_SIZE D;
          use_adaptive_lr := 0;
          rho := RHO D;
          momentum := MOMENTUM D;
          c_state_size := C_STATE_SIZE D;
          rep_init_size := REP_INIT_SIZE D;
          delay_length := DELAY_LENGTH D;
          output_type := OUTPUT_TYPE D;
          fixed_weight := 0;
          fixed_threshold := 0;
          fixed_tau := 0;
          fixed_init_c_state := 0;
          connection_i2c := "-t-";
          connection_c2c := "-t-";
          connection_c2o := "-t-";
          connection_c2v := "-t-";
          const_init_c := EmptyString;
          softmax_group := EmptyString;
          init_tau := INIT_TAU D;
          prior_strength := PRIOR_STRENGTH D;
          rep_init_variance := REP_INIT_VARIANCE D;
          lambda := LAMBDA D;
          alpha := ALPHA D |};
     ap :=
       {| truncate_length := TRUNCATE_LENGTH D;
          block_length := BLOCK_LENGTH D;
          divide_num := DIVIDE_NUM D;
          lyapunov_spectrum_size := LYAPUNOV_SPECTRUM_SIZE D;
          threshold_period := THRESHOLD_PERIOD D |};
     iop :=
       {| state_filename := STATE_FILENAME D;
          closed_state_filename := CLOSED_STATE_FILENAME D;
          weight_filename := WEIGHT_FILENAME D;
          threshold_filename := THRESHOLD_FILENAME D;
          tau_filename := TAU_FILENAME D;
          init_filename := INIT_FILENAME D;
          rep_init_filename := REP_INIT_FILENAME D;
          adapt_lr_filename := ADAPT_LR_FILENAME D;
          error_filename := ERROR_FILENAME D;
          closed_error_filename := CLOSED_ERROR_FILENAME D;
          lyapunov_filename := LYAPUNOV_FILENAME D;
          entropy_filename := ENTROPY_FILENAME D;
          period_filename := PERIOD_FILENAME D;
          save_filename := SAVE_FILENAME D;
          load_filename := LOAD_FILENAME D;
          default_interval := default_print_interval D;
          interval_for := fun _ => default_print_interval D;
          verbose := 0 |};
     inp := inp gp |}.

(** ** The option setters *)

Definition setter : Type :=
  option string -> general_parameters -> outcome general_parameters.

(** A libc call that reads the string [opt] points to. *)
Definition reading {A} (opt : option string) (f : string -> A) : outcome A :=
  match opt with
  | Some s => ret (f s)
  | None => Undefined []
  end.

(** [salloc(dst, src)]: a fresh copy of [src]; running out of memory is not
    modelled. *)
Definition salloc (src : option string) : outcome string :=
  reading src (fun s => s).

Definition on_mp (f : model_parameters -> model_parameters)
  (gp : general_parameters) : general_parameters := with_mp (f (mp gp)) gp.

Definition on_ap (f : analysis_parameters -> analysis_parameters)
  (gp : general_parameters) : general_parameters := with_ap (f (ap gp)) gp.

Definition on_iop (f : io_parameters -> io_parameters)
  (gp : general_parameters) : general_parameters := with_iop (f (iop gp)) gp.

(** The [OPT] tokens of the interval macros, with the member [OPT] and the
    member [_set_OPT_flag] they select. *)
Inductive interval_opt : Type :=
| opt_interval | opt_init | opt_end | opt_use_logscale_interval.

Definition get_opt (o : interval_opt) (p : print_interval) : Z :=
  match o with
  | opt_interval => interval p
  | opt_init => init p
  | opt_end => end_ p
  | opt_use_logscale_interval => use_logscale_interval p
  end.

Definition put_opt (o : interval_opt) (v : Z) (p : print_interval)
  : print_interval :=
  match o with
  | opt_interval => with_interval v p
  | opt_init => with_init v p
  | opt_end => with_end_ v p
  | opt_use_logscale_interval => with_use_logscale_interval v p
  end.

Definition get_flag (o : interval_opt) (p : print_interval) : Z :=
  match o with
  | opt_interval => _set_interval_flag p
  | opt_init => _set_init_flag p
  | opt_end => _set_end_flag p
  | opt_use_logscale_interval => _set_use_logscale_interval_flag p
  end.

Definition put_flag (o : interval_opt) (v : Z) (p : print_interval)
  : print_interval :=
  match o with
  | opt_interval => with_set_interval_flag v p
  | opt_init => with_set_init_flag v p
  | opt_end => with_set_end_flag v p
  | opt_use_logscale_interval => with_set_use_logscale_interval_flag v p
  end.

(** [gp->iop.interval_for_FILENAME = p] *)
Definition assign_interval_for (F : interval_file) (p : print_interval)
  (io : io_parameters) : io_parameters :=
  with_interval_for
    (fun G => if interval_file_eqb G F then p else interval_for io G) io.

(** [SET_DEFAULT_VALUE_OF_PRINT_INTERVAL_I(FILENAME,OPT)] *)
Definition SET_DEFAULT_VALUE_OF_PRINT_INTERVAL_I (F : interval_file)
  (O : interval_opt) (io : io_parameters) : io_parameters :=
  if get_flag O (interval_for io F) =? 0 then
    assign_interval_for F
      (put_opt O (get_opt O (default_interval io)) (interval_for io F)) io
  else io.

(** [SET_DEFAULT_VALUE_OF_PRINT_INTERVAL(OPT)]: the thirteen instances, in
    the order of the macro. *)
Definition SET_DEFAULT_VALUE_OF_PRINT_INTERVAL (O : interval_opt)
  (io : io_parameters) : io_parameters :=
  fold_left (fun io F => SET_DEFAULT_VALUE_OF_PRINT_INTERVAL_I F O io)
    interval_files io.

(** The four global setters share this shape: the member [OPT] of
    [default_interval] is assigned, then the macro runs. *)
Definition set_default_opt (O : interval_opt) (v : Z)
  (gp : general_parameters) : general_parameters :=
  on_iop (fun io =>
    SET_DEFAULT_VALUE_OF_PRINT_INTERVAL O
      (with_default_interval (put_opt O v (default_interval io)) io)) gp.

(** [GEN_PRINT_INTERVAL_SETTER_I(FILENAME,NAME,OPT,IN)]: the body of
    [set_NAME_for_FILENAME]. *)
Definition GEN_PRINT_INTERVAL_SETTER_I (F : interval_file) (O : interval_opt)
  (IN : option string -> outcome Z) : setter :=
  fun opt gp =>
    v <- IN opt;;
    ret (on_iop (fun io =>
      assign_interval_for F
        (put_flag O 1 (put_opt O v (interval_for io F))) io) gp).

Section Setters.

Variable L : libc.

Definition set_seed : setter := fun opt gp =>
  v <- reading opt (strtoul L);; ret (on_mp (with_seed v) gp).

Definition set_epoch_size : setter := fun opt gp =>
  v <- reading opt (atol L);; ret (on_mp (with_epoch_size v) gp).

Definition set_use_adaptive_lr : setter := fun opt gp =>
  ret (on_mp (with_use_adaptive_lr 1) gp).

Definition set_rho : setter := fun opt gp =>
  v <- reading opt (atof L);; ret (on_mp (with_rho v) gp).

Definition set_momentum : setter := fun opt gp =>
  v <- reading opt (atof L);; ret (on_mp (with_momentum v) gp).

Definition set_c_state_size : setter := fun opt gp =>
  v <- reading opt (atoi L);; ret (on_mp (with_c_state_size v) gp).

Definition set_rep_init_size : setter := fun opt gp =>
  v <- reading opt (atoi L);; ret (on_mp (with_rep_init_size v) gp).

Definition set_delay_length : setter := fun opt gp =>
  v <- reading opt (atoi L);; ret (on_mp (with_delay_length v) gp).

Definition set_output_type : setter := fun opt gp =>
  v <- reading opt (atoi L);; ret (on_mp (with_output_type v) gp).

Definition set_fixed_weight : setter := fun opt gp =>
  ret (on_mp (with_fixed_weight 1) gp).

Definition set_fixed_threshold : setter := fun opt gp =>
  ret (on_mp (with_fixed_threshold 1) gp).

Definition set_fixed_tau : setter := fun opt gp =>
  ret (on_mp (with_fixed_tau 1) gp).

Definition set_fixed_init_c_state : setter := fun opt gp =>
  ret (on_mp (with_fixed_init_c_state 1) gp).

Definition set_connection_i2c : setter := fun opt gp =>
  v <- salloc opt;; ret (on_mp (with_connection_i2c v) gp).

Definition set_connection_c2c : setter := fun opt gp =>
  v <- salloc opt;; ret (on_mp (with_connection_c2c v) gp).

Definition set_connection_c2o : setter := fun opt gp =>
  v <- salloc opt;; ret (on_mp (with_connection_c2o v) gp).

Definition set_connection_c2v : setter := fun opt gp =>
  v <- salloc opt;; ret (on_mp (with_connection_c2v v) gp).

Definition set_const_init_c : setter := fun opt gp =>
  v <- salloc opt;; ret (on_mp (with_const_init_c v) gp).

Definition set_softmax_group : setter := fun opt gp =>
  v <- salloc opt;; ret (on_mp (with_softmax_group v) gp).

Definition set_init_tau : setter := fun opt gp =>
  v <- salloc opt;; ret (on_mp (with_init_tau v) gp).

Definition set_prior_strength : setter := fun opt gp =>
  v <- reading opt (atof L);; ret (on_mp (with_prior_strength v) gp).

Definition set_rep_init_variance : setter := fun opt gp =>
  v <- reading opt (atof L);; ret (on_mp (with_rep_init_variance v) gp).

Definition set_lambda : setter := fun opt gp =>
  v <- reading opt (atof L);; ret (on_mp (with_lambda v) gp).

Definition set_alpha : setter := fun opt gp =>
  v <- reading opt (atof L);; ret (on_mp (with_alpha v) gp).

Definition set_truncate_length : setter := fun opt gp =>
  v <- reading opt (atoi L);; ret (on_ap (with_truncate_length v) gp).

Definition set_block_length : setter := fun opt gp =>
  v <- reading opt (atoi L);; ret (on_ap (with_block_length v) gp).

Definition set_divide_num : setter := fun opt gp =>
  v <- reading opt (atoi L);; ret (on_ap (with_divide_num v) gp).

Definition set_lyapunov_spectrum_size : setter := fun opt gp =>
  v <- reading opt (atoi L);;
  ret (on_ap (with_lyapunov_spectrum_size v) gp).

Definition set_threshold_period : setter := fun opt gp =>
  v <- reading opt (atof L);; ret (on_ap (with_threshold_period v) gp).

Definition set_state_file : setter := fun opt gp =>
  v <- salloc opt;; ret (on_iop (with_state_filename v) gp).

Definition set_closed_state_file : setter := fun opt gp =>
  v <- salloc opt;; ret (on_iop (with_closed_state_filename v) gp).

Definition set_weight_file : setter := fun opt gp =>
  v <- salloc opt;; ret (on_iop (with_weight_filename v) gp).

Definition set_threshold_file : setter := fun opt gp =>
  v <- salloc opt;; ret (on_iop (with_threshold_filename v) gp).

Definition set_tau_file : setter := fun opt gp =>
  v <- salloc opt;; ret (on_iop (with_tau_filename v) gp).

Definition set_init_file : setter := fun opt gp =>
  v <- salloc opt;; ret (on_iop (with_init_filename v) gp).

Definition set_rep_init_file : setter := fun opt gp =>
  v <- salloc opt;; ret (on_iop (with_rep_init_filename v) gp).

Definition set_adapt_lr_file : setter := fun opt gp =>
  v <- salloc opt;; ret (on_iop (with_adapt_lr_filename v) gp).

Definition set_error_file : setter := fun opt gp =>
  v <- salloc opt;; ret (on_iop (with_error_filename v) gp).

Definition set_closed_error_file : setter := fun opt gp =>
  v <- salloc opt;; ret (on_iop (with_closed_error_filename v) gp).

Definition set_lyapunov_file : setter := fun opt gp =>
  v <- salloc opt;; ret (on_iop (with_lyapunov_filename v) gp).

Definition set_entropy_file : setter := fun opt gp =>
  v <- salloc opt;; ret (on_iop (with_entropy_filename v) gp).

Definition set_period_file : setter := fun opt gp =>
  v <- salloc opt;; ret (on_iop (with_period_filename v) gp).

Definition set_save_file : setter := fun opt gp =>
  v <- salloc opt;; ret (on_iop (with_save_filename v) gp).

Definition set_load_file : setter := fun opt gp =>
  v <- salloc opt;; ret (on_iop (with_load_filename v) gp).

Definition set_print_interval : setter := fun opt gp =>
  v <- reading opt (atol L);; ret (set_default_opt opt_interval v gp).

Definition set_print_init : setter := fun opt gp =>
  v <- reading opt (atol L);; ret (set_default_opt opt_init v gp).

Definition set_print_end : setter := fun opt gp =>
  v <- reading opt (atol L);; ret (set_default_opt opt_end v gp).

Definition set_use_logscale_interval : setter := fun opt gp =>
  ret (set_default_opt opt_use_logscale_interval 1 gp).

(** [GEN_PRINT_INTERVAL_SETTER(FILENAME)]: [set_print_interval_for F] is
    the C function [set_print_interval_for_FILENAME], and so on. *)
Definition set_print_interval_for (F : interval_file) : setter :=
  GEN_PRINT_INTERVAL_SETTER_I F opt_interval
    (fun opt => reading opt (atol L)).

Definition set_print_init_for (F : interval_file) : setter :=
  GEN_PRINT_INTERVAL_SETTER_I F opt_init (fun opt => reading opt (atol L)).

Definition set_print_end_for (F : interval_file) : setter :=
  GEN_PRINT_INTERVAL_SETTER_I F opt_end (fun opt => reading opt (atol L)).

Definition set_use_logscale_interval_for (F : interval_file) : setter :=
  GEN_PRINT_INTERVAL_SETTER_I F opt_use_logscale_interval
    (fun _ => ret 1).

Definition set_verbose : setter := fun opt gp =>
  ret (on_iop (with_verbose 1) gp).

End Setters.

(** ** The option table *)

(** [struct option_information] *)
Record option_information : Type := {
  name : string;
  has_arg : Z;
  setter_of : setter
}.

(** The text of a [FILENAME] token, as [#OPTION] spells it. *)
Definition interval_file_name (F : interval_file) : string :=
  match F with
  | state_file => "state_file"
  | closed_state_file => "closed_state_file"
  | weight_file => "weight_file"
  | threshold_file => "threshold_file"
  | tau_file => "tau_file"
  | init_file => "init_file"
  | rep_init_file => "rep_init_file"
  | adapt_lr_file => "adapt_lr_file"
  | error_file => "error_file"
  | closed_error_file => "closed_error_file"
  | lyapunov_file => "lyapunov_file"
  | entropy_file => "entropy_file"
  | period_file => "period_file"
  end.

Section Options.

Variable L : libc.

(** [set_config_file], which [read_config_file] reaches through the table
    and which calls [read_config_file] in turn. *)
Variable set_config_file : setter.

(** [ENTRY_PRINT_INTERVAL_SETTER_II(FILENAME,NAME,HAS_ARG)] *)
Definition ENTRY_PRINT_INTERVAL_SETTER_II (F : interval_file)
  (NAME : string) (f : interval_file -> setter) (HAS_ARG : Z)
  : option_information :=
  {| name := String.append NAME (String.append "_for_" (interval_file_name F));
     has_arg := HAS_ARG;
     setter_of := f F |}.

(** [ENTRY_PRINT_INTERVAL_SETTER(FILENAME)] *)
Definition ENTRY_PRINT_INTERVAL_SETTER (F : interval_file)
  : list option_information :=
  [ ENTRY_PRINT_INTERVAL_SETTER_II F "print_interval"
      (set_print_interval_for L) 1;
    ENTRY_PRINT_INTERVAL_SETTER_II F "print_init" (set_print_init_for L) 1;
    ENTRY_PRINT_INTERVAL_SETTER_II F "print_end" (set_print_end_for L) 1;
    ENTRY_PRINT_INTERVAL_SETTER_II F "use_logscale_interval"
      set_use_logscale_interval_for 0 ].

Definition entry (n : string) (a : Z) (f : setter) : option_information :=
  {| name := n; has_arg := a; setter_of := f |}.

(** [opt_info[]] without its closing sentinel [{0, 0, NULL}]: the end of
    the list is the entry whose [setter] is [NULL]. *)
Definition opt_info : list option_information :=
  [ entry "seed" 1 (set_seed L);
    entry "epoch_size" 1 (set_epoch_size L);
    entry "use_adaptive_lr" 0 set_use_adaptive_lr;
    entry "rho" 1 (set_rho L);
    entry "momentum" 1 (set_momentum L);
    entry "c_state_size" 1 (set_c_state_size L);
    entry "rep_init_size" 1 (set_rep_init_size L);
    entry "delay_length" 1 (set_delay_length L);
    entry "output_type" 1 (set_output_type L);
    entry "fixed_weight" 0 set_fixed_weight;
    entry "fixed_threshold" 0 set_fixed_threshold;
    entry "fixed_tau" 0 set_fixed_tau;
    entry "fixed_init_c_state" 0 set_fixed_init_c_state;
    entry "connection_i2c" 1 set_connection_i2c;
    entry "connection_c2c" 1 set_connection_c2c;
    entry "connection_c2o" 1 set_connection_c2o;
    entry "connection_c2v" 1 set_connection_c2v;
    entry "const_init_c" 1 set_const_init_c;
    entry "softmax_group" 1 set_softmax_group;
    entry "init_tau" 1 set_init_tau;
    entry "prior_strength" 1 (set_prior_strength L);
    entry "rep_init_variance" 1 (set_rep_init_variance L);
    entry "lambda" 1 (set_lambda L);
    entry "alpha" 1 (set_alpha L);
    entry "truncate_length" 1 (set_truncate_length L);
    entry "block_length" 1 (set_block_length L);
    entry "divide_num" 1 (set_divide_num L);
    entry "lyapunov_spectrum_size" 1 (set_lyapunov_spectrum_size L);
    entry "threshold_period" 1 (set_threshold_period L);
    entry "state_file" 1 set_state_file;
    entry "closed_state_file" 1 set_closed_state_file;
    entry "weight_file" 1 set_weight_file;
    entry "threshold_file" 1 set_threshold_file;
    entry "tau_file" 1 set_tau_file;
    entry "init_file" 1 set_init_file;
    entry "rep_init_file" 1 set_rep_init_file;
    entry "adapt_lr_file" 1 set_adapt_lr_file;
    entry "error_file" 1 set_error_file;
    entry "closed_error_file" 1 set_closed_error_file;
    entry "lyapunov_file" 1 set_lyapunov_file;
    entry "entropy_file" 1 set_entropy_file;
    entry "period_file" 1 set_period_file;
    entry "save_file" 1 set_save_file;
    entry "load_file" 1 set_load_file;
    entry "print_interval" 1 (set_print_interval L);
    entry "print_init" 1 (set_print_init L);
    entry "print_end" 1 (set_print_end L);
    entry "use_logscale_interval" 0 set_use_logscale_interval ]
  ++ ENTRY_PRINT_INTERVAL_SETTER state_file
  ++ ENTRY_PRINT_INTERVAL_SETTER closed_state_file
  ++ ENTRY_PRINT_INTERVAL_SETTER weight_file
  ++ ENTRY_PRINT_INTERVAL_SETTER threshold_file
  ++ ENTRY_PRINT_INTERVAL_SETTER tau_file
  ++ ENTRY_PRINT_INTERVAL_SETTER init_file
  ++ ENTRY_PRINT_INTERVAL_SETTER rep_init_file
  ++ ENTRY_PRINT_INTERVAL_SETTER adapt_lr_file
  ++ ENTRY_PRINT_INTERVAL_SETTER error_file
  ++ ENTRY_PRINT_INTERVAL_SETTER closed_error_file
  ++ ENTRY_PRINT_INTERVAL_SETTER lyapunov_file
  ++ ENTRY_PRINT_INTERVAL_SETTER entropy_file
  ++ ENTRY_PRINT_INTERVAL_SETTER period_file
  ++ [ entry "verbose" 0 set_verbose;
       entry "config_file" 1 set_config_file ].

(** The search loop of [read_config_file]: the first entry whose name
    compares equal, or [None] when the loop reaches the sentinel. *)
Fixpoint find_option (opt : string) (table : list option_information)
  : option option_information :=
  match table with
  | [] => None
  | e :: table' =>
      if CString.streq opt (name e) then Some e else find_option opt table'
  end.

(** The body of the [while (getline ...)] loop of [read_config_file] for
    the line [str], which is line number [line]. *)
Definition read_config_line (line : Z) (str : string)
  (gp : general_parameters) : outcome general_parameters :=
  match parse_option_and_arg str with
  | (Some opt, arg) =>
      if 0 <? CString.strlen opt then
        match find_option opt opt_info with
        | Some e =>
            match has_arg e =? 0, arg with
            | false, None =>
                warn "warning: option `%s' requires an argument at line %d"
                  [Arg_s opt; Arg_d line] gp
            | _, _ => setter_of e arg gp
            end
        | None =>
            warn "warning: unknown option `%s' at line %d"
              [Arg_s opt; Arg_d line] gp
        end
      else ret gp
  | (None, _) => ret gp
  end.

(** The loop of [read_config_file] over the remaining lines; [line] is the
    counter before the next [line++]. *)
Fixpoint read_config_lines (line : Z) (lines : list string)
  (gp : general_parameters) : outcome general_parameters :=
  match lines with
  | [] => ret gp
  | str :: lines' =>
      gp' <- read_config_line (line + 1) str gp;;
      read_config_lines (line + 1) lines' gp'
  end.

Definition read_config_file (lines : list string)
  (gp : general_parameters) : outcome general_parameters :=
  read_config_lines 0 lines gp.

(** One turn of the [switch] of [read_options]. *)
Definition read_option (opt : ascii) (optarg : option string)
  (gp : general_parameters) : outcome general_parameters :=
  if Ascii.eqb opt "s" then set_seed L optarg gp
  else if Ascii.eqb opt "n" then set_c_state_size L optarg gp
  else if Ascii.eqb opt "r" then set_rep_init_size L optarg gp
  else if Ascii.eqb opt "t" then set_init_tau optarg gp
  else if Ascii.eqb opt "d" then set_delay_length L optarg gp
  else if Ascii.eqb opt "k" then set_output_type L optarg gp
  else if Ascii.eqb opt "e" then set_epoch_size L optarg gp
  else if Ascii.eqb opt "l" then set_print_interval L optarg gp
  else if Ascii.eqb opt "x" then set_rho L optarg gp
  else if Ascii.eqb opt "m" then set_momentum L optarg gp
  else if Ascii.eqb opt "a" then set_use_adaptive_lr None gp
  else if Ascii.eqb opt "p" then set_prior_strength L optarg gp
  else if Ascii.eqb opt "i" then set_load_file optarg gp
  else if Ascii.eqb opt "o" then set_save_file optarg gp
  else if Ascii.eqb opt "c" then set_config_file optarg gp
  else if Ascii.eqb opt "V" then set_verbose None gp
  else if Ascii.eqb opt "v" then Exits [display_version] EXIT_SUCCESS
  else if Ascii.eqb opt "h" then Exits [display_help] EXIT_SUCCESS
  else
    Exits
      [fprintf_stderr
         (String.append "Try `rnn-learn -h' for more information."
            (String CString.newline EmptyString))]
      EXIT_SUCCESS.

(** The [while ((opt = getopt(...)) != -1)] loop over what [getopt]
    returns. *)
Fixpoint read_options_loop (scan : list (ascii * option string))
  (gp : general_parameters) : outcome general_parameters :=
  match scan with
  | [] => ret gp
  | (opt, optarg) :: scan' =>
      gp' <- read_option opt optarg gp;;
      read_options_loop scan' gp'
  end.

End Options.

(** [set_config_file]: [fuel] bounds how deeply configuration files may
    include one another. *)
Fixpoint set_config_file (L : libc) (fs : filesystem) (fuel : nat)
  (opt : option string) (gp : general_parameters)
  : outcome general_parameters :=
  match fuel with
  | O => OutOfFuel []
  | S fuel' =>
      match opt with
      | None => Undefined []
      | Some path =>
          match fs path with
          | None => fatal "cannot open %s" [Arg_s path]
          | Some lines =>
              read_config_file L (set_config_file L fs fuel') lines gp
          end
      end
  end.

Definition read_options (L : libc) (fs : filesystem) (fuel : nat)
  (argv : list string) (gp : general_parameters)
  : outcome general_parameters :=
  read_options_loop L (set_config_file L fs fuel) (fst (getopt L argv)) gp.

(** ** [setup_target] *)

(** The separator set [" \t,"] *)
Definition target_separators : string :=
  String " " (String "009" (String "," EmptyString)).

Section Setup.

Variable X : externals.
Variable fs : filesystem.

(** The [for (i = optind; i < argc; i++)] loop of [setup_target]. *)
Fixpoint read_target_files (files : list string) (t_reader : target_reader)
  : outcome target_reader :=
  match files with
  | [] => ret t_reader
  | file :: files' =>
      match fs file with
      | None => fatal "cannot open %s" [Arg_s file]
      | Some lines =>
          match read_target_from_file X t_reader target_separators lines with
          | None => fatal "error in %s" [Arg_s file]
          | Some t_reader' => read_target_files files' t_reader'
          end
      end
  end.

(** [operands] is [argv[optind .. argc)], so [argc == optind] is
    [operands = []]; [stdin] is the lines of the standard input. *)
Definition setup_target (stdin : list string) (operands : list string)
  (gp : general_parameters) : outcome target_reader :=
  let t_reader := init_target_reader X in
  if (Z.of_nat (List.length operands) =? 0)
     && (CString.strlen (load_filename (iop gp)) =? 0)
  then
    match read_target_from_file X t_reader target_separators stdin with
    | None => fatal "error in the standard input" []
    | Some t_reader' => ret t_reader'
    end
  else read_target_files operands t_reader.

(** ** [setup_parameters] *)

(** The [double] constant [1.0] *)
Definition one : spec_float := S754_finite false 4503599627370496 (-52).

Definition setup_parameters (gp : general_parameters)
  (t_reader : target_reader) : outcome general_parameters :=
  let gp := with_inp (with_init_epoch 0 (with_adapt_lr one (inp gp))) gp in
  if (CString.strlen (load_filename (iop gp)) =? 0)
     && negb (num t_reader =? 0)
  then
    let c := c_state_size (mp gp) in
    let d := dimension t_reader in
    _ <- MALLOC2 X c d;;
    _ <- MALLOC2 X c c;;
    _ <- MALLOC2 X d c;;
    _ <- MALLOC2 X d c;;
    _ <- MALLOC2 X c d;;
    _ <- MALLOC2 X c c;;
    _ <- MALLOC2 X d c;;
    _ <- MALLOC2 X d c;;
    ci <- str_to_connection X (connection_i2c (mp gp)) d c;;
    cc <- str_to_connection X (connection_c2c (mp gp)) c c;;
    oc <- str_to_connection X (connection_c2o (mp gp)) c d;;
    vc <- str_to_connection X (connection_c2v (mp gp)) c d;;
    _ <- MALLOC X d;;
    sg <- str_to_softmax_group X (softmax_group (mp gp)) d;;
    _ <- MALLOC X c;;
    ic <- str_to_const_init_c X (const_init_c (mp gp)) c;;
    _ <- MALLOC X c;;
    tau <- str_to_init_tau X (init_tau (mp gp)) c;;
    ret (with_inp
           {| adapt_lr := adapt_lr (inp gp);
              init_epoch := init_epoch (inp gp);
              has_connection_ci := Some (fst ci);
              has_connection_cc := Some (fst cc);
              has_connection_oc := Some (fst oc);
              has_connection_vc := Some (fst vc);
              connectivity_ci := Some (snd ci);
              connectivity_cc := Some (snd cc);
              connectivity_oc := Some (snd oc);
              connectivity_vc := Some (snd vc);
              softmax_group_num := Some (fst sg);
              softmax_group_id := Some (snd sg);
              inp_const_init_c := Some ic;
              inp_init_tau := Some tau |} gp)
  else ret gp.

End Setup.

(** ** [check_parameters] *)

(** The [int] constant [0] converted to [double] *)
Definition zero : spec_float := S754_zero false.

Definition check_parameters (gp : general_parameters)
  (t_reader : target_reader) : outcome unit :=
  if seed (mp gp) <=? 0 then
    fatal "seed for random number generator not in valid range: x >= 1 (integer)" []
  else if SFltb (rho (mp gp)) zero then
    fatal "learning rate not in valid range: x >= 0 (float)" []
  else if SFltb (momentum (mp gp)) zero then
    fatal "learning momentum not in valid range: x >= 0 (float)" []
  else if c_state_size (mp gp) <=? 0 then
    fatal "number of context neurons must be greater than zero." []
  else if rep_init_size (mp gp) <=? 0 then
    fatal "number of representative points of initial state must be greater than zero." []
  else if delay_length (mp gp) <=? 0 then
    fatal "time delay in a self-feedback not in valid range: x > 0 (integer)" []
  else if negb (output_type (mp gp) =? 0) && negb (output_type (mp gp) =? 1) then
    fatal "type of output function must be 0(tanh) or 1(softmax activation function)" []
  else if SFltb (prior_strength (mp gp)) zero then
    fatal "effect of the normal prior distribution not in valid range: x >= 0 (float)" []
  else if SFleb (rep_init_variance (mp gp)) zero then
    fatal "variance for representative points of initial state not in valid range: x >= 0 (float)" []
  else if SFltb (lambda (mp gp)) zero then
    fatal "`lambda' not in valid range: x >= 0 (float)" []
  else if SFltb (alpha (mp gp)) zero then
    fatal "`alpha' not in valid range: x >= 0 (float)" []
  else if truncate_length (ap gp) <? 0 then
    fatal "`truncate_length' not in valid range: x >= 0 (integer)" []
  else if block_length (ap gp) <? 0 then
    fatal "`block_length' not in valid range: x >= 0 (integer)" []
  else if divide_num (ap gp) <=? 0 then
    fatal "`divide_num' not in valid range: x >= 1 (integer)" []
  else if (num t_reader =? 0)
          && (CString.strlen (load_filename (iop gp)) =? 0) then
    fatal "training data is empty." []
  else ret tt.

(** ** [main], up to the call of [training_main] *)

(** The statements of [main] before [check_parameters]: [init_parameters],
    [read_options], [setup_target] and [setup_parameters]. [gp0] is the
    contents of the local [gp] before [init_parameters]; [time] and [pid]
    are the ambient values [init_parameters] reads. *)
Definition main_setup (D : defaults) (L : libc) (X : externals)
  (time pid : Z) (gp0 : general_parameters)
  (fs : filesystem) (fuel : nat) (stdin : list string) (argv : list string)
  : outcome (general_parameters * target_reader) :=
  let gp := init_parameters D time pid gp0 in
  gp <- read_options L fs fuel argv gp;;
  t_reader <- setup_target X fs stdin (snd (getopt L argv)) gp;;
  gp <- setup_parameters X gp t_reader;;
  ret (gp, t_reader).

(** The run of [main] from its first statement to the call
    [training_main(&gp, &t_reader)]: [Returns log (gp, t_reader)] means that
    [training_main] is called with this record and this reader; any other
    outcome means that the process ended before the call. *)
Definition main (D : defaults) (L : libc) (X : externals)
  (time pid : Z) (gp0 : general_parameters)
  (fs : filesystem) (fuel : nat) (stdin : list string) (argv : list string)
  : outcome (general_parameters * target_reader) :=
  x <- main_setup D L X time pid gp0 fs fuel stdin argv;;
  _ <- check_parameters (fst x) (snd x);;
  ret x.

(** ** Vocabulary of the statements *)

(** The tests of [check_parameters], in the order in which it runs them. *)
Inductive checked_field : Type :=
| f_seed | f_rho | f_momentum | f_c_state_size | f_rep_init_size
| f_delay_length | f_output_type | f_prior_strength | f_rep_init_variance
| f_lambda | f_alpha | f_truncate_length | f_block_length | f_divide_num
| f_training_data.

(** The condition under which [check_parameters] rejects the field. *)
Definition out_of_range (f : checked_field) (gp : general_parameters)
  (t_reader : target_reader) : bool :=
  match f with
  | f_seed => seed (mp gp) <=? 0
  | f_rho => SFltb (rho (mp gp)) zero
  | f_momentum => SFltb (momentum (mp gp)) zero
  | f_c_state_size => c_state_size (mp gp) <=? 0
  | f_rep_init_size => rep_init_size (mp gp) <=? 0
  | f_delay_length => delay_length (mp gp) <=? 0
  | f_output_type =>
      negb (output_type (mp gp) =? 0) && negb (output_type (mp gp) =? 1)
  | f_prior_strength => SFltb (prior_strength (mp gp)) zero
  | f_rep_init_variance => SFleb (rep_init_variance (mp gp)) zero
  | f_lambda => SFltb (lambda (mp gp)) zero
  | f_alpha => SFltb (alpha (mp gp)) zero
  | f_truncate_length => truncate_length (ap gp) <? 0
  | f_block_length => block_length (ap gp) <? 0
  | f_divide_num => divide_num (ap gp) <=? 0
  | f_training_data =>
      (num t_reader =? 0) && (CString.strlen (load_filename (iop gp)) =? 0)
  end.

(** The message [check_parameters] prints for the field. *)
Definition message_of (f : checked_field) : string :=
  match f with
  | f_seed =>
      "seed for random number generator not in valid range: x >= 1 (integer)"
  | f_rho => "learning rate not in valid range: x >= 0 (float)"
  | f_momentum => "learning momentum not in valid range: x >= 0 (float)"
  | f_c_state_size => "number of context neurons must be greater than zero."
  | f_rep_init_size =>
      "number of representative points of initial state must be greater than zero."
  | f_delay_length =>
      "time delay in a self-feedback not in valid range: x > 0 (integer)"
  | f_output_type =>
      "type of output function must be 0(tanh) or 1(softmax activation function)"
  | f_prior_strength =>
      "effect of the normal prior distribution not in valid range: x >= 0 (float)"
  | f_rep_init_variance =>
      "variance for representative points of initial state not in valid range: x >= 0 (float)"
  | f_lambda => "`lambda' not in valid range: x >= 0 (float)"
  | f_alpha => "`alpha' not in valid range: x >= 0 (float)"
  | f_truncate_length =>
      "`truncate_length' not in valid range: x >= 0 (integer)"
  | f_block_length => "`block_length' not in valid range: x >= 0 (integer)"
  | f_divide_num => "`divide_num' not in valid range: x >= 1 (integer)"
  | f_training_data => "training data is empty."
  end.

Definition checked_fields : list checked_field :=
  [f_seed; f_rho; f_momentum; f_c_state_size; f_rep_init_size;
   f_delay_length; f_output_type; f_prior_strength; f_rep_init_variance;
   f_lambda; f_alpha; f_truncate_length; f_block_length; f_divide_num;
   f_training_data].

(** The first field, in the order of the tests, that is out of range. *)
Definition first_out_of_range (gp : general_parameters)
  (t_reader : target_reader) : option checked_field :=
  find (fun f => out_of_range f gp t_reader) checked_fields.

(** A range that [check_parameters] tests is violated: a negative learning
    rate, momentum, prior strength, [lambda], [alpha], truncate length or
    block length, or a context-neuron count, feedback delay or [divide_num]
    that is not positive. *)
Definition invalid_range (gp : general_parameters) : Prop :=
  SFltb (rho (mp gp)) zero = true
  \/ c_state_size (mp gp) <= 0
  \/ SFltb (momentum (mp gp)) zero = true
  \/ delay_length (mp gp) <= 0
  \/ SFltb (prior_strength (mp gp)) zero = true
  \/ SFltb (lambda (mp gp)) zero = true
  \/ SFltb (alpha (mp gp)) zero = true
  \/ truncate_length (ap gp) < 0
  \/ block_length (ap gp) < 0
  \/ divide_num (ap gp) <= 0.

(** [gp] with the three members [check_parameters] does not read replaced. *)
Definition with_unchecked (e l : Z) (t : spec_float)
  (gp : general_parameters) : general_parameters :=
  on_mp (with_epoch_size e)
    (on_ap (with_lyapunov_spectrum_size l)
       (on_ap (with_threshold_period t) gp)).

(** [gp] with its seed replaced. *)
Definition reseed (s : Z) (gp : general_parameters) : general_parameters :=
  on_mp (with_seed s) gp.

(** Two records that agree on every member but, possibly, the seed. *)
Definition same_but_seed (gp1 gp2 : general_parameters) : Prop :=
  reseed 0 gp1 = reseed 0 gp2.

(** Two outcomes that end the same way with the same events, and whose
    results, when they return, are related by [R]. *)
Definition outcome_rel {A} (R : A -> A -> Prop) (o1 o2 : outcome A) : Prop :=
  match o1, o2 with
  | Returns l1 a1, Returns l2 a2 => l1 = l2 /\ R a1 a2
  | Exits l1 s1, Exits l2 s2 => l1 = l2 /\ s1 = s2
  | Undefined l1, Undefined l2 => l1 = l2
  | OutOfFuel l1, OutOfFuel l2 => l1 = l2
  | _, _ => False
  end.

(** The line assigns the seed: it names the option [seed] and has an [=]. *)
Definition line_supplies_seed (str : string) : bool :=
  match parse_option_and_arg str with
  | (Some opt, Some _) => CString.streq opt "seed"
  | _ => false
  end.

(** The line assigns the seed, or it is a [config_file=] line whose file
    supplies the seed according to [sup]. *)
Definition line_fixes (sup : string -> bool) (str : string) : bool :=
  line_supplies_seed str
  || match parse_option_and_arg str with
     | (Some opt, Some inner) => CString.streq opt "config_file" && sup inner
     | _ => false
     end.

(** The configuration file [path] has a [seed=] line, or includes, through a
    [config_file=] line and within the fuel, a file that has one. *)
Fixpoint file_supplies_seed (fs : filesystem) (fuel : nat) (path : string)
  : bool :=
  match fuel with
  | O => false
  | S fuel' =>
      match fs path with
      | None => false
      | Some lines => existsb (line_fixes (file_supplies_seed fs fuel')) lines
      end
  end.

(** What [getopt] returned is [-s], or [-c] with a file that supplies the
    seed according to [sup]. *)
Definition option_fixes (sup : string -> bool) (o : ascii * option string)
  : bool :=
  Ascii.eqb (fst o) "s"
  || (Ascii.eqb (fst o) "c"
      && match snd o with
         | Some path => sup path
         | None => false
         end).

(** The seed option is supplied: [-s] on the command line, or [-c] with a
    configuration file that supplies it. *)
Definition seed_supplied (L : libc) (fs : filesystem) (fuel : nat)
  (argv : list string) : bool :=
  existsb (option_fixes (file_supplies_seed fs fuel)) (fst (getopt L argv)).

(** Two runs of [main] that call [training_main] with the same reader and
    with records that agree but, possibly, for the seed. *)
Definition same_call_but_seed (x y : general_parameters * target_reader)
  : Prop :=
  same_but_seed (fst x) (fst y) /\ snd x = snd y.

(** The member [OPT] of stream [F] was set by a per-stream setter. *)
Definition explicitly_set (F : interval_file) (O : interval_opt)
  (gp : general_parameters) : Prop :=
  get_flag O (interval_for (iop gp) F) <> 0.

(** The per-stream setter [set_NAME_for_FILENAME] that assigns member [OPT]
    of stream [F], and the global setter that assigns the default of
    [OPT]. *)
Definition per_stream_setter (L : libc) (F : interval_file)
  (O : interval_opt) : setter :=
  match O with
  | opt_interval => set_print_interval_for L F
  | opt_init => set_print_init_for L F
  | opt_end => set_print_end_for L F
  | opt_use_logscale_interval => set_use_logscale_interval_for F
  end.

Definition default_setter (L : libc) (O : interval_opt) : setter :=
  match O with
  | opt_interval => set_print_interval L
  | opt_init => set_print_init L
  | opt_end => set_print_end L
  | opt_use_logscale_interval => set_use_logscale_interval
  end.

(** [g] keeps [P]: when [P] holds before a call that returns, it holds
    after it. *)
Definition keeps (P : general_parameters -> Prop)
  (g : general_parameters -> outcome general_parameters) : Prop :=
  forall gp l gp', P gp -> g gp = Returns l gp' -> P gp'.

(** Two records that agree but for the seed, and whose seeds pass or fail
    the test [seed <= 0] together. *)
Definition seed_rel (gp1 gp2 : general_parameters) : Prop :=
  same_but_seed gp1 gp2
  /\ (seed (mp gp1) <=? 0) = (seed (mp gp2) <=? 0).

(** [g] maps records related by [R] to outcomes related by [R']. *)
Definition relates (R R' : general_parameters -> general_parameters -> Prop)
  (g : general_parameters -> outcome general_parameters) : Prop :=
  forall gp1 gp2, R gp1 gp2 -> outcome_rel R' (g gp1) (g gp2).

(** The options of [opt_info] that name an output file: the fourteen output
    streams. *)
Definition output_file_options : list string :=
  ["state_file"; "closed_state_file"; "weight_file"; "threshold_file";
   "tau_file"; "init_file"; "rep_init_file"; "adapt_lr_file"; "error_file";
   "closed_error_file"; "lyapunov_file"; "entropy_file"; "period_file";
   "save_file"].

(** The names under which a per-stream interval setter of the stream
    [stream] would be listed in [opt_info]. *)
Definition interval_option_names (stream : string) : list string :=
  map (fun NAME => String.append NAME (String.append "_for_" stream))
    ["print_interval"; "print_init"; "print_end"; "use_logscale_interval"].

(** ** A concrete environment for the examples *)

Module Sample.

Definition digit (c : ascii) : option Z :=
  let n := Z.of_N (N_of_ascii c) in
  if (48 <=? n) && (n <=? 57) then Some (n - 48) else None.

Fixpoint digits (acc : Z) (s : string) : Z :=
  match s with
  | EmptyString => acc
  | String c s' =>
      match digit c with
      | Some d => digits (10 * acc + d) s'
      | None => acc
      end
  end.

(** decimal numerals with an optional minus sign *)
Definition integer (s : string) : Z :=
  match s with
  | String "-" s' => - digits 0 s'
  | _ => digits 0 s
  end.

Definition float_of_Z (n : Z) : spec_float :=
  match n with
  | Z0 => S754_zero false
  | Zpos p => S754_finite false p 0
  | Zneg p => S754_finite true p 0
  end.

(** integral numerals and [nan] *)
Definition float (s : string) : spec_float :=
  if String.eqb s "nan" then S754_nan else float_of_Z (integer s).

Definition takes_argument (c : ascii) : bool :=
  CString.mem c "snrtdkelxmpfioc".

(** options of the form [-x] or [-x value], up to the first operand *)
Fixpoint scan (args : list string)
  : list (ascii * option string) * list string :=
  match args with
  | String "-" (String c EmptyString) :: rest =>
      if takes_argument c then
        match rest with
        | value :: rest' =>
            let r := scan rest' in ((c, Some value) :: fst r, snd r)
        | [] => ([("?"%char, None)], [])
        end
      else let r := scan rest in ((c, None) :: fst r, snd r)
  | _ => ([], args)
  end.

Definition L : libc :=
  {| atoi := integer;
     atol := integer;
     atof := float;
     strtoul := fun s => to_unsigned_long (integer s);
     getopt := fun argv => scan (tl argv) |}.

Definition D : defaults :=
  {| EPOCH_SIZE := 1000;
     RHO := float_of_Z 1;
     MOMENTUM := float_of_Z 1;
     C_STATE_SIZE := 10;
     REP_INIT_SIZE := 1;
     DELAY_LENGTH := 1;
     OUTPUT_TYPE := 0;
     INIT_TAU := "5";
     PRIOR_STRENGTH := float_of_Z 0;
     REP_INIT_VARIANCE := float_of_Z 1;
     LAMBDA := float_of_Z 0;
     ALPHA := float_of_Z 0;
     TRUNCATE_LENGTH := 0;
     BLOCK_LENGTH := 0;
     DIVIDE_NUM := 1;
     LYAPUNOV_SPECTRUM_SIZE := 0;
     THRESHOLD_PERIOD := float_of_Z 1;
     STATE_FILENAME := "state.log";
     CLOSED_STATE_FILENAME := "closed_state.log";
     WEIGHT_FILENAME := "weight.log";
     THRESHOLD_FILENAME := "threshold.log";
     TAU_FILENAME := "tau.log";
     INIT_FILENAME := "init.log";
     REP_INIT_FILENAME := "rep_init.log";
     ADAPT_LR_FILENAME := "adapt_lr.log";
     ERROR_FILENAME := "error.log";
     CLOSED_ERROR_FILENAME := "closed_error.log";
     LYAPUNOV_FILENAME := "lyapunov.log";
     ENTROPY_FILENAME := "entropy.log";
     PERIOD_FILENAME := "period.log";
     SAVE_FILENAME := "rnn.dat";
     LOAD_FILENAME := EmptyString;
     PRINT_INTERVAL := 1 |}.

(** a reader that counts one sequence of dimension one per non-empty
    input, and allocation and parsers that succeed *)
Definition X : externals :=
  {| init_target_reader := {| num := 0; dimension := 0 |};
     read_target_from_file := fun t _ lines =>
       match lines with
       | [] => Some t
       | _ => Some {| num := num t + 1; dimension := 1 |}
       end;
     MALLOC := fun _ => ret tt;
     MALLOC2 := fun _ _ => ret tt;
     str_to_connection := fun _ _ _ => ret ([], []);
     str_to_softmax_group := fun _ _ => ret (0, []);
     str_to_const_init_c := fun _ _ => ret [];
     str_to_init_tau := fun _ _ => ret [] |}.

Definition empty_inp : internal_parameters :=
  {| adapt_lr := zero; init_epoch := 0;
     has_connection_ci := None; has_connection_cc := None;
     has_connection_oc := None; has_connection_vc := None;
     connectivity_ci := None; connectivity_cc := None;
     connectivity_oc := None; connectivity_vc := None;
     softmax_group_num := None; softmax_group_id := None;
     inp_const_init_c := None; inp_init_tau := None |}.

(** storage before [init_parameters] *)
Definition blank : general_parameters :=
  {| mp := Build_model_parameters 0 0 0 zero zero 0 0 0 0 0 0 0 0
             EmptyString EmptyString EmptyString EmptyString EmptyString
             EmptyString EmptyString zero zero zero zero;
     ap := Build_analysis_parameters 0 0 0 0 zero;
     iop := Build_io_parameters EmptyString EmptyString EmptyString
              EmptyString EmptyString EmptyString EmptyString EmptyString
              EmptyString EmptyString EmptyString EmptyString EmptyString
              EmptyString EmptyString (default_print_interval D)
              (fun _ => default_print_interval D) 0;
     inp := empty_inp |}.

(** the record [init_parameters] leaves, with the seed 1 *)
Definition gp : general_parameters :=
  reseed 1 (init_parameters D 0 0 blank).

Definition one_sequence : target_reader := {| num := 1; dimension := 1 |}.
Definition no_sequence : target_reader := {| num := 0; dimension := 0 |}.

(** a line of text as [getline] returns it *)
Definition line (s : string) : string :=
String.append s (String CString.newline EmptyString).

Definition files : filesystem := fun path =>
if String.eqb path "data.txt" then Some [line "0.5"; line "0.25"]
else if String.eqb path "rnn.conf" then
  Some [line "# analysis"; line "lyapunov_spectrum_size=-3";
        line "threshold_period = -2"]
else if String.eqb path "typo.conf" then
  Some [line "no_such_option = 1"; line "rho"; line "epoch_size = 20"]
else if String.eqb path "seed.conf" then Some [line "seed = 42"]
else if String.eqb path "outer.conf" then
  Some [line "rho = 2"; line "config_file = seed.conf"]
else if String.eqb path "nan.conf" then Some [line "rep_init_variance=nan"]
else if String.eqb path "log.conf" then
  Some [line "print_interval_for_error_file = 5"; line "print_interval = 100"]
else None.

(** the run of [main] on the command line [argv], with an empty standard
    input and configuration files nested at most three deep *)
Definition run (time pid : Z) (argv : list string)
  : outcome (general_parameters * target_reader) :=
main D L X time pid blank files 3 [] argv.

(** the record a call leaves when it returns *)
Definition value (o : outcome general_parameters) : general_parameters :=
match o with
| Returns _ g => g
| _ => blank
end.

Definition includes : setter := set_config_file L files 3.

(** [print_interval_for_error_file = 5], then two more lines, then the
    global [print_interval = 100] *)
Definition error_every_5 : general_parameters :=
value (per_stream_setter L error_file opt_interval (Some "5") gp).

Definition error_every_5_later : general_parameters :=
value (read_config_lines L includes 1
         [line "print_init = 3"; line "verbose"] error_every_5).

Definition every_100 : general_parameters :=
value (default_setter L opt_interval (Some "100") error_every_5_later).

Definition negative_rate : general_parameters :=
on_mp (with_rho (float_of_Z (-1))) gp.

Definition no_neurons : general_parameters :=
on_mp (with_c_state_size 0) gp.

Definition no_representative_point : general_parameters :=
on_mp (with_rep_init_size 0) gp.

Definition linear_output : general_parameters :=
on_mp (with_output_type 2) gp.

End Sample.


(** ** [free_parameters] *)

(** The pointer members of [inp] that [free_parameters] hands to [FREE2] and
    [FREE] are all assigned. *)
Definition tables_assigned (i : internal_parameters) : bool :=
  match has_connection_ci i, has_connection_cc i, has_connection_oc i,
        has_connection_vc i, connectivity_ci i, connectivity_cc i,
        connectivity_oc i, connectivity_vc i, inp_const_init_c i,
        softmax_group_id i, inp_init_tau i with
  | Some _, Some _, Some _, Some _, Some _, Some _, Some _, Some _,
    Some _, Some _, Some _ => true
  | _, _, _, _, _, _, _, _, _, _, _ => false
  end.

(** [free_parameters(gp)]: the tables of [inp] are freed when no load file
    is given, the strings of [mp] and [iop] always. Freeing a pointer that
    was never assigned is undefined. *)
Definition free_parameters (gp : general_parameters) : outcome unit :=
  if CString.strlen (load_filename (iop gp)) =? 0 then
    if tables_assigned (inp gp) then ret tt else Undefined []
  else ret tt.

(** ** Vocabulary of the further statements *)

(** The string consists of the character [c] only. *)
Fixpoint only (c : ascii) (s : string) : bool :=
  match s with
  | EmptyString => true
  | String a s' => Ascii.eqb a c && only c s'
  end.

(** The string starts with, and ends in, the character [c]. *)
Definition first_is (c : ascii) (s : string) : bool :=
  match s with
  | EmptyString => false
  | String a _ => Ascii.eqb a c
  end.

Fixpoint last_is (c : ascii) (s : string) : bool :=
  match s with
  | EmptyString => false
  | String a EmptyString => Ascii.eqb a c
  | String _ s' => last_is c s'
  end.

(** The characters that end the text of a configuration line. *)
Definition comment_start : string :=
  String "#" (String CString.newline EmptyString).

(** What a line that [read_config_file] passes over silently continues
    with after its leading spaces: nothing, a comment, the end of the line,
    or an [=]. *)
Definition ignorable_rest (rest : string) : bool :=
  match rest with
  | EmptyString => true
  | String a _ => CString.mem a (String "=" comment_start)
  end.

(** The option characters [read_options] hands to a setter. *)
Definition setter_options : string := "snrtdkelxmapiocV".

(** The event [read_options] leaves when it ends the process for the option
    character [opt]. *)
Definition leaving_event (opt : ascii) : event :=
  if Ascii.eqb opt "v" then display_version
  else if Ascii.eqb opt "h" then display_help
  else fprintf_stderr
         (String.append "Try `rnn-learn -h' for more information."
            (String CString.newline EmptyString)).

(** The call did not run out of fuel. *)
Definition within_fuel {A} (o : outcome A) : Prop :=
  match o with
  | OutOfFuel _ => False
  | _ => True
  end.

(** The six [double] members that [check_parameters] tests, all NaN. *)
Definition with_nan_floats (gp : general_parameters) : general_parameters :=
  on_mp (fun m =>
    with_rho S754_nan
      (with_momentum S754_nan
         (with_prior_strength S754_nan
            (with_rep_init_variance S754_nan
               (with_lambda S754_nan (with_alpha S754_nan m)))))) gp.

(** The entries of [opt_info] that assign one member of [mp], [ap] or a file
    name of [iop]: those before [print_interval]. *)
Definition member_options (L : libc) (cfg : setter)
  : list option_information := firstn 44 (opt_info L cfg).

(** A text without comment character and newline, and without a space at
    either end. *)
Definition trimmed_text (s : string) : Prop :=
  CString.mem "#" s = false
  /\ CString.mem CString.newline s = false
  /\ first_is " " s = false
  /\ last_is " " s = false.

(** The strings of the list are pairwise different. *)
Fixpoint distinct (l : list string) : bool :=
  match l with
  | [] => true
  | x :: l' => negb (existsb (String.eqb x) l') && distinct l'
  end.

(** The entry of [opt_info L cfg'] that stands where [e] stands in
    [opt_info L cfg]: the tables differ in the setter of [config_file]
    only. *)
Definition retarget (cfg' : setter) (e : option_information)
  : option_information :=
  if CString.streq (name e) "config_file"
  then {| name := name e; has_arg := has_arg e; setter_of := cfg' |}
  else e.

(** The seed of the record is [s]. *)
Definition seed_is (s : Z) (gp : general_parameters) : Prop :=
  seed (mp gp) = s.

(** Two [iop] members with the same file names and the same verbosity. *)
Definition same_files (io io' : io_parameters) : Prop :=
  state_filename io' = state_filename io
  /\ closed_state_filename io' = closed_state_filename io
  /\ weight_filename io' = weight_filename io
  /\ threshold_filename io' = threshold_filename io
  /\ tau_filename io' = tau_filename io
  /\ init_filename io' = init_filename io
  /\ rep_init_filename io' = rep_init_filename io
  /\ adapt_lr_filename io' = adapt_lr_filename io
  /\ error_filename io' = error_filename io
  /\ closed_error_filename io' = closed_error_filename io
  /\ lyapunov_filename io' = lyapunov_filename io
  /\ entropy_filename io' = entropy_filename io
  /\ period_filename io' = period_filename io
  /\ save_filename io' = save_filename io
  /\ load_filename io' = load_filename io
  /\ verbose io' = verbose io.

(** The flags that an option without argument raises. *)
Inductive raised_flag : Type :=
| flag_use_adaptive_lr | flag_fixed_weight | flag_fixed_threshold
| flag_fixed_tau | flag_fixed_init_c_state | flag_verbose
| flag_use_logscale_interval.

Definition flag_value (f : raised_flag) (gp : general_parameters) : Z :=
  match f with
  | flag_use_adaptive_lr => use_adaptive_lr (mp gp)
  | flag_fixed_weight => fixed_weight (mp gp)
  | flag_fixed_threshold => fixed_threshold (mp gp)
  | flag_fixed_tau => fixed_tau (mp gp)
  | flag_fixed_init_c_state => fixed_init_c_state (mp gp)
  | flag_verbose => verbose (iop gp)
  | flag_use_logscale_interval =>
      use_logscale_interval (default_interval (iop gp))
  end.

Definition raised (f : raised_flag) (gp : general_parameters) : Prop :=
  flag_value f gp = 1.

(** The value an interval setter assigns to member [OPT] when it is called
    with the argument [a]: [atol(opt)], or 1 for [use_logscale_interval];
    [None] when it hands [NULL] to [atol]. *)
Definition setter_value (L : libc) (O : interval_opt) (a : option string)
  : option Z :=
  match O with
  | opt_use_logscale_interval => Some 1
  | _ => option_map (atol L) a
  end.

(** [gp'] is what further reading leaves of [gp]: any number of passes, each
    the lines of a configuration file or the options of a command line,
    configuration files included through [-c] and [config_file=]. *)
Inductive reads_on (L : libc) (fs : filesystem) (fuel : nat)
  : general_parameters -> general_parameters -> Prop :=
| reads_none : forall gp, reads_on L fs fuel gp gp
| reads_lines : forall n lines gp l gp' gp'',
    read_config_lines L (set_config_file L fs fuel) n lines gp
    = Returns l gp' ->
    reads_on L fs fuel gp' gp'' ->
    reads_on L fs fuel gp gp''
| reads_options : forall scan gp l gp' gp'',
    read_options_loop L (set_config_file L fs fuel) scan gp
    = Returns l gp' ->
    reads_on L fs fuel gp' gp'' ->
    reads_on L fs fuel gp gp''.

(** The text of a configuration line: what stands before the first [#] or
    newline. *)
Definition line_text (str : string) : string :=
  CString.cut_at comment_start str.

Module Later.

(** [Sample.error_every_5_later] after the options [-x 2 -V], and then
    after the global [print_interval = 100] *)
Definition after_options : general_parameters :=
Sample.value
  (read_options_loop Sample.L Sample.includes
     [("x"%char, Some "2"); ("V"%char, None)] Sample.error_every_5_later).

Definition every_100 : general_parameters :=
Sample.value
  (default_setter Sample.L opt_interval (Some "100") after_options).

End Later.

(** * Properties *)

(** ** The outcome monad *)

Lemma after_nil {A} (m : outcome A) : after [] m = m.
Proof. destruct m; reflexivity. Qed.

Lemma bind_returns {A B} (m : outcome A) (k : A -> outcome B) l b :
  bind m k = Returns l b ->
  exists l1 a l2, m = Returns l1 a /\ k a = Returns l2 b /\ l = l1 ++ l2.
Proof.
  destruct m as [l1 a| | |]; simpl; try discriminate.
  destruct (k a) as [l2 b'| | |] eqn:E; simpl; try discriminate.
  intros H; inversion H; subst. exists l1, a, l2. auto.
Qed.

(** ** [check_parameters] *)

(** [check_parameters] rejects with the message of the first field that is
    out of range, and returns when there is none. *)
Lemma check_parameters_first gp tr :
  check_parameters gp tr =
  match first_out_of_range gp tr with
  | Some f => fatal (message_of f) []
  | None => ret tt
  end.
Proof.
  unfold check_parameters, first_out_of_range, checked_fields, find, out_of_range.
  repeat match goal with
         | |- (if ?c then _ else _) = _ => destruct c; [reflexivity|]
         end.
  reflexivity.
Qed.

Lemma first_out_of_range_sound gp tr f :
  first_out_of_range gp tr = Some f -> out_of_range f gp tr = true.
Proof.
  unfold first_out_of_range. intros H. apply find_some in H. tauto.
Qed.

Lemma first_out_of_range_complete gp tr f :
  out_of_range f gp tr = true -> exists f', first_out_of_range gp tr = Some f'.
Proof.
  intros H. destruct (first_out_of_range gp tr) as [f'|] eqn:E; eauto.
  unfold first_out_of_range in E.
  pose proof (find_none _ _ E f) as N. simpl in N.
  rewrite N in H; [discriminate|].
  destruct f; unfold checked_fields; simpl; tauto.
Qed.

Lemma check_parameters_accepts gp tr :
  check_parameters gp tr = ret tt <->
  forall f, out_of_range f gp tr = false.
Proof.
  rewrite check_parameters_first. split.
  - destruct (first_out_of_range gp tr) eqn:E; [discriminate|].
    intros _ f. destruct (out_of_range f gp tr) eqn:O; auto.
    destruct (first_out_of_range_complete _ _ _ O) as [f' E']. congruence.
  - intros H. destruct (first_out_of_range gp tr) eqn:E; auto.
    apply first_out_of_range_sound in E. rewrite H in E. discriminate.
Qed.

Lemma check_parameters_rejects gp tr f :
  out_of_range f gp tr = true ->
  exists f', out_of_range f' gp tr = true
             /\ check_parameters gp tr = fatal (message_of f') [].
Proof.
  intros H. destruct (first_out_of_range_complete _ _ _ H) as [f' E].
  exists f'. split.
  - eapply first_out_of_range_sound; eauto.
  - rewrite check_parameters_first, E. reflexivity.
Qed.

(** ** [main] *)

Lemma main_enters_training D L X time pid gp0 fs fuel stdin argv log gp tr :
  main D L X time pid gp0 fs fuel stdin argv = Returns log (gp, tr) ->
  main_setup D L X time pid gp0 fs fuel stdin argv = Returns log (gp, tr)
  /\ check_parameters gp tr = ret tt.
Proof.
  unfold main. intros H.
  apply bind_returns in H. destruct H as (l1 & [gp' tr'] & l2 & Hs & Hk & ->).
  simpl in Hk.
  rewrite check_parameters_first in *.
  destruct (first_out_of_range gp' tr') eqn:E; simpl in Hk; [discriminate|].
  inversion Hk; subst. rewrite app_nil_r, E. auto.
Qed.

Lemma main_rejects D L X time pid gp0 fs fuel stdin argv log gp tr msg :
  main_setup D L X time pid gp0 fs fuel stdin argv = Returns log (gp, tr) ->
  check_parameters gp tr = fatal msg [] ->
  main D L X time pid gp0 fs fuel stdin argv =
  Exits (log ++ [print_error_msg msg []]) EXIT_FAILURE.
Proof.
  unfold main. intros -> H. simpl. rewrite H. reflexivity.
Qed.

Section Validation.

Variables (D : defaults) (L : libc) (X : externals).
Variables (time pid : Z) (gp0 : general_parameters).
Variables (fs : filesystem) (fuel : nat) (stdin argv : list string).

Local Notation "'run_main'" :=
  (main D L X time pid gp0 fs fuel stdin argv).
Local Notation "'run_setup'" :=
  (main_setup D L X time pid gp0 fs fuel stdin argv).

(** A record with a field out of range never reaches [training_main]:
    [check_parameters] ends the process with the message of the first
    such field. *)
Lemma rejected_never_trains gp tr f :
  out_of_range f gp tr = true ->
  exists f',
    out_of_range f' gp tr = true
    /\ first_out_of_range gp tr = Some f'
    /\ check_parameters gp tr = fatal (message_of f') []
    /\ forall log,
         run_main <> Returns log (gp, tr)
         /\ (run_setup = Returns log (gp, tr) ->
             run_main =
             Exits (log ++ [print_error_msg (message_of f') []])
               EXIT_FAILURE).
Proof.
  intros H. destruct (first_out_of_range_complete _ _ _ H) as [f' E].
  assert (C : check_parameters gp tr = fatal (message_of f') [])
    by (rewrite check_parameters_first, E; reflexivity).
  exists f'. repeat split; auto.
  - eapply first_out_of_range_sound; eauto.
  - intros M. apply main_enters_training in M. destruct M as [_ M].
    rewrite C in M. discriminate.
  - intros S. eapply main_rejects; eauto.
Qed.

(** C1. Validation is fatal and precedes training: for every record in
    which the learning rate, momentum, prior strength, lambda, alpha,
    truncate length or block length is negative, or the context-neuron
    count, the feedback delay or divide_num is not positive,
    check_parameters prints the message of a field that is out of range
    (the first one in the order of its tests) and exits with EXIT_FAILURE;
    main runs check_parameters after the options, the configuration files
    and the targets have been read, so it never calls training_main with
    such a record. *)
Theorem invalid_configuration_is_fatal gp tr :
  invalid_range gp ->
  exists f,
    out_of_range f gp tr = true
    /\ first_out_of_range gp tr = Some f
    /\ check_parameters gp tr = fatal (message_of f) []
    /\ forall log,
         run_main <> Returns log (gp, tr)
         /\ (run_setup = Returns log (gp, tr) ->
             run_main =
             Exits (log ++ [print_error_msg (message_of f) []])
               EXIT_FAILURE).
Proof.
  unfold invalid_range.
  intros [H|[H|[H|[H|[H|[H|[H|[H|[H|H]]]]]]]]].
  - apply (rejected_never_trains gp tr f_rho); exact H.
  - apply (rejected_never_trains gp tr f_c_state_size); simpl; lia.
  - apply (rejected_never_trains gp tr f_momentum); exact H.
  - apply (rejected_never_trains gp tr f_delay_length); simpl; lia.
  - apply (rejected_never_trains gp tr f_prior_strength); exact H.
  - apply (rejected_never_trains gp tr f_lambda); exact H.
  - apply (rejected_never_trains gp tr f_alpha); exact H.
  - apply (rejected_never_trains gp tr f_truncate_length); simpl; lia.
  - apply (rejected_never_trains gp tr f_block_length); simpl; lia.
  - apply (rejected_never_trains gp tr f_divide_num); simpl; lia.
Qed.

(** C5. The output type is restricted to tanh and softmax: training_main
    is called only with output_type 0 or 1, and for every other value
    check_parameters prints an error and the process exits with
    EXIT_FAILURE before training. *)
Theorem output_type_is_tanh_or_softmax gp tr log :
  (run_main = Returns log (gp, tr) ->
   output_type (mp gp) = 0 \/ output_type (mp gp) = 1)
  /\ (output_type (mp gp) <> 0 -> output_type (mp gp) <> 1 ->
      exists f,
        check_parameters gp tr = fatal (message_of f) []
        /\ run_main <> Returns log (gp, tr)
        /\ (run_setup = Returns log (gp, tr) ->
            run_main =
            Exits (log ++ [print_error_msg (message_of f) []])
              EXIT_FAILURE)).
Proof.
  split.
  - intros M. apply main_enters_training in M. destruct M as [_ M].
    apply check_parameters_accepts with (f := f_output_type) in M.
    simpl in M. lia.
  - intros H0 H1.
    destruct (rejected_never_trains gp tr f_output_type)
      as (f & _ & _ & C & M); [simpl; lia|].
    exists f. split; [exact C|]. apply M.
Qed.

(** C7. Whenever training_main is called, rep_init_size is at least 1:
    check_parameters rejects every record with rep_init_size <= 0, and
    main does not touch the record between the check and the call. *)
Theorem representative_points_at_least_one gp tr log :
  (run_main = Returns log (gp, tr) -> 1 <= rep_init_size (mp gp))
  /\ (rep_init_size (mp gp) <= 0 ->
      exists f,
        check_parameters gp tr = fatal (message_of f) []
        /\ run_main <> Returns log (gp, tr)).
Proof.
  split.
  - intros M. apply main_enters_training in M. destruct M as [_ M].
    apply check_parameters_accepts with (f := f_rep_init_size) in M.
    simpl in M. lia.
  - intros H.
    destruct (rejected_never_trains gp tr f_rep_init_size)
      as (f & _ & _ & C & M); [simpl; lia|].
    exists f. split; [exact C|]. apply M.
Qed.

(** C6, amended. An empty training set is fatal: when no sequence was
    parsed and no load file is given, check_parameters exits with
    EXIT_FAILURE and training_main is not called. The test of the training
    data is the last one, so the message is that of the first field out of
    range in the order of the tests: it is 'training data is empty.'
    exactly when every range test passes, and the message of the first
    failing range test otherwise. *)
Theorem empty_training_set_is_fatal gp tr :
  num tr = 0 ->
  load_filename (iop gp) = EmptyString ->
  exists f,
    first_out_of_range gp tr = Some f
    /\ out_of_range f gp tr = true
    /\ check_parameters gp tr = fatal (message_of f) []
    /\ (f = f_training_data <->
        forall f', f' <> f_training_data -> out_of_range f' gp tr = false)
    /\ (check_parameters gp {| num := 1; dimension := dimension tr |} = ret tt ->
        check_parameters gp tr = fatal "training data is empty." [])
    /\ forall log,
         run_main <> Returns log (gp, tr)
         /\ (run_setup = Returns log (gp, tr) ->
             run_main =
             Exits (log ++ [print_error_msg (message_of f) []])
               EXIT_FAILURE).
Proof.
  intros N F.
  assert (T : out_of_range f_training_data gp tr = true)
    by (simpl; rewrite N, F; reflexivity).
  destruct (rejected_never_trains gp tr f_training_data T)
    as (f & O & Fi & C & M).
  exists f. split; [exact Fi|]. split; [exact O|]. split; [exact C|].
  split; [|split; [|exact M]].
  - split.
    + intros ->. intros f' Ne.
      unfold first_out_of_range, checked_fields, find in Fi.
      repeat match type of Fi with
             | (if ?c then _ else _) = _ =>
                 destruct c eqn:?; [discriminate Fi|]
             end.
      destruct f'; try assumption. contradiction.
    + intros A. destruct f; try reflexivity;
        (rewrite A in O; [discriminate O|discriminate]).
  - intros A. rewrite check_parameters_accepts in A.
    rewrite check_parameters_first.
    unfold first_out_of_range, checked_fields, find.
    repeat match goal with
           | |- context [out_of_range ?f gp tr] =>
               lazymatch f with
               | f_training_data => fail
               | _ => replace (out_of_range f gp tr) with false
                        by (symmetry; exact (A f))
               end
           end.
    rewrite T. reflexivity.
Qed.

End Validation.


(** ** What [check_parameters] does not read *)

(** C8. The decision of check_parameters never examines epoch_size,
    lyapunov_spectrum_size or threshold_period: two records that differ only
    in these members get the same outcome; in particular a record in which
    the three are negative passes validation, and a run that sets them to
    negative values reaches training_main. *)
Theorem unchecked_fields_do_not_matter :
  (forall gp tr e l t,
      check_parameters (with_unchecked e l t gp) tr = check_parameters gp tr)
  /\ check_parameters
       (with_unchecked (-1) (-1) (Sample.float_of_Z (-1)) Sample.gp)
       Sample.one_sequence = ret tt
  /\ exists gp,
       Sample.run 0 0
         ["rnn-learn"; "-s"; "7"; "-e"; "-5"; "-c"; "rnn.conf"; "data.txt"]
       = Returns [] (gp, Sample.one_sequence)
       /\ epoch_size (mp gp) = -5
       /\ lyapunov_spectrum_size (ap gp) = -3
       /\ threshold_period (ap gp) = Sample.float_of_Z (-2).
Proof.
  split; [|split].
  - intros gp tr e l t. reflexivity.
  - reflexivity.
  - eexists. split; [vm_compute; reflexivity|].
    repeat split; reflexivity.
Qed.

(** ** The variance of the representative points *)

Lemma SFleb_zero_false v :
  SFleb v zero = false <-> SFltb zero v = true \/ v = S754_nan.
Proof.
  destruct v as [s|s| |s m e]; try destruct s; cbv; split; intros H;
    try reflexivity; try discriminate; auto;
    destruct H as [H|H]; discriminate.
Qed.

(** C9, amended. check_parameters rejects rep_init_variance whenever the
    comparison rep_init_variance <= 0 holds, zero included, although its
    message gives the valid range as x >= 0 (float); when every other test
    passes, the record is accepted exactly when the comparison is false,
    that is for the strictly positive floats and for a NaN. *)
Theorem rep_init_variance_accepted_iff gp tr v :
  (SFleb v zero = true ->
   exists f,
     check_parameters (on_mp (with_rep_init_variance v) gp) tr
     = fatal (message_of f) [])
  /\ (check_parameters (on_mp (with_rep_init_variance one) gp) tr = ret tt ->
      (SFleb v zero = true ->
       check_parameters (on_mp (with_rep_init_variance v) gp) tr
       = fatal
           "variance for representative points of initial state not in valid range: x >= 0 (float)"
           [])
      /\ (check_parameters (on_mp (with_rep_init_variance v) gp) tr = ret tt
          <-> SFltb zero v = true \/ v = S754_nan)).
Proof.
  split.
  - intros H.
    destruct (check_parameters_rejects
                (on_mp (with_rep_init_variance v) gp) tr f_rep_init_variance H)
      as (f & _ & C).
    eauto.
  - intros A. rewrite <- SFleb_zero_false.
    unfold check_parameters in *. cbn in *.
    repeat match type of A with
           | (if ?c then _ else _) = _ =>
               destruct c eqn:?; [discriminate A|]
           end.
    destruct (SFleb v zero);
      (split; [|split]; intros; try reflexivity; try discriminate).
Qed.

(** ** The default seed *)

Lemma default_seed_range time pid : 1 <= default_seed time pid <= 4294967295.
Proof.
  unfold default_seed.
  pose proof (Z.mod_pos_bound (to_unsigned_long (time * pid)) 4294967295).
  lia.
Qed.

(** C10. The default seed is always in range: init_parameters sets the seed
    to ((unsigned long)(time * pid) mod 4294967295) + 1, which lies between 1
    and 4294967295 for every time and process id, so the test seed <= 0 of
    check_parameters does not fire for a record that keeps the default
    seed, whatever its other members are. *)
Theorem default_seed_in_range :
  forall (D : defaults) (time pid : Z) (gp0 gp : general_parameters)
         (tr : target_reader),
    seed (mp (init_parameters D time pid gp0))
    = to_unsigned_long (time * pid) mod 4294967295 + 1
    /\ 1 <= seed (mp (init_parameters D time pid gp0)) <= 4294967295
    /\ out_of_range f_seed
         (reseed (seed (mp (init_parameters D time pid gp0))) gp) tr = false
    /\ check_parameters
         (reseed (seed (mp (init_parameters D time pid gp0))) gp) tr
       <> fatal (message_of f_seed) [].
Proof.
  intros D time pid gp0 gp tr. simpl seed at 1 2 3.
  pose proof (default_seed_range time pid) as R.
  assert (O : out_of_range f_seed (reseed (default_seed time pid) gp) tr = false)
    by (simpl; lia).
  repeat split; try lia; try exact O.
  rewrite check_parameters_first.
  destruct (first_out_of_range _ tr) as [f|] eqn:E; [|discriminate].
  apply first_out_of_range_sound in E.
  destruct f; try discriminate. simpl seed in E. congruence.
Qed.


(** ** Instances *)

Lemma invalid_configuration_is_fatal_witness :
  invalid_range Sample.negative_rate
  /\ check_parameters Sample.negative_rate Sample.one_sequence
     = fatal "learning rate not in valid range: x >= 0 (float)" [].
Proof.
  assert (H : invalid_range Sample.negative_rate) by (left; reflexivity).
  split; [exact H|].
  destruct (invalid_configuration_is_fatal Sample.D Sample.L Sample.X 0 0
              Sample.blank Sample.files 3 [] ["rnn-learn"]
              Sample.negative_rate Sample.one_sequence H)
    as (f & _ & F & C & _).
  rewrite C. vm_compute in F. inversion F. reflexivity.
Defined.

Lemma output_type_is_tanh_or_softmax_witness :
  (exists log gp tr,
      Sample.run 0 0 ["rnn-learn"; "-k"; "1"; "data.txt"]
      = Returns log (gp, tr)
      /\ (output_type (mp gp) = 0 \/ output_type (mp gp) = 1))
  /\ exists f,
       check_parameters Sample.linear_output Sample.one_sequence
       = fatal (message_of f) [].
Proof.
  split.
  - destruct (Sample.run 0 0 ["rnn-learn"; "-k"; "1"; "data.txt"])
      as [log [gp tr]| | |] eqn:E; try (vm_compute in E; discriminate E).
    exists log, gp, tr. split; [reflexivity|].
    exact (proj1 (output_type_is_tanh_or_softmax Sample.D Sample.L Sample.X
                    0 0 Sample.blank Sample.files 3 []
                    ["rnn-learn"; "-k"; "1"; "data.txt"] gp tr log) E).
  - destruct (proj2 (output_type_is_tanh_or_softmax Sample.D Sample.L
                       Sample.X 0 0 Sample.blank Sample.files 3 []
                       ["rnn-learn"] Sample.linear_output
                       Sample.one_sequence []))
      as (f & C & _); [discriminate | discriminate |].
    exists f. exact C.
Defined.

Lemma representative_points_at_least_one_witness :
  (exists log gp tr,
      Sample.run 0 0 ["rnn-learn"; "-r"; "4"; "data.txt"]
      = Returns log (gp, tr)
      /\ 1 <= rep_init_size (mp gp))
  /\ exists f,
       check_parameters Sample.no_representative_point Sample.one_sequence
       = fatal (message_of f) [].
Proof.
  split.
  - destruct (Sample.run 0 0 ["rnn-learn"; "-r"; "4"; "data.txt"])
      as [log [gp tr]| | |] eqn:E; try (vm_compute in E; discriminate E).
    exists log, gp, tr. split; [reflexivity|].
    exact (proj1 (representative_points_at_least_one Sample.D Sample.L
                    Sample.X 0 0 Sample.blank Sample.files 3 []
                    ["rnn-learn"; "-r"; "4"; "data.txt"] gp tr log) E).
  - destruct (proj2 (representative_points_at_least_one Sample.D Sample.L
                       Sample.X 0 0 Sample.blank Sample.files 3 []
                       ["rnn-learn"] Sample.no_representative_point
                       Sample.one_sequence []))
      as (f & C & _); [discriminate|].
    exists f. exact C.
Defined.

(** C6 as stated fails: with no sequence, no load file and no context
    neuron, the message is the one of the neuron count, and 'training data
    is empty.' is not printed. *)
Lemma empty_training_set_counterexample :
  num Sample.no_sequence = 0
  /\ load_filename (iop Sample.no_neurons) = EmptyString
  /\ check_parameters Sample.no_neurons Sample.no_sequence
     = fatal "number of context neurons must be greater than zero." []
  /\ Sample.run 0 0 ["rnn-learn"; "-n"; "0"]
     = Exits
         [print_error_msg
            "number of context neurons must be greater than zero." []]
         EXIT_FAILURE.
Proof. repeat split; vm_compute; reflexivity. Qed.

Lemma empty_training_set_is_fatal_witness :
  check_parameters Sample.gp Sample.no_sequence
  = fatal "training data is empty." []
  /\ first_out_of_range Sample.no_neurons Sample.no_sequence
     = Some f_c_state_size.
Proof.
  destruct (empty_training_set_is_fatal Sample.D Sample.L Sample.X 0 0
              Sample.blank Sample.files 3 [] ["rnn-learn"]
              Sample.gp Sample.no_sequence eq_refl eq_refl)
    as (f & _ & _ & _ & _ & E & _).
  destruct (empty_training_set_is_fatal Sample.D Sample.L Sample.X 0 0
              Sample.blank Sample.files 3 [] ["rnn-learn"]
              Sample.no_neurons Sample.no_sequence eq_refl eq_refl)
    as (f' & Fi & _).
  split.
  - apply E. vm_compute. reflexivity.
  - vm_compute in Fi. inversion Fi. reflexivity.
Defined.

(** C9 as stated fails: a NaN is not a strictly positive float, and it is
    accepted. *)
Lemma rep_init_variance_counterexample :
  SFltb zero S754_nan = false
  /\ check_parameters (on_mp (with_rep_init_variance S754_nan) Sample.gp)
       Sample.one_sequence = ret tt
  /\ exists gp,
       Sample.run 0 0 ["rnn-learn"; "-c"; "nan.conf"; "data.txt"]
       = Returns [] (gp, Sample.one_sequence)
       /\ rep_init_variance (mp gp) = S754_nan.
Proof.
  split; [reflexivity|]. split; [reflexivity|].
  eexists. split; [vm_compute; reflexivity|reflexivity].
Qed.

Lemma rep_init_variance_accepted_iff_witness :
  check_parameters (on_mp (with_rep_init_variance zero) Sample.gp)
    Sample.one_sequence
  = fatal
      "variance for representative points of initial state not in valid range: x >= 0 (float)"
      [].
Proof.
  apply (proj2 (rep_init_variance_accepted_iff Sample.gp Sample.one_sequence
                  zero)); reflexivity.
Defined.


(** ** Configuration files *)

(** C2, amended. A malformed line of a configuration file is not fatal: a
    line that names an unknown option, or an option that requires an
    argument and has none, makes read_config_file print a warning with the
    option and the line number, leaves the record as it is, and the loop
    goes on with the next line. *)
Theorem malformed_config_line_is_a_warning :
  forall (L : libc) (cfg : setter) (n : Z) (str : string)
         (rest : list string) (gp : general_parameters)
         (opt : string) (arg : option string),
    parse_option_and_arg str = (Some opt, arg) ->
    0 < CString.strlen opt ->
    (find_option opt (opt_info L cfg) = None ->
     read_config_lines L cfg n (str :: rest) gp
     = after
         [print_error_msg "warning: unknown option `%s' at line %d"
            [Arg_s opt; Arg_d (n + 1)]]
         (read_config_lines L cfg (n + 1) rest gp))
    /\ (forall e,
           find_option opt (opt_info L cfg) = Some e ->
           has_arg e <> 0 ->
           arg = None ->
           read_config_lines L cfg n (str :: rest) gp
           = after
               [print_error_msg
                  "warning: option `%s' requires an argument at line %d"
                  [Arg_s opt; Arg_d (n + 1)]]
               (read_config_lines L cfg (n + 1) rest gp)).
Proof.
  intros L cfg n str rest gp opt arg P S.
  apply Z.ltb_lt in S.
  split.
  - intros F. cbn [read_config_lines]. unfold read_config_line.
    rewrite P, S, F. reflexivity.
  - intros e F H ->. cbn [read_config_lines]. unfold read_config_line.
    rewrite P, S, F.
    destruct (has_arg e =? 0) eqn:Z0; [apply Z.eqb_eq in Z0; contradiction|].
    reflexivity.
Qed.

Lemma malformed_config_line_is_a_warning_witness :
  read_config_file Sample.L (set_config_file Sample.L Sample.files 3)
    [Sample.line "no_such_option = 1"] Sample.gp
  = Returns
      [print_error_msg "warning: unknown option `%s' at line %d"
         [Arg_s "no_such_option"; Arg_d 1]]
      Sample.gp
  /\ read_config_file Sample.L (set_config_file Sample.L Sample.files 3)
       [Sample.line "rho"] Sample.gp
     = Returns
         [print_error_msg
            "warning: option `%s' requires an argument at line %d"
            [Arg_s "rho"; Arg_d 1]]
         Sample.gp.
Proof.
  split.
  - exact (proj1 (malformed_config_line_is_a_warning Sample.L
                    (set_config_file Sample.L Sample.files 3) 0
                    (Sample.line "no_such_option = 1") [] Sample.gp
                    "no_such_option" (Some "1") eq_refl eq_refl) eq_refl).
  - refine (proj2 (malformed_config_line_is_a_warning Sample.L
                     (set_config_file Sample.L Sample.files 3) 0
                     (Sample.line "rho") [] Sample.gp
                     "rho" None eq_refl eq_refl)
              (entry "rho" 1 (set_rho Sample.L)) eq_refl _ eq_refl).
    discriminate.
Defined.

(** C2 as stated fails: the run reads a configuration file whose first line
    names an unknown option and whose second line names [rho] without an
    argument; it prints two warnings, applies the third line and calls
    [training_main]. *)
Lemma malformed_config_line_counterexample :
  Sample.files "typo.conf"
  = Some [Sample.line "no_such_option = 1"; Sample.line "rho";
          Sample.line "epoch_size = 20"]
  /\ exists gp,
       Sample.run 0 0 ["rnn-learn"; "-c"; "typo.conf"; "data.txt"]
       = Returns
           [print_error_msg "warning: unknown option `%s' at line %d"
              [Arg_s "no_such_option"; Arg_d 1];
            print_error_msg
              "warning: option `%s' requires an argument at line %d"
              [Arg_s "rho"; Arg_d 2]]
           (gp, Sample.one_sequence)
       /\ epoch_size (mp gp) = 20.
Proof.
  split; [reflexivity|].
  eexists. split; [vm_compute; reflexivity|reflexivity].
Qed.


(** ** Interval policies *)

Lemma interval_file_eqb_eq F G : interval_file_eqb F G = true <-> F = G.
Proof. destruct F, G; simpl; split; intros H; congruence. Qed.

Lemma get_flag_put_opt O O' v p : get_flag O (put_opt O' v p) = get_flag O p.
Proof. destruct O, O'; reflexivity. Qed.

Lemma get_opt_put_opt O v p : get_opt O (put_opt O v p) = v.
Proof. destruct O; reflexivity. Qed.

Lemma get_opt_put_flag O O' v p : get_opt O (put_flag O' v p) = get_opt O p.
Proof. destruct O, O'; reflexivity. Qed.

Lemma get_flag_put_flag O v p : get_flag O (put_flag O v p) = v.
Proof. destruct O; reflexivity. Qed.

Lemma get_flag_put_flag_other O O' v p :
  O <> O' -> get_flag O (put_flag O' v p) = get_flag O p.
Proof. destruct O, O'; intros H; try reflexivity; contradiction. Qed.

Lemma put_opt_twice O v p : put_opt O v (put_opt O v p) = put_opt O v p.
Proof. destruct O; reflexivity. Qed.

Lemma interval_for_assign F p io G :
  interval_for (assign_interval_for F p io) G
  = if interval_file_eqb G F then p else interval_for io G.
Proof. reflexivity. Qed.

(** What the macro [SET_DEFAULT_VALUE_OF_PRINT_INTERVAL] leaves in each
    stream, for any list of streams it is instantiated with. *)
Lemma set_default_fold O (files : list interval_file) :
  forall io,
    let io' :=
      fold_left (fun io F => SET_DEFAULT_VALUE_OF_PRINT_INTERVAL_I F O io)
        files io in
    default_interval io' = default_interval io
    /\ forall G,
         interval_for io' G
         = if existsb (interval_file_eqb G) files
              && (get_flag O (interval_for io G) =? 0)
           then put_opt O (get_opt O (default_interval io)) (interval_for io G)
           else interval_for io G.
Proof.
  induction files as [|F files IH]; intros io; cbn zeta.
  - split; [reflexivity|]. intros G. reflexivity.
  - cbn [fold_left existsb].
    destruct (IH (SET_DEFAULT_VALUE_OF_PRINT_INTERVAL_I F O io)) as [Hd Hi].
    cbn zeta in Hd, Hi.
    assert (D0 : default_interval (SET_DEFAULT_VALUE_OF_PRINT_INTERVAL_I F O io)
                 = default_interval io).
    { unfold SET_DEFAULT_VALUE_OF_PRINT_INTERVAL_I.
      destruct (get_flag O (interval_for io F) =? 0); reflexivity. }
    split; [congruence|].
    intros G. rewrite Hi, D0. clear Hi Hd IH.
    unfold SET_DEFAULT_VALUE_OF_PRINT_INTERVAL_I.
    destruct (interval_file_eqb G F) eqn:E.
    + apply interval_file_eqb_eq in E. subst G.
      destruct (get_flag O (interval_for io F) =? 0) eqn:Fl.
      * rewrite interval_for_assign.
        assert (R : interval_file_eqb F F = true)
          by (apply interval_file_eqb_eq; reflexivity).
        rewrite R, get_flag_put_opt, Fl, put_opt_twice.
        destruct (existsb (interval_file_eqb F) files); reflexivity.
      * rewrite Fl. rewrite !andb_false_r. reflexivity.
    + destruct (get_flag O (interval_for io F) =? 0) eqn:Fl.
      * rewrite interval_for_assign, E. reflexivity.
      * reflexivity.
Qed.

Lemma interval_files_complete G :
  existsb (interval_file_eqb G) interval_files = true.
Proof. destruct G; reflexivity. Qed.

(** The effect of a global setter on the interval policies. *)
Lemma set_default_opt_spec O v gp :
  let gp' := set_default_opt O v gp in
  mp gp' = mp gp /\ ap gp' = ap gp /\ inp gp' = inp gp
  /\ get_opt O (default_interval (iop gp')) = v
  /\ forall G,
       interval_for (iop gp') G
       = if get_flag O (interval_for (iop gp) G) =? 0
         then put_opt O v (interval_for (iop gp) G)
         else interval_for (iop gp) G.
Proof.
  cbn zeta. unfold set_default_opt, SET_DEFAULT_VALUE_OF_PRINT_INTERVAL.
  destruct (set_default_fold O interval_files
              (with_default_interval
                 (put_opt O v (default_interval (iop gp))) (iop gp)))
    as [Hd Hi].
  cbn zeta in Hd, Hi.
  repeat split; try reflexivity.
  - cbn [on_iop with_iop iop]. rewrite Hd. cbn. apply get_opt_put_opt.
  - intros G. cbn [on_iop with_iop iop]. rewrite Hi.
    rewrite interval_files_complete. cbn [andb].
    cbn [with_default_interval default_interval interval_for].
    rewrite get_opt_put_opt. reflexivity.
Qed.

Lemma default_setter_returns L O a l gp gp' :
  default_setter L O a gp = Returns l gp' ->
  exists v, gp' = set_default_opt O v gp.
Proof.
  destruct O, a; cbn; intros H; inversion H; eauto.
Qed.

Lemma per_stream_setter_returns L F O a l gp gp' :
  per_stream_setter L F O a gp = Returns l gp' ->
  exists v,
    gp' = on_iop (fun io =>
            assign_interval_for F
              (put_flag O 1 (put_opt O v (interval_for io F))) io) gp.
Proof.
  destruct O, a; cbn; intros H; inversion H; eauto.
Qed.

(** *** Flags are never reset *)

Lemma explicitly_set_set_default F O O' v gp :
  explicitly_set F O gp -> explicitly_set F O (set_default_opt O' v gp).
Proof.
  unfold explicitly_set.
  destruct (set_default_opt_spec O' v gp) as (_ & _ & _ & _ & Hi).
  cbn zeta in Hi. rewrite Hi.
  destruct (get_flag O' (interval_for (iop gp) F) =? 0);
    rewrite ?get_flag_put_opt; auto.
Qed.

Lemma explicitly_set_per_stream F O F' O' v gp :
  explicitly_set F O gp ->
  explicitly_set F O
    (on_iop (fun io =>
       assign_interval_for F'
         (put_flag O' 1 (put_opt O' v (interval_for io F'))) io) gp).
Proof.
  unfold explicitly_set. cbn [on_iop with_iop iop].
  rewrite interval_for_assign.
  destruct (interval_file_eqb F F') eqn:E; auto.
  apply interval_file_eqb_eq in E. subst F'.
  destruct O, O'; cbn; auto; discriminate.
Qed.

Lemma keeps_explicit_default L F O O' a :
  keeps (explicitly_set F O) (default_setter L O' a).
Proof.
  intros gp l gp' HP H. apply default_setter_returns in H.
  destruct H as [v ->]. apply explicitly_set_set_default. exact HP.
Qed.

Lemma keeps_explicit_per_stream L F O F' O' a :
  keeps (explicitly_set F O) (per_stream_setter L F' O' a).
Proof.
  intros gp l gp' HP H. apply per_stream_setter_returns in H.
  destruct H as [v ->]. apply explicitly_set_per_stream. exact HP.
Qed.

Ltac keeps_entry L F O :=
  first
    [ assumption
    | exact (keeps_explicit_default L F O opt_interval _)
    | exact (keeps_explicit_default L F O opt_init _)
    | exact (keeps_explicit_default L F O opt_end _)
    | exact (keeps_explicit_default L F O opt_use_logscale_interval _)
    | exact (keeps_explicit_per_stream L F O _ opt_interval _)
    | exact (keeps_explicit_per_stream L F O _ opt_init _)
    | exact (keeps_explicit_per_stream L F O _ opt_end _)
    | exact (keeps_explicit_per_stream L F O _ opt_use_logscale_interval _)
    | let gp := fresh "gp" in
      let H := fresh "H" in
      let HP := fresh "HP" in
      intros gp ? ? HP H;
      match goal with
      | a : option string |- _ => destruct a
      end;
      cbn in H; inversion H; subst; exact HP ].

Lemma opt_info_keeps_explicit L cfg F O (a : option string) :
  keeps (explicitly_set F O) (cfg a) ->
  Forall (fun e => keeps (explicitly_set F O) (setter_of e a))
    (opt_info L cfg).
Proof.
  intros Hc. unfold opt_info, ENTRY_PRINT_INTERVAL_SETTER.
  cbn [app].
  repeat (apply Forall_cons;
          [cbn [setter_of entry ENTRY_PRINT_INTERVAL_SETTER_II];
           keeps_entry L F O|]).
  apply Forall_nil.
Qed.


Lemma find_option_in opt table e :
  find_option opt table = Some e -> In e table.
Proof.
  induction table as [|e' table IH]; simpl; [discriminate|].
  destruct (CString.streq opt (name e')).
  - intros H. inversion H. auto.
  - auto.
Qed.

Section Keeps_explicit.

Variables (L : libc) (F : interval_file) (O : interval_opt).

Lemma read_config_line_keeps_explicit cfg n str :
  (forall a, keeps (explicitly_set F O) (cfg a)) ->
  keeps (explicitly_set F O) (read_config_line L cfg n str).
Proof.
  intros Hc gp l gp' HP H. unfold read_config_line in H.
  destruct (parse_option_and_arg str) as [[opt|] arg];
    [|inversion H; subst; exact HP].
  destruct (0 <? CString.strlen opt); [|inversion H; subst; exact HP].
  destruct (find_option opt (opt_info L cfg)) as [e|] eqn:Fo;
    [|inversion H; subst; exact HP].
  apply find_option_in in Fo.
  pose proof (opt_info_keeps_explicit L cfg F O arg (Hc arg)) as A.
  rewrite Forall_forall in A. specialize (A _ Fo).
  destruct (has_arg e =? 0), arg;
    try (eapply A; eassumption).
  inversion H; subst; exact HP.
Qed.

Lemma read_config_lines_keeps_explicit cfg lines :
  (forall a, keeps (explicitly_set F O) (cfg a)) ->
  forall n, keeps (explicitly_set F O) (read_config_lines L cfg n lines).
Proof.
  intros Hc. induction lines as [|str lines IH]; intros n gp l gp' HP H.
  - inversion H; subst; exact HP.
  - cbn [read_config_lines] in H. apply bind_returns in H.
    destruct H as (l1 & gp1 & l2 & E1 & E2 & _).
    eapply IH; [|exact E2].
    eapply read_config_line_keeps_explicit; eauto.
Qed.

Lemma set_config_file_keeps_explicit fs fuel :
  forall a, keeps (explicitly_set F O) (set_config_file L fs fuel a).
Proof.
  induction fuel as [|fuel IH]; intros a gp l gp' HP H.
  - discriminate H.
  - cbn [set_config_file] in H.
    destruct a as [path|]; [|discriminate H].
    destruct (fs path) as [lines|]; [|discriminate H].
    eapply read_config_lines_keeps_explicit; eauto.
Qed.

Lemma read_option_keeps_explicit cfg opt optarg :
  (forall a, keeps (explicitly_set F O) (cfg a)) ->
  keeps (explicitly_set F O) (read_option L cfg opt optarg).
Proof.
  intros Hc gp l gp' HP H. unfold read_option in H.
  repeat match type of H with
         | (if ?c then _ else _) = _ =>
             destruct c;
             [first
                [ discriminate H
                | exact (Hc _ _ _ _ HP H)
                | refine ((_ : keeps (explicitly_set F O) _) gp l gp' HP H);
                  keeps_entry L F O ]
             |]
         end.
  discriminate H.
Qed.

Lemma read_options_loop_keeps_explicit cfg scan :
  (forall a, keeps (explicitly_set F O) (cfg a)) ->
  keeps (explicitly_set F O) (read_options_loop L cfg scan).
Proof.
  intros Hc. induction scan as [|[opt optarg] scan IH]; intros gp l gp' HP H.
  - inversion H; subst; exact HP.
  - cbn [read_options_loop] in H. apply bind_returns in H.
    destruct H as (l1 & gp1 & l2 & E1 & E2 & _).
    eapply IH; [|exact E2].
    eapply read_option_keeps_explicit; eauto.
Qed.

End Keeps_explicit.

(** After [init_parameters] no member of any stream is explicitly set. *)
Lemma init_parameters_no_explicit_interval D time pid gp0 G O :
  get_flag O (interval_for (iop (init_parameters D time pid gp0)) G) = 0.
Proof. destruct O; reflexivity. Qed.

Lemma reads_on_keeps_explicit L fs fuel F O gp gp' :
  reads_on L fs fuel gp gp' ->
  explicitly_set F O gp -> explicitly_set F O gp'.
Proof.
  induction 1 as [gp|n lines gp l gp1 gp2 H _ IH|scan gp l gp1 gp2 H _ IH];
    intros E.
  - exact E.
  - apply IH.
    eapply read_config_lines_keeps_explicit; [|exact E|exact H].
    apply set_config_file_keeps_explicit.
  - apply IH.
    eapply read_options_loop_keeps_explicit; [|exact E|exact H].
    apply set_config_file_keeps_explicit.
Qed.

Lemma per_stream_setter_value L F O a l gp gp' :
  per_stream_setter L F O a gp = Returns l gp' ->
  exists v,
    setter_value L O a = Some v
    /\ gp' = on_iop (fun io =>
               assign_interval_for F
                 (put_flag O 1 (put_opt O v (interval_for io F))) io) gp.
Proof.
  destruct O, a; cbn; intros H; inversion H; eauto.
Qed.

Lemma default_setter_value L O a l gp gp' :
  default_setter L O a gp = Returns l gp' ->
  exists v, setter_value L O a = Some v /\ gp' = set_default_opt O v gp.
Proof.
  destruct O, a; cbn; intros H; inversion H; eauto.
Qed.

(** C3, amended. The interval policies of the thirteen streams that have
    one (every output stream but the final save) are independently
    configurable: a per-stream setter stores its value in member OPT of
    stream F and raises the flag of that member; the flag stays raised
    whatever is read later, lines of configuration files and options of the
    command line alike; and a later call of the corresponding global
    default setter stores the value it reads in the default policy, leaves
    the policy of F and of every other stream in which that member is
    explicitly set unchanged, and gives the value it read to every stream
    in which the member was never set explicitly. *)
Theorem explicit_interval_survives_default :
  forall (L : libc) (fs : filesystem) (fuel : nat)
         (F : interval_file) (O : interval_opt)
         (a : option string) (gp0 gp1 : general_parameters) (l0 : list event)
         (gp2 : general_parameters)
         (a' : option string) (gp3 : general_parameters) (l2 : list event),
    per_stream_setter L F O a gp0 = Returns l0 gp1 ->
    reads_on L fs fuel gp1 gp2 ->
    default_setter L O a' gp2 = Returns l2 gp3 ->
    exists v0 v,
      setter_value L O a = Some v0
      /\ setter_value L O a' = Some v
      /\ get_opt O (interval_for (iop gp1) F) = v0
      /\ get_flag O (interval_for (iop gp1) F) = 1
      /\ explicitly_set F O gp2
      /\ interval_for (iop gp3) F = interval_for (iop gp2) F
      /\ get_opt O (default_interval (iop gp3)) = v
      /\ (forall G,
             explicitly_set G O gp2 ->
             interval_for (iop gp3) G = interval_for (iop gp2) G)
      /\ (forall G,
             get_flag O (interval_for (iop gp2) G) = 0 ->
             get_opt O (interval_for (iop gp3) G) = v
             /\ interval_for (iop gp3) G
                = put_opt O v (interval_for (iop gp2) G)).
Proof.
  intros L fs fuel F O a gp0 gp1 l0 gp2 a' gp3 l2 H1 H2 H3.
  apply per_stream_setter_value in H1. destruct H1 as (v0 & V0 & ->).
  apply default_setter_value in H3. destruct H3 as (v & V & ->).
  exists v0, v.
  assert (R : interval_file_eqb F F = true)
    by (apply interval_file_eqb_eq; reflexivity).
  assert (S1 : get_flag O
                 (interval_for
                    (iop (on_iop (fun io =>
                       assign_interval_for F
                         (put_flag O 1 (put_opt O v0 (interval_for io F))) io)
                       gp0)) F) = 1).
  { cbn [on_iop with_iop iop]. rewrite interval_for_assign, R.
    apply get_flag_put_flag. }
  assert (S2 : explicitly_set F O gp2).
  { eapply reads_on_keeps_explicit; [exact H2|].
    unfold explicitly_set. rewrite S1. discriminate. }
  destruct (set_default_opt_spec O v gp2) as (_ & _ & _ & Hd & Hi).
  cbn zeta in Hd, Hi.
  assert (K : forall G,
             explicitly_set G O gp2 ->
             interval_for (iop (set_default_opt O v gp2)) G
             = interval_for (iop gp2) G).
  { intros G E. rewrite Hi. unfold explicitly_set in E.
    destruct (get_flag O (interval_for (iop gp2) G) =? 0) eqn:Z0; auto.
    apply Z.eqb_eq in Z0. contradiction. }
  split; [exact V0|]. split; [exact V|]. split.
  { cbn [on_iop with_iop iop]. rewrite interval_for_assign, R.
    rewrite get_opt_put_flag. apply get_opt_put_opt. }
  split; [exact S1|]. split; [exact S2|]. split; [apply K; exact S2|].
  split; [exact Hd|]. split; [exact K|].
  intros G HG. rewrite Hi, HG. cbn [Z.eqb]. split; [|reflexivity].
  apply get_opt_put_opt.
Qed.

Lemma explicit_interval_survives_default_witness :
  exists v0 v,
    setter_value Sample.L opt_interval (Some "5") = Some v0
    /\ setter_value Sample.L opt_interval (Some "100") = Some v
    /\ v0 = 5 /\ v = 100
    /\ interval (interval_for (iop Later.every_100) error_file) = 5
    /\ interval (interval_for (iop Later.every_100) state_file) = 100
    /\ interval (default_interval (iop Later.every_100)) = 100
    /\ interval_for (iop Later.every_100) error_file
       = interval_for (iop Later.after_options) error_file.
Proof.
  destruct (explicit_interval_survives_default Sample.L Sample.files 3
              error_file opt_interval (Some "5")
              Sample.gp Sample.error_every_5 []
              Later.after_options
              (Some "100") Later.every_100 []
              eq_refl
              (reads_lines Sample.L Sample.files 3 1
                 [Sample.line "print_init = 3"; Sample.line "verbose"]
                 Sample.error_every_5 [] Sample.error_every_5_later
                 Later.after_options eq_refl
                 (reads_options Sample.L Sample.files 3
                    [("x"%char, Some "2"); ("V"%char, None)]
                    Sample.error_every_5_later [] Later.after_options
                    Later.after_options eq_refl
                    (reads_none Sample.L Sample.files 3 Later.after_options)))
              eq_refl)
    as (v0 & v & V0 & V & _ & _ & _ & Same & _).
  exists v0, v. split; [exact V0|]. split; [exact V|].
  split; [vm_compute in V0; congruence|].
  split; [vm_compute in V; congruence|].
  split; [reflexivity|]. split; [reflexivity|]. split; [reflexivity|].
  exact Same.
Defined.

(** C3 as stated fails for the fourteenth output stream: the final save has
    a file name and no interval policy, so [opt_info] lists no per-stream
    interval setter for it, while it lists all four for each of the other
    thirteen. *)
Lemma interval_policy_streams_counterexample :
  List.length output_file_options = 14%nat
  /\ List.length interval_files = 13%nat
  /\ map interval_file_name interval_files
     = removelast output_file_options
  /\ In "save_file" output_file_options
  /\ forallb
       (fun option =>
          match find_option option (opt_info Sample.L Sample.includes) with
          | Some _ => false
          | None => true
          end)
       (interval_option_names "save_file") = true
  /\ forallb
       (fun stream =>
          forallb
            (fun option =>
               match find_option option (opt_info Sample.L Sample.includes) with
               | Some _ => true
               | None => false
               end)
            (interval_option_names stream))
       (removelast output_file_options) = true.
Proof.
  repeat split; try reflexivity.
  simpl. tauto.
Qed.


(** ** Reproducibility of the configuration *)

Lemma outcome_rel_eq {A} (o1 o2 : outcome A) :
  outcome_rel eq o1 o2 <-> o1 = o2.
Proof.
  destruct o1, o2; simpl; split; intros H;
    try contradiction; try discriminate;
    try (destruct H; congruence); try congruence;
    inversion H; auto.
Qed.

Lemma outcome_rel_weaken {A} (R R' : A -> A -> Prop) o1 o2 :
  (forall a b, R a b -> R' a b) ->
  outcome_rel R o1 o2 -> outcome_rel R' o1 o2.
Proof.
  intros W. destruct o1, o2; simpl; auto. intros [-> H]. auto.
Qed.

Lemma outcome_rel_after {A} (R : A -> A -> Prop) l o1 o2 :
  outcome_rel R o1 o2 -> outcome_rel R (after l o1) (after l o2).
Proof.
  destruct o1, o2; simpl; auto.
  - intros [-> H]. auto.
  - intros [-> H]. auto.
  - intros ->. auto.
  - intros ->. auto.
Qed.

Lemma outcome_rel_bind {A B} (R : A -> A -> Prop) (R' : B -> B -> Prop)
      m1 m2 k1 k2 :
  outcome_rel R m1 m2 ->
  (forall a1 a2, R a1 a2 -> outcome_rel R' (k1 a1) (k2 a2)) ->
  outcome_rel R' (bind m1 k1) (bind m2 k2).
Proof.
  intros Hm Hk. destruct m1, m2; simpl in *; try contradiction; auto.
  destruct Hm as [-> Ha]. apply outcome_rel_after. auto.
Qed.

Lemma seed_rel_refl gp : seed_rel gp gp.
Proof. split; reflexivity. Qed.

(** Records related by [seed_rel] are the same record up to a reseeding. *)
Lemma seed_rel_inv gp1 gp2 :
  seed_rel gp1 gp2 ->
  gp2 = reseed (seed (mp gp2)) gp1
  /\ (seed (mp gp1) <=? 0) = (seed (mp gp2) <=? 0).
Proof.
  intros [Hs Hz]. split; [|exact Hz].
  unfold same_but_seed, reseed, on_mp in *.
  destruct gp1 as [m1 a1 i1 n1], gp2 as [m2 a2 i2 n2].
  destruct m1, m2. cbn in *. inversion Hs; subst. reflexivity.
Qed.

Lemma seed_rel_reseed s gp :
  (seed (mp gp) <=? 0) = (s <=? 0) -> seed_rel gp (reseed s gp).
Proof. intros H. split; [reflexivity|exact H]. Qed.

Lemma relates_via_reseed g :
  (forall s gp,
      (seed (mp gp) <=? 0) = (s <=? 0) ->
      outcome_rel seed_rel (g gp) (g (reseed s gp))) ->
  relates seed_rel seed_rel g.
Proof.
  intros H gp1 gp2 R. apply seed_rel_inv in R. destruct R as [E Z].
  rewrite E. apply H. exact Z.
Qed.

Lemma on_iop_reseed f s gp : on_iop f (reseed s gp) = reseed s (on_iop f gp).
Proof. reflexivity. Qed.

Lemma set_default_opt_reseed O v s gp :
  set_default_opt O v (reseed s gp) = reseed s (set_default_opt O v gp).
Proof. unfold set_default_opt. apply on_iop_reseed. Qed.

Lemma default_setter_related L O a :
  relates seed_rel seed_rel (default_setter L O a).
Proof.
  apply relates_via_reseed; intros s gp Z.
  destruct O, a;
    lazy beta iota delta
      [default_setter set_print_interval set_print_init set_print_end
       set_use_logscale_interval reading ret bind after app outcome_rel];
    try reflexivity;
    (split; [reflexivity|]);
    rewrite set_default_opt_reseed; apply seed_rel_reseed; exact Z.
Qed.

Ltac related_entry L :=
  first
    [ assumption
    | exact (default_setter_related L opt_interval _)
    | exact (default_setter_related L opt_init _)
    | exact (default_setter_related L opt_end _)
    | exact (default_setter_related L opt_use_logscale_interval _)
    | let s := fresh "s" in
      let gp := fresh "gp" in
      let Z := fresh "Z" in
      apply relates_via_reseed; intros s gp Z;
      match goal with
      | a : option string |- _ => destruct a
      end;
      first
        [ split;
          [reflexivity
          |split; [reflexivity | first [exact Z | reflexivity]]]
        | reflexivity ] ].

Lemma opt_info_related L cfg (a : option string) :
  relates seed_rel seed_rel (cfg a) ->
  Forall (fun e => relates seed_rel seed_rel (setter_of e a))
    (opt_info L cfg).
Proof.
  intros Hc. unfold opt_info, ENTRY_PRINT_INTERVAL_SETTER.
  cbn [app].
  repeat (apply Forall_cons;
          [cbn [setter_of entry ENTRY_PRINT_INTERVAL_SETTER_II];
           related_entry L|]).
  apply Forall_nil.
Qed.


Lemma relates_eq g : relates eq eq g.
Proof. intros gp1 gp2 ->. apply outcome_rel_eq. reflexivity. Qed.

Lemma set_seed_fixes L a : relates seed_rel eq (set_seed L a).
Proof.
  intros gp1 gp2 R. apply seed_rel_inv in R. destruct R as [E _].
  rewrite E. destruct a; [split; reflexivity|reflexivity].
Qed.

Lemma find_option_seed L cfg :
  find_option "seed" (opt_info L cfg) = Some (entry "seed" 1 (set_seed L)).
Proof. reflexivity. Qed.

Lemma find_option_config_file L cfg :
  find_option "config_file" (opt_info L cfg)
  = Some (entry "config_file" 1 cfg).
Proof. reflexivity. Qed.

(** Sequencing: a step that forgets the seed followed by any step, or a
    step that respects [seed_rel] followed by one that forgets the seed,
    forgets the seed. *)
Lemma fixes_then g k :
  relates seed_rel eq g ->
  relates seed_rel eq (fun gp => bind (g gp) k).
Proof.
  intros Hg gp1 gp2 R. eapply outcome_rel_bind; [apply Hg; exact R|].
  intros a1 a2 ->. apply outcome_rel_eq. reflexivity.
Qed.

Lemma related_then_fixes g k :
  relates seed_rel seed_rel g ->
  relates seed_rel eq k ->
  relates seed_rel eq (fun gp => bind (g gp) k).
Proof.
  intros Hg Hk gp1 gp2 R. eapply outcome_rel_bind; [apply Hg; exact R|].
  exact Hk.
Qed.

Lemma related_then_related g k :
  relates seed_rel seed_rel g ->
  relates seed_rel seed_rel k ->
  relates seed_rel seed_rel (fun gp => bind (g gp) k).
Proof.
  intros Hg Hk gp1 gp2 R. eapply outcome_rel_bind; [apply Hg; exact R|].
  exact Hk.
Qed.

Section Related.

Variables (L : libc) (cfg : setter) (sup : string -> bool).
Hypothesis cfg_related : forall a, relates seed_rel seed_rel (cfg a).
Hypothesis cfg_fixes :
  forall path, sup path = true -> relates seed_rel eq (cfg (Some path)).

Lemma read_config_line_related n str :
  relates seed_rel seed_rel (read_config_line L cfg n str).
Proof.
  intros gp1 gp2 R. unfold read_config_line.
  destruct (parse_option_and_arg str) as [[opt|] arg]; [|split; auto].
  destruct (0 <? CString.strlen opt); [|split; auto].
  destruct (find_option opt (opt_info L cfg)) as [e|] eqn:Fo; [|split; auto].
  apply find_option_in in Fo.
  pose proof (opt_info_related L cfg arg (cfg_related arg)) as A.
  rewrite Forall_forall in A. specialize (A _ Fo).
  destruct (has_arg e =? 0), arg; try (apply A; exact R).
  split; auto.
Qed.

Lemma read_config_lines_related lines :
  forall n, relates seed_rel seed_rel (read_config_lines L cfg n lines).
Proof.
  induction lines as [|str lines IH]; intros n.
  - intros gp1 gp2 R. split; auto.
  - cbn [read_config_lines].
    apply related_then_related; [apply read_config_line_related|apply IH].
Qed.

Lemma read_config_line_fixes n str :
  line_fixes sup str = true ->
  relates seed_rel eq (read_config_line L cfg n str).
Proof.
  unfold line_fixes, line_supplies_seed, read_config_line.
  destruct (parse_option_and_arg str) as [[opt|] [arg|]];
    cbn [orb]; try discriminate.
  intros H. apply orb_true_iff in H. destruct H as [H|H].
  - apply String.eqb_eq in H. subst opt.
    rewrite find_option_seed. cbn [has_arg setter_of entry Z.eqb].
    apply set_seed_fixes.
  - apply andb_true_iff in H. destruct H as [H S].
    apply String.eqb_eq in H. subst opt.
    rewrite find_option_config_file. cbn [has_arg setter_of entry Z.eqb].
    apply cfg_fixes. exact S.
Qed.

Lemma read_config_lines_fixes lines :
  existsb (line_fixes sup) lines = true ->
  forall n, relates seed_rel eq (read_config_lines L cfg n lines).
Proof.
  induction lines as [|str lines IH]; cbn [existsb]; [discriminate|].
  intros H n. cbn [read_config_lines].
  apply orb_true_iff in H. destruct H as [H|H].
  - apply fixes_then. apply read_config_line_fixes. exact H.
  - apply related_then_fixes; [apply read_config_line_related|].
    apply IH. exact H.
Qed.

Lemma read_option_related opt optarg :
  relates seed_rel seed_rel (read_option L cfg opt optarg).
Proof.
  intros gp1 gp2 R. unfold read_option.
  repeat match goal with
         | |- outcome_rel _ (if ?c then _ else _) _ =>
             destruct c;
             [first
                [ split; reflexivity
                | exact (cfg_related _ gp1 gp2 R)
                | refine ((_ : relates seed_rel seed_rel _) gp1 gp2 R);
                  related_entry L ]|]
         end.
  split; reflexivity.
Qed.

Lemma read_option_fixes opt optarg :
  option_fixes sup (opt, optarg) = true ->
  relates seed_rel eq (read_option L cfg opt optarg).
Proof.
  unfold option_fixes. cbn [fst snd]. intros H.
  apply orb_true_iff in H. destruct H as [H|H].
  - apply Ascii.eqb_eq in H. subst opt. apply set_seed_fixes.
  - apply andb_true_iff in H. destruct H as [H S].
    apply Ascii.eqb_eq in H. subst opt.
    destruct optarg as [path|]; [|discriminate].
    apply cfg_fixes. exact S.
Qed.

Lemma read_options_loop_related scan :
  relates seed_rel seed_rel (read_options_loop L cfg scan).
Proof.
  induction scan as [|[opt optarg] scan IH].
  - intros gp1 gp2 R. split; auto.
  - cbn [read_options_loop].
    apply related_then_related; [apply read_option_related|apply IH].
Qed.

Lemma read_options_loop_fixes scan :
  existsb (option_fixes sup) scan = true ->
  relates seed_rel eq (read_options_loop L cfg scan).
Proof.
  induction scan as [|[opt optarg] scan IH]; cbn [existsb]; [discriminate|].
  intros H. cbn [read_options_loop].
  apply orb_true_iff in H. destruct H as [H|H].
  - apply fixes_then. apply read_option_fixes. exact H.
  - apply related_then_fixes; [apply read_option_related|].
    apply IH. exact H.
Qed.

End Related.

Lemma set_config_file_related L fs fuel :
  forall a, relates seed_rel seed_rel (set_config_file L fs fuel a).
Proof.
  induction fuel as [|fuel IH]; intros a gp1 gp2 R.
  - reflexivity.
  - cbn [set_config_file]. destruct a as [path|]; [|reflexivity].
    destruct (fs path) as [lines|]; [|split; reflexivity].
    apply read_config_lines_related; assumption.
Qed.

Lemma set_config_file_fixes L fs fuel :
  forall path,
    file_supplies_seed fs fuel path = true ->
    relates seed_rel eq (set_config_file L fs fuel (Some path)).
Proof.
  induction fuel as [|fuel IH]; intros path H; [discriminate H|].
  cbn [file_supplies_seed] in H. intros gp1 gp2 R.
  cbn [set_config_file].
  destruct (fs path) as [lines|]; [|discriminate H].
  apply (read_config_lines_fixes L (set_config_file L fs fuel)
           (file_supplies_seed fs fuel)); auto.
  apply set_config_file_related.
Qed.

Lemma read_options_related L fs fuel argv :
  relates seed_rel seed_rel (read_options L fs fuel argv).
Proof.
  unfold read_options. apply read_options_loop_related.
  apply set_config_file_related.
Qed.

Lemma read_options_fixes L fs fuel argv :
  seed_supplied L fs fuel argv = true ->
  relates seed_rel eq (read_options L fs fuel argv).
Proof.
  intros H. unfold read_options.
  apply (read_options_loop_fixes L (set_config_file L fs fuel)
           (file_supplies_seed fs fuel)).
  - apply set_config_file_related.
  - apply set_config_file_fixes.
  - exact H.
Qed.


Lemma init_parameters_seed_rel D t1 p1 t2 p2 gp0 :
  seed_rel (init_parameters D t1 p1 gp0) (init_parameters D t2 p2 gp0).
Proof.
  split; [reflexivity|]. cbn [init_parameters mp seed].
  pose proof (default_seed_range t1 p1). pose proof (default_seed_range t2 p2).
  transitivity false; [|symmetry]; apply Z.leb_gt; lia.
Qed.

Lemma setup_target_related X fs stdin operands gp1 gp2 :
  seed_rel gp1 gp2 ->
  setup_target X fs stdin operands gp1 = setup_target X fs stdin operands gp2.
Proof.
  intros R. apply seed_rel_inv in R. destruct R as [E _]. rewrite E.
  reflexivity.
Qed.

Lemma setup_parameters_related X tr :
  relates seed_rel seed_rel (fun gp => setup_parameters X gp tr).
Proof.
  apply relates_via_reseed. intros s gp Z.
  unfold setup_parameters.
  cbn [reseed on_mp with_mp with_inp mp ap iop inp].
  destruct ((CString.strlen (load_filename (iop gp)) =? 0)
            && negb (num tr =? 0)).
  - repeat (eapply outcome_rel_bind;
            [apply outcome_rel_eq; reflexivity|intros ? ? <-]).
    split; [reflexivity|]. split; [reflexivity|exact Z].
  - split; [reflexivity|]. split; [reflexivity|exact Z].
Qed.

Lemma check_parameters_related gp1 gp2 tr :
  seed_rel gp1 gp2 -> check_parameters gp1 tr = check_parameters gp2 tr.
Proof.
  intros R. apply seed_rel_inv in R. destruct R as [E Z].
  remember (seed (mp gp2)) as s eqn:Hs. clear Hs. subst gp2.
  unfold check_parameters.
  cbn [reseed on_mp with_mp with_seed mp ap iop inp seed rho momentum
       c_state_size rep_init_size delay_length output_type prior_strength
       rep_init_variance lambda alpha].
  rewrite Z. reflexivity.
Qed.

Lemma main_setup_related D L X t1 p1 t2 p2 gp0 fs fuel stdin argv :
  outcome_rel (fun x y => seed_rel (fst x) (fst y) /\ snd x = snd y)
    (main_setup D L X t1 p1 gp0 fs fuel stdin argv)
    (main_setup D L X t2 p2 gp0 fs fuel stdin argv).
Proof.
  unfold main_setup. cbn zeta.
  eapply outcome_rel_bind.
  - apply read_options_related. apply init_parameters_seed_rel.
  - intros gp1 gp2 R.
    rewrite (setup_target_related X fs stdin _ gp1 gp2 R).
    eapply outcome_rel_bind; [apply outcome_rel_eq; reflexivity|].
    intros tr ? <-.
    eapply outcome_rel_bind; [apply setup_parameters_related; exact R|].
    intros g1 g2 R'. split; [reflexivity|]. split; [exact R'|reflexivity].
Qed.

(** C4. Configuration set-up is deterministic given an explicit seed: when
    the seed option is supplied (-s on the command line, or seed= in a
    configuration file read through -c), two runs on the same command line,
    files and input yield the same outcome of read_options and call
    training_main with identical records, whatever the time and the process
    id are; without the option the two runs still end the same way, and
    their records agree on everything but the seed. *)
Theorem configuration_is_reproducible :
  forall (D : defaults) (L : libc) (X : externals)
         (t1 p1 t2 p2 : Z) (gp0 : general_parameters)
         (fs : filesystem) (fuel : nat) (stdin argv : list string),
    (seed_supplied L fs fuel argv = true ->
     read_options L fs fuel argv (init_parameters D t1 p1 gp0)
     = read_options L fs fuel argv (init_parameters D t2 p2 gp0)
     /\ main D L X t1 p1 gp0 fs fuel stdin argv
        = main D L X t2 p2 gp0 fs fuel stdin argv)
    /\ outcome_rel same_but_seed
         (read_options L fs fuel argv (init_parameters D t1 p1 gp0))
         (read_options L fs fuel argv (init_parameters D t2 p2 gp0))
    /\ outcome_rel same_call_but_seed
         (main D L X t1 p1 gp0 fs fuel stdin argv)
         (main D L X t2 p2 gp0 fs fuel stdin argv).
Proof.
  intros D L X t1 p1 t2 p2 gp0 fs fuel stdin argv.
  pose proof (init_parameters_seed_rel D t1 p1 t2 p2 gp0) as I.
  split; [|split].
  - intros S.
    assert (E : read_options L fs fuel argv (init_parameters D t1 p1 gp0)
                = read_options L fs fuel argv (init_parameters D t2 p2 gp0)).
    { apply outcome_rel_eq. apply read_options_fixes; assumption. }
    split; [exact E|].
    unfold main, main_setup. cbn zeta. rewrite E. reflexivity.
  - eapply outcome_rel_weaken; [|apply read_options_related; exact I].
    intros a b [H _]. exact H.
  - unfold main.
    eapply outcome_rel_bind; [apply main_setup_related|].
    intros [g1 r1] [g2 r2] [R E]. cbn [fst snd] in *. subst r2.
    rewrite (check_parameters_related g1 g2 r1 R).
    eapply outcome_rel_bind; [apply outcome_rel_eq; reflexivity|].
    intros _ _ _. split; [reflexivity|]. split; [apply R|reflexivity].
Qed.

Lemma configuration_is_reproducible_witness :
  Sample.run 5 7 ["rnn-learn"; "-s"; "9"; "data.txt"]
  = Sample.run 11 13 ["rnn-learn"; "-s"; "9"; "data.txt"]
  /\ Sample.run 5 7 ["rnn-learn"; "-c"; "outer.conf"; "data.txt"]
     = Sample.run 11 13 ["rnn-learn"; "-c"; "outer.conf"; "data.txt"].
Proof.
  split.
  - exact (proj2 (proj1 (configuration_is_reproducible Sample.D Sample.L
                           Sample.X 5 7 11 13 Sample.blank Sample.files 3 []
                           ["rnn-learn"; "-s"; "9"; "data.txt"]) eq_refl)).
  - exact (proj2 (proj1 (configuration_is_reproducible Sample.D Sample.L
                           Sample.X 5 7 11 13 Sample.blank Sample.files 3 []
                           ["rnn-learn"; "-c"; "outer.conf"; "data.txt"])
                    eq_refl)).
Defined.

(** * Further properties *)

(** ** [strip] and [parse_option_and_arg] *)

Lemma skip_leading_spec c s :
  exists pre,
    s = String.append pre (CString.skip_leading c s)
    /\ only c pre = true
    /\ first_is c (CString.skip_leading c s) = false.
Proof.
  induction s as [|a s IH]; cbn [CString.skip_leading].
  - exists EmptyString. auto.
  - destruct (Ascii.eqb a c) eqn:E.
    + destruct IH as (pre & E1 & E2 & E3).
      exists (String a pre). cbn. rewrite E, E2, <- E1. auto.
    + exists EmptyString. cbn. rewrite E. auto.
Qed.

Lemma drop_trailing_spec c s :
  exists post,
    s = String.append (CString.drop_trailing c s) post
    /\ only c post = true
    /\ last_is c (CString.drop_trailing c s) = false
    /\ (first_is c s = false ->
        first_is c (CString.drop_trailing c s) = false).
Proof.
  induction s as [|a s IH]; cbn [CString.drop_trailing].
  - exists EmptyString. auto.
  - destruct IH as (post & E1 & E2 & E3 & _).
    destruct (CString.drop_trailing c s) as [|b r] eqn:D.
    + cbn [String.append] in E1. subst post.
      destruct (Ascii.eqb a c) eqn:E.
      * exists (String a s). cbn. rewrite E, E2. auto.
      * exists s. cbn. rewrite E. auto.
    + exists post. repeat split; auto.
      cbn in E1 |- *. congruence.
Qed.

Lemma append_assoc (a b c : string) :
  String.append (String.append a b) c = String.append a (String.append b c).
Proof. induction a; cbn; congruence. Qed.

(** The decomposition of the argument of [strip] around its result. *)
Lemma strip_decomposition s c :
  exists pre r post,
    strip (Some s) c = Some r
    /\ s = String.append pre (String.append r post)
    /\ only c pre = true
    /\ only c post = true
    /\ first_is c r = false
    /\ last_is c r = false.
Proof.
  destruct (skip_leading_spec c s) as (pre & E1 & P1 & F1).
  destruct (drop_trailing_spec c (CString.skip_leading c s))
    as (post & E2 & P2 & L2 & F2).
  exists pre, (CString.drop_trailing c (CString.skip_leading c s)), post.
  repeat split; auto.
  rewrite <- E2. exact E1.
Qed.

(** X1. strip removes exactly the leading and the trailing occurrences of
    the character: the argument is the result between a prefix and a suffix
    that consist of that character only, and the result neither starts
    with it nor ends in it; what it returns for a text that already has
    this form is the text itself. *)
Theorem strip_removes_surrounding :
  forall (s : string) (c : ascii),
    (exists pre r post,
        strip (Some s) c = Some r
        /\ s = String.append pre (String.append r post)
        /\ only c pre = true
        /\ only c post = true
        /\ first_is c r = false
        /\ last_is c r = false)
    /\ (first_is c s = false -> last_is c s = false ->
        strip (Some s) c = Some s).
Proof.
  intros s c. split; [apply strip_decomposition|].
  intros F La. cbn [strip]. f_equal.
  assert (S : CString.skip_leading c s = s).
  { destruct s as [|a s]; [reflexivity|]. cbn in F |- *. rewrite F.
    reflexivity. }
  rewrite S. clear S F.
  induction s as [|a s IH]; [reflexivity|].
  cbn [CString.drop_trailing].
  destruct s as [|b s].
  - cbn in La |- *. rewrite La. reflexivity.
  - rewrite IH by exact La. reflexivity.
Qed.

Lemma cut_at_append set s ch t :
  CString.mem ch set = true ->
  CString.cut_at set (String.append s (String ch t)) = CString.cut_at set s.
Proof.
  intros M. induction s as [|a s IH]; cbn.
  - rewrite M. reflexivity.
  - destruct (CString.mem a set); congruence.
Qed.

(** X2. A comment runs to the end of the line: whatever follows the first
    [#], or the first newline, does not change what
    parse_option_and_arg returns. *)
Theorem parse_ignores_comment :
  (forall s t,
      parse_option_and_arg (String.append s (String "#" t))
      = parse_option_and_arg s)
  /\ (forall s t,
         parse_option_and_arg (String.append s (String CString.newline t))
         = parse_option_and_arg s).
Proof.
  split; intros s t; unfold parse_option_and_arg;
    rewrite cut_at_append; reflexivity.
Qed.

Lemma mem_append ch a b :
  CString.mem ch (String.append a b) = CString.mem ch a || CString.mem ch b.
Proof.
  induction a as [|x a IH]; cbn; [reflexivity|].
  rewrite IH. apply orb_assoc.
Qed.

Lemma mem_cut_at ch set s :
  CString.mem ch set = true -> CString.mem ch (CString.cut_at set s) = false.
Proof.
  intros M. induction s as [|a s IH]; cbn; [reflexivity|].
  destruct (CString.mem a set) eqn:E; cbn; [reflexivity|].
  rewrite IH. destruct (Ascii.eqb ch a) eqn:Q; [|reflexivity].
  apply Ascii.eqb_eq in Q. congruence.
Qed.

Lemma split_at_some c s l r :
  CString.split_at c s = Some (l, r) ->
  s = String.append l (String c r) /\ CString.mem c l = false.
Proof.
  revert l. induction s as [|a s IH]; intros l; cbn; [discriminate|].
  destruct (Ascii.eqb a c) eqn:E.
  - intros H. inversion H; subst. apply Ascii.eqb_eq in E. subst. auto.
  - destruct (CString.split_at c s) as [[l' r']|]; [|discriminate].
    intros H. inversion H; subst.
    destruct (IH l' eq_refl) as [-> M]. split; [reflexivity|].
    cbn. rewrite M, Ascii.eqb_sym, E. reflexivity.
Qed.

Lemma split_at_none c s :
  CString.split_at c s = None -> CString.mem c s = false.
Proof.
  induction s as [|a s IH]; cbn; [reflexivity|].
  destruct (Ascii.eqb a c) eqn:E; [discriminate|].
  destruct (CString.split_at c s) as [[l r]|]; [discriminate|].
  intros _. rewrite Ascii.eqb_sym, E. auto.
Qed.

Lemma strip_trimmed ch s :
  CString.mem ch s = false ->
  exists r,
    strip (Some s) " " = Some r
    /\ CString.mem ch r = false
    /\ first_is " " r = false
    /\ last_is " " r = false.
Proof.
  intros M.
  destruct (strip_decomposition s " ")
    as (pre & r & post & E & D & _ & _ & F & La).
  exists r. repeat split; auto.
  rewrite D, !mem_append in M.
  destruct (CString.mem ch r); [|reflexivity].
  rewrite orb_true_r in M. discriminate.
Qed.

Lemma strip_value s :
  strip (Some s) " "
  = Some (CString.drop_trailing " " (CString.skip_leading " " s)).
Proof. reflexivity. Qed.

Lemma strip_keeps_absent ch s :
  CString.mem ch s = false ->
  CString.mem ch (CString.drop_trailing " " (CString.skip_leading " " s))
  = false.
Proof.
  intros M. destruct (strip_trimmed ch s M) as (r & E & R & _).
  rewrite strip_value in E. inversion E; subst r. exact R.
Qed.

Lemma strip_is_trimmed s :
  CString.mem "#" s = false ->
  CString.mem CString.newline s = false ->
  trimmed_text (CString.drop_trailing " " (CString.skip_leading " " s)).
Proof.
  intros H N.
  destruct (strip_decomposition s " ")
    as (pre & r & post & E & _ & _ & _ & F & La).
  rewrite strip_value in E. inversion E; subst r.
  repeat split; auto using strip_keeps_absent.
Qed.

(** X3. What parse_option_and_arg returns, in terms of the text of the
    line (what stands before the first [#] or newline). The name is NULL
    exactly when the text is empty, and then the argument is NULL too.
    Otherwise, when the text has an [=], the name is the stripped part
    before the first [=] and the argument the stripped part after it; when
    it has none, the name is the stripped text and the argument is NULL.
    Hence the name has no [=], and name and argument have no [#], no
    newline and no space at either end. *)
Theorem parse_result_is_trimmed :
  forall str : string,
    match parse_option_and_arg str with
    | (Some opt, arg) =>
        line_text str <> EmptyString
        /\ CString.mem "=" opt = false
        /\ trimmed_text opt
        /\ match arg with
           | Some a =>
               trimmed_text a
               /\ exists l r,
                    line_text str = String.append l (String "=" r)
                    /\ CString.mem "=" l = false
                    /\ strip (Some l) " " = Some opt
                    /\ strip (Some r) " " = Some a
           | None =>
               CString.mem "=" (line_text str) = false
               /\ strip (Some (line_text str)) " " = Some opt
           end
    | (None, arg) => arg = None /\ line_text str = EmptyString
    end.
Proof.
  intros str. unfold parse_option_and_arg, line_text. fold comment_start.
  set (text := CString.cut_at comment_start str).
  assert (H : CString.mem "#" text = false)
    by (apply mem_cut_at; reflexivity).
  assert (N : CString.mem CString.newline text = false)
    by (apply mem_cut_at; reflexivity).
  destruct (0 <? CString.strlen text) eqn:Len.
  - assert (NE : text <> EmptyString).
    { intros E. rewrite E in Len. discriminate Len. }
    destruct (CString.split_at "=" text) as [[l r]|] eqn:Sp.
    + apply split_at_some in Sp. destruct Sp as [E M].
      pose proof H as H'. pose proof N as N'.
      rewrite E, !mem_append in H', N'. cbn [CString.mem] in H', N'.
      apply orb_false_iff in H', N'. destruct H' as [Hl Hr], N' as [Nl Nr].
      apply orb_false_iff in Hr, Nr. destruct Hr as [_ Hr], Nr as [_ Nr].
      cbn [strip].
      split; [exact NE|].
      split; [apply strip_keeps_absent; exact M|].
      split; [apply (strip_is_trimmed l Hl Nl)|].
      split; [apply (strip_is_trimmed r Hr Nr)|].
      exists l, r. split; [exact E|]. split; [exact M|].
      split; reflexivity.
    + apply split_at_none in Sp. cbn [strip].
      split; [exact NE|].
      split; [apply strip_keeps_absent; exact Sp|].
      split; [apply (strip_is_trimmed text H N)|].
      split; [exact Sp|reflexivity].
  - split; [reflexivity|].
    destruct text; [reflexivity|].
    unfold CString.strlen in Len. cbn [String.length] in Len.
    apply Z.ltb_ge in Len. lia.
Qed.

(** ** [read_config_file] *)

Lemma only_skip_leading c pre rest :
  only c pre = true ->
  CString.skip_leading c (String.append pre rest) = CString.skip_leading c rest.
Proof.
  induction pre as [|a pre IH]; cbn; [reflexivity|].
  intros H. apply andb_true_iff in H. destruct H as [E O].
  rewrite E. auto.
Qed.

Lemma append_empty s : String.append s EmptyString = s.
Proof. induction s; cbn; congruence. Qed.

Lemma only_strip pre :
  only " " pre = true -> strip (Some pre) " " = Some EmptyString.
Proof.
  intros O. cbn [strip]. rewrite <- (append_empty pre).
  rewrite only_skip_leading by exact O. reflexivity.
Qed.

Lemma only_mem c ch pre :
  only c pre = true -> Ascii.eqb ch c = false -> CString.mem ch pre = false.
Proof.
  intros O N. induction pre as [|a pre IH]; cbn in *; [reflexivity|].
  apply andb_true_iff in O. destruct O as [E O].
  apply Ascii.eqb_eq in E. subst a. rewrite N. auto.
Qed.

Lemma only_cut_at pre rest :
  only " " pre = true ->
  CString.cut_at comment_start (String.append pre rest)
  = String.append pre (CString.cut_at comment_start rest).
Proof.
  induction pre as [|a pre IH]; cbn [String.append only]; [reflexivity|].
  intros H. apply andb_true_iff in H. destruct H as [E O].
  apply Ascii.eqb_eq in E. subst a. cbn. rewrite <- IH by exact O.
  reflexivity.
Qed.

Lemma only_split_at pre rest :
  only " " pre = true ->
  CString.split_at "=" (String.append pre rest)
  = match CString.split_at "=" rest with
    | Some (l, r) => Some (String.append pre l, r)
    | None => None
    end.
Proof.
  induction pre as [|a pre IH]; cbn [String.append only].
  - intros _. destruct (CString.split_at "=" rest) as [[l r]|]; reflexivity.
  - intros H. apply andb_true_iff in H. destruct H as [E O].
    apply Ascii.eqb_eq in E. subst a. cbn. rewrite IH by exact O.
    destruct (CString.split_at "=" rest) as [[l r]|]; reflexivity.
Qed.

Lemma split_at_absent c s :
  CString.mem c s = false -> CString.split_at c s = None.
Proof.
  induction s as [|a s IH]; cbn; [reflexivity|].
  intros H. apply orb_false_iff in H. destruct H as [E M].
  rewrite Ascii.eqb_sym, E, IH by exact M. reflexivity.
Qed.

Lemma ignorable_parse pre rest :
  only " " pre = true ->
  ignorable_rest rest = true ->
  parse_option_and_arg (String.append pre rest) = (None, None)
  \/ exists arg,
       parse_option_and_arg (String.append pre rest)
       = (Some EmptyString, arg).
Proof.
  intros O I. unfold parse_option_and_arg. fold comment_start.
  rewrite only_cut_at by exact O.
  assert (C : CString.cut_at comment_start rest = EmptyString
              \/ exists t, CString.cut_at comment_start rest = String "=" t).
  { destruct rest as [|a t]; [left; reflexivity|].
    cbn [ignorable_rest CString.mem comment_start] in I.
    destruct (Ascii.eqb a "=") eqn:E.
    - apply Ascii.eqb_eq in E. subst a. right. eexists. reflexivity.
    - left. cbn [orb] in I. cbn [CString.cut_at comment_start CString.mem].
      rewrite I. reflexivity. }
  destruct C as [C|[t C]]; rewrite C.
  - rewrite append_empty.
    destruct (0 <? CString.strlen pre); [|left; reflexivity].
    right. rewrite split_at_absent
      by (apply (only_mem " "); [exact O|reflexivity]).
    rewrite only_strip by exact O. eexists. reflexivity.
  - right.
    destruct (0 <? CString.strlen (String.append pre (String "=" t))) eqn:Len.
    + rewrite only_split_at by exact O. cbn [CString.split_at Ascii.eqb].
      cbn. rewrite append_empty.
      pose proof (only_strip pre O) as S. cbn [strip] in S.
      inversion S as [S']. rewrite S'. eexists. reflexivity.
    + exfalso. apply Z.ltb_ge in Len. unfold CString.strlen in Len.
      destruct pre; cbn in Len; lia.
Qed.

(** X4. read_config_file passes over a line silently, with no warning and
    no change of the record, when the line is blank, holds only a comment,
    or has nothing but spaces before its [=] (an assignment without an
    option name). *)
Theorem blank_and_comment_lines_are_skipped :
  forall (L : libc) (cfg : setter) (n : Z) (pre rest : string)
         (gp : general_parameters),
    only " " pre = true ->
    ignorable_rest rest = true ->
    read_config_line L cfg n (String.append pre rest) gp = ret gp.
Proof.
  intros L cfg n pre rest gp O I. unfold read_config_line.
  destruct (ignorable_parse pre rest O I) as [E|[arg E]]; rewrite E;
    reflexivity.
Qed.

Lemma blank_and_comment_lines_are_skipped_witness :
  read_config_line Sample.L Sample.includes 3
    (Sample.line "   # rho = 7") Sample.gp = ret Sample.gp
  /\ read_config_line Sample.L Sample.includes 3
       (Sample.line "  = 7") Sample.gp = ret Sample.gp
  /\ read_config_line Sample.L Sample.includes 3
       (Sample.line "") Sample.gp = ret Sample.gp.
Proof.
  split; [|split].
  - exact (blank_and_comment_lines_are_skipped Sample.L Sample.includes 3
             "   " (Sample.line "# rho = 7") Sample.gp eq_refl eq_refl).
  - exact (blank_and_comment_lines_are_skipped Sample.L Sample.includes 3
             "  " (Sample.line "= 7") Sample.gp eq_refl eq_refl).
  - exact (blank_and_comment_lines_are_skipped Sample.L Sample.includes 3
             EmptyString (Sample.line EmptyString) Sample.gp eq_refl eq_refl).
Defined.

Lemma after_app {A} l1 l2 (m : outcome A) :
  after (l1 ++ l2) m = after l1 (after l2 m).
Proof. destruct m; cbn; rewrite app_assoc; reflexivity. Qed.

Lemma bind_after {A B} l (m : outcome A) (k : A -> outcome B) :
  bind (after l m) k = after l (bind m k).
Proof.
  destruct m; cbn; try reflexivity. rewrite after_app. reflexivity.
Qed.

Lemma bind_assoc {A B C} (m : outcome A) (f : A -> outcome B)
      (g : B -> outcome C) :
  bind (bind m f) g = bind m (fun x => bind (f x) g).
Proof. destruct m; cbn; try reflexivity. apply bind_after. Qed.

Lemma bind_ext {A B} (m : outcome A) (f g : A -> outcome B) :
  (forall a, f a = g a) -> bind m f = bind m g.
Proof. intros H. destruct m; cbn; try reflexivity. rewrite H. reflexivity. Qed.

Lemma bind_ext_returns {A B} (m : outcome A) (f g : A -> outcome B) :
  (forall l a, m = Returns l a -> f a = g a) -> bind m f = bind m g.
Proof.
  intros H. destruct m; cbn; try reflexivity.
  rewrite (H _ _ eq_refl). reflexivity.
Qed.

Lemma bind_ret_l {A B} (a : A) (k : A -> outcome B) : bind (ret a) k = k a.
Proof. cbn. apply after_nil. Qed.

(** X5. Reading composes over concatenation: the lines of a configuration
    file are processed in order, each on the record the lines before it
    left, and the line counter of the second part starts where the first
    part ended; the options of the command line are processed in order in
    the same way. An exit in the first part ends the whole. *)
Theorem reading_composes :
  forall (L : libc) (cfg : setter),
    (forall (lines1 lines2 : list string) (n : Z) (gp : general_parameters),
        read_config_lines L cfg n (lines1 ++ lines2) gp
        = bind (read_config_lines L cfg n lines1 gp)
            (read_config_lines L cfg (n + Z.of_nat (List.length lines1))
               lines2))
    /\ (forall (scan1 scan2 : list (ascii * option string))
               (gp : general_parameters),
           read_options_loop L cfg (scan1 ++ scan2) gp
           = bind (read_options_loop L cfg scan1 gp)
               (read_options_loop L cfg scan2)).
Proof.
  intros L cfg. split.
  - induction lines1 as [|str lines1 IH]; intros lines2 n gp.
    + cbn [app read_config_lines List.length Z.of_nat].
      rewrite Z.add_0_r, bind_ret_l. reflexivity.
    + cbn [app read_config_lines]. rewrite bind_assoc.
      apply bind_ext. intros g. rewrite IH.
      replace (n + 1 + Z.of_nat (List.length lines1))
        with (n + Z.of_nat (List.length (str :: lines1)))
        by (cbn [List.length]; lia).
      reflexivity.
  - induction scan1 as [|[opt optarg] scan1 IH]; intros scan2 gp.
    + cbn [app read_options_loop]. rewrite bind_ret_l. reflexivity.
    + cbn [app read_options_loop]. rewrite bind_assoc.
      apply bind_ext. intros g. apply IH.
Qed.

(** ** The option table *)

Lemma distinct_find (table : list option_information) :
  distinct (map name table) = true ->
  forall e, In e table -> find_option (name e) table = Some e.
Proof.
  induction table as [|e' table IH]; intros D e I; [contradiction|].
  cbn [map distinct] in D. apply andb_true_iff in D. destruct D as [N D].
  cbn [find_option]. destruct I as [->|I].
  - unfold CString.streq. rewrite String.eqb_refl. reflexivity.
  - destruct (CString.streq (name e) (name e')) eqn:E.
    + exfalso. apply String.eqb_eq in E.
      apply negb_true_iff in N.
      assert (X : existsb (String.eqb (name e')) (map name table) = true).
      { apply existsb_exists. exists (name e). split.
        - apply in_map. exact I.
        - rewrite E. apply String.eqb_refl. }
      congruence.
    + apply IH; assumption.
Qed.

Lemma opt_info_names_distinct L cfg :
  distinct (map name (opt_info L cfg)) = true.
Proof. vm_compute. reflexivity. Qed.

(** X6. No entry of opt_info is shadowed: the table has 102 entries with
    pairwise different names, so the search of read_config_file finds each
    entry under its own name. *)
Theorem every_option_is_reachable :
  forall (L : libc) (cfg : setter) (e : option_information),
    In e (opt_info L cfg) ->
    find_option (name e) (opt_info L cfg) = Some e
    /\ List.length (opt_info L cfg) = 102%nat.
Proof.
  intros L cfg e I. split; [|reflexivity].
  apply distinct_find; [apply opt_info_names_distinct|exact I].
Qed.

Lemma every_option_is_reachable_witness :
  find_option "verbose" (opt_info Sample.L Sample.includes)
  = Some (entry "verbose" 0 set_verbose).
Proof.
  refine (proj1 (every_option_is_reachable Sample.L Sample.includes
                   (entry "verbose" 0 set_verbose) _)).
  unfold opt_info. repeat (apply in_or_app; right). left. reflexivity.
Defined.

(** ** [read_options] *)

(** X7. An option character that read_options does not hand to a setter
    ends the process at once with EXIT_SUCCESS, whatever options follow:
    -v after printing the version, -h after printing the help, and every
    other character (the [?] of getopt, and -f, which the option string
    accepts but the switch does not handle) after the hint to try -h. *)
Theorem unhandled_option_exits_successfully :
  forall (L : libc) (cfg : setter) (opt : ascii) (optarg : option string)
         (rest : list (ascii * option string)) (gp : general_parameters),
    CString.mem opt setter_options = false ->
    read_options_loop L cfg ((opt, optarg) :: rest) gp
    = Exits [leaving_event opt] EXIT_SUCCESS.
Proof.
  intros L cfg opt optarg rest gp H.
  cbn [CString.mem setter_options] in H.
  repeat match type of H with
         | (_ || _) = false =>
             let E := fresh "E" in
             apply orb_false_iff in H; destruct H as [E H]
         end.
  cbn [read_options_loop]. unfold read_option, leaving_event.
  repeat match goal with
         | E : Ascii.eqb opt _ = false |- _ => rewrite E; clear E
         end.
  destruct (Ascii.eqb opt "v"); [reflexivity|].
  destruct (Ascii.eqb opt "h"); reflexivity.
Qed.

Lemma unhandled_option_exits_successfully_witness :
  read_options_loop Sample.L Sample.includes
    [("f"%char, Some "x"); ("s"%char, Some "3")] Sample.gp
  = Exits
      [fprintf_stderr
         (Sample.line "Try `rnn-learn -h' for more information.")]
      EXIT_SUCCESS.
Proof.
  exact (unhandled_option_exits_successfully Sample.L Sample.includes
           "f" (Some "x") [("s"%char, Some "3")] Sample.gp eq_refl).
Defined.

(** X8. A configuration file that cannot be opened is fatal wherever it is
    named: -c on the command line, or a config_file line of another
    configuration file, ends the process with 'cannot open' and
    EXIT_FAILURE, and neither the remaining options nor the remaining
    lines are read. *)
Theorem missing_config_file_is_fatal :
  forall (L : libc) (fs : filesystem) (fuel : nat) (path : string)
         (gp : general_parameters),
    fs path = None ->
    (forall rest,
        read_options_loop L (set_config_file L fs (S fuel))
          (("c"%char, Some path) :: rest) gp
        = fatal "cannot open %s" [Arg_s path])
    /\ (forall n str rest,
           parse_option_and_arg str = (Some "config_file", Some path) ->
           read_config_lines L (set_config_file L fs (S fuel)) n
             (str :: rest) gp
           = fatal "cannot open %s" [Arg_s path]).
Proof.
  intros L fs fuel path gp F. split.
  - intros rest. cbn [read_options_loop]. unfold read_option.
    cbn [Ascii.eqb Bool.eqb]. cbn [set_config_file]. rewrite F. reflexivity.
  - intros n str rest P. cbn [read_config_lines]. unfold read_config_line.
    rewrite P. rewrite find_option_config_file.
    cbn [CString.strlen String.length Z.of_nat Z.ltb Z.compare
         has_arg setter_of entry Z.eqb Pos.of_succ_nat Pos.succ].
    cbn [set_config_file]. rewrite F. reflexivity.
Qed.

Lemma missing_config_file_is_fatal_witness :
  read_config_lines Sample.L Sample.includes 0
    [Sample.line "config_file = nowhere.conf"; Sample.line "rho = 1"]
    Sample.gp
  = fatal "cannot open %s" [Arg_s "nowhere.conf"].
Proof.
  exact (proj2 (missing_config_file_is_fatal Sample.L Sample.files 2
                  "nowhere.conf" Sample.gp eq_refl) 0
           (Sample.line "config_file = nowhere.conf")
           [Sample.line "rho = 1"] eq_refl).
Defined.

(** ** Depth of inclusion *)

Lemma within_fuel_bind {A B} (m : outcome A) (k : A -> outcome B) :
  within_fuel (bind m k) ->
  within_fuel m /\ forall l a, m = Returns l a -> within_fuel (k a).
Proof.
  destruct m as [l a| | |]; cbn; intros H; split; auto; try discriminate.
  intros l' a' E. inversion E; subst. destruct (k a'); cbn in *; auto.
Qed.

Lemma find_option_map cfg' opt table :
  find_option opt (map (retarget cfg') table)
  = option_map (retarget cfg') (find_option opt table).
Proof.
  induction table as [|e table IH]; [reflexivity|].
  cbn [map find_option].
  replace (name (retarget cfg' e)) with (name e)
    by (unfold retarget;
        destruct (CString.streq (name e) "config_file"); reflexivity).
  destruct (CString.streq opt (name e)); [reflexivity|exact IH].
Qed.

Lemma opt_info_retarget L cfg cfg' :
  opt_info L cfg' = map (retarget cfg') (opt_info L cfg).
Proof. reflexivity. Qed.

Lemma find_option_retarget L cfg cfg' opt :
  find_option opt (opt_info L cfg')
  = option_map (retarget cfg') (find_option opt (opt_info L cfg)).
Proof.
  rewrite (opt_info_retarget L cfg cfg'). apply find_option_map.
Qed.

Lemma find_option_name opt table e :
  find_option opt table = Some e -> name e = opt.
Proof.
  induction table as [|e' table IH]; cbn; [discriminate|].
  destruct (CString.streq opt (name e')) eqn:E; [|exact IH].
  intros H. inversion H; subst. apply String.eqb_eq in E. auto.
Qed.

Section Deeper.

Variables (L : libc) (cfg cfg' : setter).
Hypothesis deeper :
  forall a gp, within_fuel (cfg a gp) -> cfg' a gp = cfg a gp.

Lemma retarget_setter opt e arg gp :
  find_option opt (opt_info L cfg) = Some e ->
  within_fuel (setter_of e arg gp) ->
  setter_of (retarget cfg' e) arg gp = setter_of e arg gp
  /\ has_arg (retarget cfg' e) = has_arg e.
Proof.
  intros F W. unfold retarget.
  destruct (CString.streq (name e) "config_file") eqn:E;
    [|split; reflexivity].
  split; [|reflexivity]. cbn [setter_of].
  apply String.eqb_eq in E.
  pose proof (find_option_name _ _ _ F) as N.
  rewrite E in N. subst opt.
  rewrite find_option_config_file in F. inversion F; subst.
  cbn [setter_of entry] in *. apply deeper. exact W.
Qed.

Lemma read_config_line_deeper n str gp :
  within_fuel (read_config_line L cfg n str gp) ->
  read_config_line L cfg' n str gp = read_config_line L cfg n str gp.
Proof.
  unfold read_config_line.
  destruct (parse_option_and_arg str) as [[opt|] arg]; [|reflexivity].
  destruct (0 <? CString.strlen opt); [|reflexivity].
  rewrite (find_option_retarget L cfg cfg').
  destruct (find_option opt (opt_info L cfg)) as [e|] eqn:F; [|reflexivity].
  cbn [option_map]. intros W.
  assert (H : has_arg (retarget cfg' e) = has_arg e).
  { unfold retarget. destruct (CString.streq (name e) "config_file");
      reflexivity. }
  rewrite H.
  destruct (has_arg e =? 0), arg; try reflexivity;
    apply (retarget_setter opt); assumption.
Qed.

Lemma read_config_lines_deeper lines :
  forall n gp,
    within_fuel (read_config_lines L cfg n lines gp) ->
    read_config_lines L cfg' n lines gp = read_config_lines L cfg n lines gp.
Proof.
  induction lines as [|str lines IH]; intros n gp W; [reflexivity|].
  cbn [read_config_lines] in *.
  apply within_fuel_bind in W. destruct W as [W1 W2].
  rewrite read_config_line_deeper by exact W1.
  apply bind_ext_returns. intros l a E. apply IH. eapply W2. exact E.
Qed.

Lemma read_option_deeper opt optarg gp :
  within_fuel (read_option L cfg opt optarg gp) ->
  read_option L cfg' opt optarg gp = read_option L cfg opt optarg gp.
Proof.
  unfold read_option.
  repeat match goal with
         | |- context [if ?c then _ else _] => destruct c; [auto|]
         end.
  reflexivity.
Qed.

Lemma read_options_loop_deeper scan :
  forall gp,
    within_fuel (read_options_loop L cfg scan gp) ->
    read_options_loop L cfg' scan gp = read_options_loop L cfg scan gp.
Proof.
  induction scan as [|[opt optarg] scan IH]; intros gp W; [reflexivity|].
  cbn [read_options_loop] in *.
  apply within_fuel_bind in W. destruct W as [W1 W2].
  rewrite read_option_deeper by exact W1.
  apply bind_ext_returns. intros l a E. apply IH. eapply W2. exact E.
Qed.

End Deeper.

Lemma set_config_file_one_deeper L fs fuel :
  forall a gp,
    within_fuel (set_config_file L fs fuel a gp) ->
    set_config_file L fs (S fuel) a gp = set_config_file L fs fuel a gp.
Proof.
  induction fuel as [|fuel IH]; intros a gp W; [contradiction W|].
  cbn [set_config_file] in W |- *.
  destruct a as [path|]; [|reflexivity].
  destruct (fs path) as [lines|]; [|reflexivity].
  apply read_config_lines_deeper; [exact IH|exact W].
Qed.

Lemma set_config_file_deeper L fs fuel k :
  forall a gp,
    within_fuel (set_config_file L fs fuel a gp) ->
    set_config_file L fs (k + fuel) a gp = set_config_file L fs fuel a gp.
Proof.
  induction k as [|k IH]; intros a gp W; [reflexivity|].
  cbn [Nat.add]. rewrite set_config_file_one_deeper.
  - apply IH. exact W.
  - rewrite IH by exact W. exact W.
Qed.

(** Adequacy of the bound on the depth of inclusion: when a run does not
    exhaust the bound, it has the same outcome under every larger bound. *)
Lemma deeper_inclusion_changes_nothing :
  forall (D : defaults) (L : libc) (X : externals) (time pid : Z)
         (gp0 : general_parameters) (fs : filesystem)
         (stdin argv : list string) (fuel fuel' : nat),
    (fuel <= fuel')%nat ->
    (within_fuel
       (read_options L fs fuel argv (init_parameters D time pid gp0)) ->
     read_options L fs fuel' argv (init_parameters D time pid gp0)
     = read_options L fs fuel argv (init_parameters D time pid gp0))
    /\ (within_fuel (main D L X time pid gp0 fs fuel stdin argv) ->
        main D L X time pid gp0 fs fuel' stdin argv
        = main D L X time pid gp0 fs fuel stdin argv).
Proof.
  intros D L X time pid gp0 fs stdin argv fuel fuel' Le.
  replace fuel' with ((fuel' - fuel) + fuel)%nat by lia.
  assert (R : within_fuel
                (read_options L fs fuel argv (init_parameters D time pid gp0)) ->
              read_options L fs (fuel' - fuel + fuel) argv
                (init_parameters D time pid gp0)
              = read_options L fs fuel argv (init_parameters D time pid gp0)).
  { intros W. unfold read_options in *.
    apply read_options_loop_deeper; [|exact W].
    intros a gp. apply set_config_file_deeper. }
  split; [exact R|].
  intros W. unfold main, main_setup in *. cbn zeta in *.
  apply within_fuel_bind in W. destruct W as [W _].
  apply within_fuel_bind in W. destruct W as [W _].
  rewrite R by exact W. reflexivity.
Qed.

(** ** [setup_target] *)

(** X10. setup_target reads the standard input only when the command line
    names no target file and no load file is given: with a load file and no
    target file nothing is read and the reader stays as
    init_target_reader left it, and with target files the standard input
    is never consulted. *)
Theorem standard_input_is_the_last_resort :
  forall (X : externals) (fs : filesystem) (stdin stdin' : list string)
         (operands : list string) (gp : general_parameters),
    (operands = [] -> load_filename (iop gp) <> EmptyString ->
     setup_target X fs stdin operands gp = ret (init_target_reader X))
    /\ (operands <> [] ->
        setup_target X fs stdin operands gp
        = setup_target X fs stdin' operands gp)
    /\ (operands = [] -> load_filename (iop gp) = EmptyString ->
        setup_target X fs stdin operands gp
        = match read_target_from_file X (init_target_reader X)
                  target_separators stdin with
          | Some t => ret t
          | None => fatal "error in the standard input" []
          end).
Proof.
  intros X fs stdin stdin' operands gp. unfold setup_target.
  split; [|split].
  - intros -> N. cbn [List.length Z.of_nat Z.eqb andb].
    destruct (load_filename (iop gp)); [contradiction|reflexivity].
  - intros N. destruct operands; [contradiction|reflexivity].
  - intros -> E. rewrite E. cbn.
    destruct (read_target_from_file X (init_target_reader X)
                target_separators stdin); reflexivity.
Qed.

Lemma standard_input_is_the_last_resort_witness :
  setup_target Sample.X Sample.files [Sample.line "1"] []
    (on_iop (with_load_filename "rnn.dat") Sample.gp)
  = ret (init_target_reader Sample.X)
  /\ setup_target Sample.X Sample.files [Sample.line "1"] ["data.txt"]
       Sample.gp
     = setup_target Sample.X Sample.files [] ["data.txt"] Sample.gp.
Proof.
  pose proof (standard_input_is_the_last_resort Sample.X Sample.files
                [Sample.line "1"] [] []
                (on_iop (with_load_filename "rnn.dat") Sample.gp)) as A.
  pose proof (standard_input_is_the_last_resort Sample.X Sample.files
                [Sample.line "1"] [] ["data.txt"] Sample.gp) as B.
  split.
  - apply (proj1 A); [reflexivity|discriminate].
  - apply (proj1 (proj2 B)). discriminate.
Defined.

Lemma read_target_files_unreadable X fs files :
  forall t file,
    In file files -> fs file = None ->
    exists log, read_target_files X fs files t = Exits log EXIT_FAILURE.
Proof.
  induction files as [|f files IH]; intros t file I F; [contradiction|].
  cbn [read_target_files].
  destruct (fs f) as [lines|] eqn:E; [|eexists; reflexivity].
  destruct (read_target_from_file X t target_separators lines) as [t'|];
    [|eexists; reflexivity].
  destruct I as [->|I]; [congruence|].
  eapply IH; eauto.
Qed.

(** X11. A target file that cannot be opened is fatal: when one of the
    files named on the command line cannot be opened, setup_target ends the
    process with EXIT_FAILURE, so no reader is returned; when it is the
    first one, the message is 'cannot open' with its name. *)
Theorem unreadable_target_file_is_fatal :
  forall (X : externals) (fs : filesystem) (stdin : list string)
         (operands : list string) (gp : general_parameters) (file : string),
    In file operands ->
    fs file = None ->
    (exists log,
        setup_target X fs stdin operands gp = Exits log EXIT_FAILURE)
    /\ (forall rest,
           operands = file :: rest ->
           setup_target X fs stdin operands gp
           = fatal "cannot open %s" [Arg_s file]).
Proof.
  intros X fs stdin operands gp file I F. split.
  - unfold setup_target. destruct operands as [|f files]; [contradiction|].
    cbn [List.length Z.of_nat Z.eqb andb].
    eapply read_target_files_unreadable; eauto.
  - intros rest ->. unfold setup_target.
    cbn [List.length Z.of_nat Z.eqb andb read_target_files].
    rewrite F. reflexivity.
Qed.

Lemma unreadable_target_file_is_fatal_witness :
  exists log,
    setup_target Sample.X Sample.files [] ["data.txt"; "lost.txt"] Sample.gp
    = Exits log EXIT_FAILURE.
Proof.
  refine (proj1 (unreadable_target_file_is_fatal Sample.X Sample.files []
                   ["data.txt"; "lost.txt"] Sample.gp "lost.txt" _ _)).
  - right. left. reflexivity.
  - reflexivity.
Defined.

(** ** [setup_parameters] and [free_parameters] *)

Lemma setup_parameters_returns X gp tr l gp' :
  setup_parameters X gp tr = Returns l gp' ->
  mp gp' = mp gp /\ ap gp' = ap gp /\ iop gp' = iop gp
  /\ adapt_lr (inp gp') = one /\ init_epoch (inp gp') = 0
  /\ ((CString.strlen (load_filename (iop gp)) =? 0) && negb (num tr =? 0)
      = true -> tables_assigned (inp gp') = true).
Proof.
  unfold setup_parameters.
  cbn [with_inp mp ap iop inp with_init_epoch with_adapt_lr adapt_lr
       init_epoch].
  destruct ((CString.strlen (load_filename (iop gp)) =? 0)
            && negb (num tr =? 0)).
  - intros H.
    repeat match type of H with
           | bind ?m _ = Returns _ _ =>
               let l1 := fresh "l" in
               let a := fresh "a" in
               let l2 := fresh "l" in
               let E := fresh "E" in
               apply bind_returns in H;
               destruct H as (l1 & a & l2 & E & H & _); clear E
           end.
    inversion H; subst. cbn. repeat split; reflexivity.
  - intros H. inversion H; subst. cbn. repeat split; try reflexivity.
    discriminate.
Qed.

(** X12. setup_parameters leaves the members mp, ap and iop of the record
    as they are and sets adapt_lr to 1.0 and init_epoch to 0 in every
    record it returns; with a load file, or with no parsed sequence, it
    returns at once, without allocating or parsing anything. *)
Theorem setup_parameters_frame :
  forall (X : externals) (gp : general_parameters) (tr : target_reader),
    (forall l gp',
        setup_parameters X gp tr = Returns l gp' ->
        mp gp' = mp gp /\ ap gp' = ap gp /\ iop gp' = iop gp
        /\ adapt_lr (inp gp') = one /\ init_epoch (inp gp') = 0)
    /\ (load_filename (iop gp) <> EmptyString \/ num tr = 0 ->
        setup_parameters X gp tr
        = ret (with_inp (with_init_epoch 0 (with_adapt_lr one (inp gp))) gp)).
Proof.
  intros X gp tr. split.
  - intros l gp' H. apply setup_parameters_returns in H. tauto.
  - intros H. unfold setup_parameters.
    cbn [with_inp mp ap iop inp].
    destruct H as [H|H].
    + destruct (load_filename (iop gp)); [contradiction|reflexivity].
    + rewrite H. cbn. rewrite andb_false_r. reflexivity.
Qed.

Lemma setup_parameters_frame_witness :
  setup_parameters Sample.X Sample.gp Sample.no_sequence
  = ret (with_inp (with_init_epoch 0 (with_adapt_lr one (inp Sample.gp)))
           Sample.gp).
Proof.
  apply (proj2 (setup_parameters_frame Sample.X Sample.gp
                  Sample.no_sequence)).
  right. reflexivity.
Defined.

(** X13. free_parameters is safe on the record main hands to
    training_main: whenever the call is reached with no load file, every
    table of inp that free_parameters frees was assigned by
    setup_parameters, because check_parameters has ruled out the one case
    in which setup_parameters skips the allocation. *)
Theorem free_parameters_frees_what_was_allocated :
  forall (D : defaults) (L : libc) (X : externals) (time pid : Z)
         (gp0 : general_parameters) (fs : filesystem) (fuel : nat)
         (stdin argv : list string) (log : list event)
         (gp : general_parameters) (tr : target_reader),
    main D L X time pid gp0 fs fuel stdin argv = Returns log (gp, tr) ->
    (load_filename (iop gp) = EmptyString -> tables_assigned (inp gp) = true)
    /\ (tables_assigned (inp gp0) = true
        \/ load_filename (iop gp) = EmptyString ->
        free_parameters gp = ret tt).
Proof.
  intros D L X time pid gp0 fs fuel stdin argv log gp tr M.
  apply main_enters_training in M. destruct M as [S C].
  unfold main_setup in S. cbn zeta in S.
  apply bind_returns in S. destruct S as (l1 & g1 & l2 & R & S & _).
  apply bind_returns in S. destruct S as (l3 & t & l4 & T & S & _).
  apply bind_returns in S. destruct S as (l5 & g2 & l6 & P & S & _).
  inversion S; subst. clear S.
  pose proof (setup_parameters_returns _ _ _ _ _ P)
    as (_ & _ & Io & _ & _ & Tb).
  pose proof (proj1 (check_parameters_accepts gp tr) C f_training_data) as N.
  cbn [out_of_range] in N.
  assert (A : load_filename (iop gp) = EmptyString ->
              tables_assigned (inp gp) = true).
  { intros E. apply Tb. rewrite <- Io, E in *. cbn in N |- *.
    rewrite andb_true_r in N. rewrite N. reflexivity. }
  split; [exact A|].
  intros H. unfold free_parameters.
  destruct (CString.strlen (load_filename (iop gp)) =? 0) eqn:Z0;
    [|reflexivity].
  assert (E : load_filename (iop gp) = EmptyString).
  { destruct (load_filename (iop gp)); [reflexivity|discriminate Z0]. }
  rewrite (A E). reflexivity.
Qed.

Lemma free_parameters_frees_what_was_allocated_witness :
  exists log gp tr,
    Sample.run 0 0 ["rnn-learn"; "data.txt"] = Returns log (gp, tr)
    /\ free_parameters gp = ret tt.
Proof.
  destruct (Sample.run 0 0 ["rnn-learn"; "data.txt"])
    as [log [gp tr]| | |] eqn:E; try (vm_compute in E; discriminate E).
  exists log, gp, tr. split; [reflexivity|].
  destruct (free_parameters_frees_what_was_allocated Sample.D Sample.L
              Sample.X 0 0 Sample.blank Sample.files 3 []
              ["rnn-learn"; "data.txt"] log gp tr E) as [A F].
  apply F. right.
  unfold Sample.run in E. apply main_enters_training in E.
  destruct E as [S _]. vm_compute in S. inversion S. reflexivity.
Defined.

(** ** More on [check_parameters] *)

(** X14. A load file excuses an empty training set: when a load file is
    given, check_parameters does not look at the reader at all, so its
    outcome is the same for every reader, the empty one included. *)
Theorem load_file_excuses_empty_training_set :
  forall (gp : general_parameters) (tr tr' : target_reader),
    load_filename (iop gp) <> EmptyString ->
    check_parameters gp tr = check_parameters gp tr'.
Proof.
  intros gp tr tr' N. unfold check_parameters.
  destruct (load_filename (iop gp)) as [|a s]; [contradiction|].
  replace (CString.strlen (String a s) =? 0) with false
    by (unfold CString.strlen; cbn [String.length];
        symmetry; apply Z.eqb_neq; lia).
  rewrite !andb_false_r. reflexivity.
Qed.

Lemma load_file_excuses_empty_training_set_witness :
  check_parameters (on_iop (with_load_filename "rnn.dat") Sample.gp)
    Sample.no_sequence = ret tt.
Proof.
  rewrite (load_file_excuses_empty_training_set
             (on_iop (with_load_filename "rnn.dat") Sample.gp)
             Sample.no_sequence Sample.one_sequence).
  - reflexivity.
  - discriminate.
Defined.

(** X15. No range test of check_parameters rejects a NaN: a record that
    passes validation still passes it when its learning rate, momentum,
    prior strength, variance of the representative points, lambda and
    alpha are all replaced by NaN. *)
Theorem nan_passes_every_float_test :
  forall (gp : general_parameters) (tr : target_reader),
    check_parameters gp tr = ret tt ->
    check_parameters (with_nan_floats gp) tr = ret tt.
Proof.
  intros gp tr A. apply check_parameters_accepts.
  rewrite check_parameters_accepts in A.
  intros f. specialize (A f). destruct f; try exact A; reflexivity.
Qed.

Lemma nan_passes_every_float_test_witness :
  check_parameters (with_nan_floats Sample.gp) Sample.one_sequence = ret tt.
Proof.
  apply (nan_passes_every_float_test Sample.gp Sample.one_sequence).
  reflexivity.
Defined.

(** ** Repeated options *)

(** X16. The last assignment wins: for every option that assigns a member
    of mp or ap or a file name (the entries of opt_info before
    print_interval), applying its setter after an earlier application of
    the same setter gives the record that the later application alone
    gives. *)
Theorem last_assignment_wins :
  forall (L : libc) (cfg : setter) (e : option_information)
         (a1 : string) (a2 : option string) (gp : general_parameters),
    In e (member_options L cfg) ->
    bind (setter_of e (Some a1) gp) (setter_of e a2) = setter_of e a2 gp.
Proof.
  intros L cfg e a1 a2 gp I.
  unfold member_options, opt_info in I. cbn [firstn app] in I.
  repeat (destruct I as [<-|I]; [destruct a2; reflexivity|]).
  contradiction.
Qed.

Lemma last_assignment_wins_witness :
  bind (set_rho Sample.L (Some "1") Sample.gp) (set_rho Sample.L (Some "2"))
  = set_rho Sample.L (Some "2") Sample.gp.
Proof.
  refine (last_assignment_wins Sample.L Sample.includes
            (entry "rho" 1 (set_rho Sample.L)) "1" (Some "2") Sample.gp _).
  unfold member_options, opt_info. cbn [firstn app].
  do 3 right. left. reflexivity.
Defined.

Lemma member_options_names L cfg :
  map name (member_options L cfg)
  = ["seed"; "epoch_size"; "use_adaptive_lr"; "rho"; "momentum";
     "c_state_size"; "rep_init_size"; "delay_length"; "output_type";
     "fixed_weight"; "fixed_threshold"; "fixed_tau"; "fixed_init_c_state";
     "connection_i2c"; "connection_c2c"; "connection_c2o"; "connection_c2v";
     "const_init_c"; "softmax_group"; "init_tau"; "prior_strength";
     "rep_init_variance"; "lambda"; "alpha"; "truncate_length";
     "block_length"; "divide_num"; "lyapunov_spectrum_size";
     "threshold_period"; "state_file"; "closed_state_file"; "weight_file";
     "threshold_file"; "tau_file"; "init_file"; "rep_init_file";
     "adapt_lr_file"; "error_file"; "closed_error_file"; "lyapunov_file";
     "entropy_file"; "period_file"; "save_file"; "load_file"].
Proof. reflexivity. Qed.

(** ** The seed when the option is omitted *)

Section Seed_kept.

Variables (L : libc) (s : Z).

Lemma default_setter_keeps_seed O a : keeps (seed_is s) (default_setter L O a).
Proof.
  intros gp l gp' HP H. apply default_setter_returns in H.
  destruct H as [v ->]. exact HP.
Qed.

Lemma per_stream_setter_keeps_seed F O a :
  keeps (seed_is s) (per_stream_setter L F O a).
Proof.
  intros gp l gp' HP H. apply per_stream_setter_returns in H.
  destruct H as [v ->]. exact HP.
Qed.

Lemma opt_info_keeps_seed cfg (a : option string) :
  Forall (fun e =>
            name e = "seed" \/ name e = "config_file"
            \/ keeps (seed_is s) (setter_of e a))
    (opt_info L cfg).
Proof.
  unfold opt_info, ENTRY_PRINT_INTERVAL_SETTER. cbn [app].
  repeat (apply Forall_cons;
          [cbn [setter_of name entry ENTRY_PRINT_INTERVAL_SETTER_II];
           first
             [ left; reflexivity
             | right; left; reflexivity
             | right; right;
               first
                 [ exact (default_setter_keeps_seed opt_interval _)
                 | exact (default_setter_keeps_seed opt_init _)
                 | exact (default_setter_keeps_seed opt_end _)
                 | exact (default_setter_keeps_seed
                            opt_use_logscale_interval _)
                 | exact (per_stream_setter_keeps_seed _ opt_interval _)
                 | exact (per_stream_setter_keeps_seed _ opt_init _)
                 | exact (per_stream_setter_keeps_seed _ opt_end _)
                 | exact (per_stream_setter_keeps_seed _
                            opt_use_logscale_interval _)
                 | let gp := fresh "gp" in
                   let H := fresh "H" in
                   let HP := fresh "HP" in
                   intros gp ? ? HP H; destruct a;
                   cbn in H; inversion H; subst; exact HP ] ]|]).
  apply Forall_nil.
Qed.

Variables (cfg : setter) (sup : string -> bool).
Hypothesis cfg_keeps :
  forall path, sup path = false -> keeps (seed_is s) (cfg (Some path)).
Hypothesis cfg_null : keeps (seed_is s) (cfg None).

Lemma read_config_line_keeps_seed n str :
  line_fixes sup str = false ->
  keeps (seed_is s) (read_config_line L cfg n str).
Proof.
  intros NF gp l gp' HP H. unfold read_config_line in H.
  unfold line_fixes, line_supplies_seed in NF.
  destruct (parse_option_and_arg str) as [[opt|] arg];
    [|inversion H; subst; exact HP].
  destruct (0 <? CString.strlen opt); [|inversion H; subst; exact HP].
  destruct (find_option opt (opt_info L cfg)) as [e|] eqn:Fo;
    [|inversion H; subst; exact HP].
  pose proof (find_option_name _ _ _ Fo) as N.
  pose proof (find_option_in _ _ _ Fo) as I.
  pose proof (opt_info_keeps_seed cfg arg) as A.
  rewrite Forall_forall in A. specialize (A _ I).
  destruct A as [A|[A|A]].
  - rewrite A in N. subst opt. rewrite find_option_seed in Fo.
    inversion Fo; subst e. cbn [has_arg entry Z.eqb] in H.
    destruct arg; [discriminate NF|]. inversion H; subst; exact HP.
  - rewrite A in N. subst opt. rewrite find_option_config_file in Fo.
    inversion Fo; subst e. cbn [has_arg setter_of entry Z.eqb] in H.
    destruct arg as [inner|]; [|inversion H; subst; exact HP].
    cbn in NF. eapply cfg_keeps; eauto.
  - destruct (has_arg e =? 0), arg; try (eapply A; eassumption).
    inversion H; subst; exact HP.
Qed.

Lemma read_config_lines_keeps_seed lines :
  existsb (line_fixes sup) lines = false ->
  forall n, keeps (seed_is s) (read_config_lines L cfg n lines).
Proof.
  induction lines as [|str lines IH]; intros NF n gp l gp' HP H.
  - inversion H; subst; exact HP.
  - cbn [existsb] in NF. apply orb_false_iff in NF. destruct NF as [N1 N2].
    cbn [read_config_lines] in H. apply bind_returns in H.
    destruct H as (l1 & gp1 & l2 & E1 & E2 & _).
    eapply IH; [exact N2| |exact E2].
    eapply read_config_line_keeps_seed; eauto.
Qed.

Lemma read_option_keeps_seed opt optarg :
  option_fixes sup (opt, optarg) = false ->
  keeps (seed_is s) (read_option L cfg opt optarg).
Proof.
  unfold option_fixes. cbn [fst snd]. intros NF gp l gp' HP H.
  apply orb_false_iff in NF. destruct NF as [N1 N2].
  unfold read_option in H. rewrite N1 in H.
  repeat match type of H with
         | (if ?c then _ else _) = _ =>
             let E := fresh "E" in
             destruct c eqn:E;
             [first
                [ discriminate H
                | exact (default_setter_keeps_seed opt_interval _ _ _ _ HP H)
                | destruct optarg as [path|];
                  [try rewrite E in N2; exact (cfg_keeps _ N2 _ _ _ HP H)
                  |exact (cfg_null _ _ _ HP H)]
                | destruct optarg; cbn in H; inversion H; subst; exact HP ]
             |]
         end.
  discriminate H.
Qed.

Lemma read_options_loop_keeps_seed scan :
  existsb (option_fixes sup) scan = false ->
  keeps (seed_is s) (read_options_loop L cfg scan).
Proof.
  induction scan as [|[opt optarg] scan IH]; intros NF gp l gp' HP H.
  - inversion H; subst; exact HP.
  - cbn [existsb] in NF. apply orb_false_iff in NF. destruct NF as [N1 N2].
    cbn [read_options_loop] in H. apply bind_returns in H.
    destruct H as (l1 & gp1 & l2 & E1 & E2 & _).
    eapply IH; [exact N2| |exact E2].
    eapply read_option_keeps_seed; eauto.
Qed.

End Seed_kept.

Lemma set_config_file_keeps_seed L s fs fuel :
  forall path,
    file_supplies_seed fs fuel path = false ->
    keeps (seed_is s) (set_config_file L fs fuel (Some path)).
Proof.
  induction fuel as [|fuel IH]; intros path NF gp l gp' HP H;
    [discriminate H|].
  cbn [set_config_file] in H. cbn [file_supplies_seed] in NF.
  destruct (fs path) as [lines|]; [|discriminate H].
  eapply (read_config_lines_keeps_seed L s (set_config_file L fs fuel)
            (file_supplies_seed fs fuel)); eauto.
Qed.

(** X17. When the seed option is omitted, the seed that reaches training is
    the default one: if neither -s nor a seed= line of a configuration
    file is supplied and read_options returns, the seed of the record is
    still ((unsigned long)(time * pid) mod 4294967295) + 1. *)
Theorem seed_stays_default_unless_supplied :
  forall (D : defaults) (L : libc) (time pid : Z) (gp0 : general_parameters)
         (fs : filesystem) (fuel : nat) (argv : list string)
         (l : list event) (gp : general_parameters),
    seed_supplied L fs fuel argv = false ->
    read_options L fs fuel argv (init_parameters D time pid gp0)
    = Returns l gp ->
    seed (mp gp) = default_seed time pid.
Proof.
  intros D L time pid gp0 fs fuel argv l gp NS H.
  unfold read_options in H. unfold seed_supplied in NS.
  eapply (read_options_loop_keeps_seed L (default_seed time pid)
            (set_config_file L fs fuel) (file_supplies_seed fs fuel));
    [| |exact NS| |exact H].
  - intros path. apply set_config_file_keeps_seed.
  - intros gp1 l1 gp1' _ H1. destruct fuel; discriminate H1.
  - reflexivity.
Qed.

Lemma seed_stays_default_unless_supplied_witness :
  exists l gp,
    read_options Sample.L Sample.files 3
      ["rnn-learn"; "-c"; "typo.conf"; "-x"; "3"; "data.txt"]
      (init_parameters Sample.D 5 7 Sample.blank)
    = Returns l gp
    /\ seed (mp gp) = 36.
Proof.
  destruct (read_options Sample.L Sample.files 3
              ["rnn-learn"; "-c"; "typo.conf"; "-x"; "3"; "data.txt"]
              (init_parameters Sample.D 5 7 Sample.blank))
    as [l gp| | |] eqn:E; try (vm_compute in E; discriminate E).
  exists l, gp. split; [reflexivity|].
  exact (seed_stays_default_unless_supplied Sample.D Sample.L 5 7
           Sample.blank Sample.files 3
           ["rnn-learn"; "-c"; "typo.conf"; "-x"; "3"; "data.txt"] l gp
           eq_refl E).
Defined.

(** ** What the interval setters leave alone *)

Lemma same_files_refl io : same_files io io.
Proof. unfold same_files. repeat split. Qed.

Lemma same_files_trans io1 io2 io3 :
  same_files io1 io2 -> same_files io2 io3 -> same_files io1 io3.
Proof.
  unfold same_files. intros H1 H2.
  repeat match goal with
         | H : _ /\ _ |- _ => destruct H
         end.
  repeat split; congruence.
Qed.

Lemma set_default_step_files F O io :
  same_files io (SET_DEFAULT_VALUE_OF_PRINT_INTERVAL_I F O io).
Proof.
  unfold SET_DEFAULT_VALUE_OF_PRINT_INTERVAL_I.
  destruct (get_flag O (interval_for io F) =? 0);
    unfold same_files; repeat split.
Qed.

Lemma set_default_fold_files O (files : list interval_file) :
  forall io,
    same_files io
      (fold_left (fun io F => SET_DEFAULT_VALUE_OF_PRINT_INTERVAL_I F O io)
         files io).
Proof.
  induction files as [|F files IH]; intros io.
  - apply same_files_refl.
  - cbn [fold_left]. eapply same_files_trans; [|apply IH].
    apply set_default_step_files.
Qed.

Lemma set_default_opt_files O v gp :
  same_files (iop gp) (iop (set_default_opt O v gp)).
Proof.
  unfold set_default_opt, SET_DEFAULT_VALUE_OF_PRINT_INTERVAL.
  cbn [on_iop with_iop iop].
  eapply same_files_trans; [|apply set_default_fold_files].
  unfold same_files. repeat split.
Qed.

Lemma get_opt_put_opt_other O O' v p :
  O <> O' -> get_opt O (put_opt O' v p) = get_opt O p.
Proof. destruct O, O'; intros H; try reflexivity; contradiction. Qed.

(** X18. The interval setters touch nothing but what they name. A
    per-stream setter changes member OPT of stream F and its flag, and
    leaves the other members and flags of F, every other stream, the
    default policy, the file names and the members mp, ap and inp as they
    are. A global default setter changes member OPT of the default policy
    and of the streams, and leaves every flag of every stream and of the
    default policy, every other member of every policy, the file names and
    mp, ap and inp as they are. *)
Theorem interval_setters_frame :
  forall (L : libc) (O : interval_opt) (a : option string)
         (gp gp' : general_parameters) (l : list event),
    (forall F,
        per_stream_setter L F O a gp = Returns l gp' ->
        mp gp' = mp gp /\ ap gp' = ap gp /\ inp gp' = inp gp
        /\ same_files (iop gp) (iop gp')
        /\ default_interval (iop gp') = default_interval (iop gp)
        /\ (forall G, G <> F ->
                      interval_for (iop gp') G = interval_for (iop gp) G)
        /\ (forall O', O' <> O ->
                       get_opt O' (interval_for (iop gp') F)
                       = get_opt O' (interval_for (iop gp) F)
                       /\ get_flag O' (interval_for (iop gp') F)
                          = get_flag O' (interval_for (iop gp) F))
        /\ exists v,
             setter_value L O a = Some v
             /\ get_opt O (interval_for (iop gp') F) = v
             /\ get_flag O (interval_for (iop gp') F) = 1)
    /\ (default_setter L O a gp = Returns l gp' ->
        mp gp' = mp gp /\ ap gp' = ap gp /\ inp gp' = inp gp
        /\ same_files (iop gp) (iop gp')
        /\ (forall G O',
               get_flag O' (interval_for (iop gp') G)
               = get_flag O' (interval_for (iop gp) G))
        /\ (forall O',
               get_flag O' (default_interval (iop gp'))
               = get_flag O' (default_interval (iop gp)))
        /\ (forall G O', O' <> O ->
                         get_opt O' (interval_for (iop gp') G)
                         = get_opt O' (interval_for (iop gp) G))
        /\ (forall O', O' <> O ->
                       get_opt O' (default_interval (iop gp'))
                       = get_opt O' (default_interval (iop gp)))
        /\ exists v,
             setter_value L O a = Some v
             /\ get_opt O (default_interval (iop gp')) = v
             /\ forall G,
                  get_opt O (interval_for (iop gp') G)
                  = if get_flag O (interval_for (iop gp) G) =? 0
                    then v
                    else get_opt O (interval_for (iop gp) G)).
Proof.
  intros L O a gp gp' l. split.
  - intros F H. apply per_stream_setter_value in H.
    destruct H as (v & V & ->).
    cbn [on_iop with_iop iop mp ap inp].
    assert (R : interval_file_eqb F F = true)
      by (apply interval_file_eqb_eq; reflexivity).
    split; [reflexivity|]. split; [reflexivity|]. split; [reflexivity|].
    split; [unfold same_files; repeat split|].
    split; [reflexivity|]. split; [|split].
    + intros G N. rewrite interval_for_assign.
      destruct (interval_file_eqb G F) eqn:E; [|reflexivity].
      apply interval_file_eqb_eq in E. contradiction.
    + intros O' N. rewrite interval_for_assign, R. split.
      * rewrite get_opt_put_flag. apply get_opt_put_opt_other. assumption.
      * rewrite get_flag_put_flag_other by assumption.
        apply get_flag_put_opt.
    + exists v. split; [exact V|]. rewrite interval_for_assign, R. split.
      * rewrite get_opt_put_flag. apply get_opt_put_opt.
      * apply get_flag_put_flag.
  - intros H. apply default_setter_value in H. destruct H as (v & V & ->).
    destruct (set_default_opt_spec O v gp) as (M & A & I & Hv & Hi).
    cbn zeta in M, A, I, Hv, Hi.
    split; [exact M|]. split; [exact A|]. split; [exact I|].
    assert (Dv : default_interval (iop (set_default_opt O v gp))
                 = put_opt O v (default_interval (iop gp))).
    { unfold set_default_opt, SET_DEFAULT_VALUE_OF_PRINT_INTERVAL.
      cbn [on_iop with_iop iop].
      destruct (set_default_fold O interval_files
                  (with_default_interval
                     (put_opt O v (default_interval (iop gp))) (iop gp)))
        as [Hd _].
      cbn zeta in Hd. rewrite Hd. reflexivity. }
    split; [apply set_default_opt_files|].
    split; [|split; [|split; [|split]]].
    + intros G O'. rewrite Hi.
      destruct (get_flag O (interval_for (iop gp) G) =? 0);
        rewrite ?get_flag_put_opt; reflexivity.
    + intros O'. rewrite Dv. apply get_flag_put_opt.
    + intros G O' N. rewrite Hi.
      destruct (get_flag O (interval_for (iop gp) G) =? 0);
        rewrite ?get_opt_put_opt_other by assumption; reflexivity.
    + intros O' N. rewrite Dv. apply get_opt_put_opt_other. assumption.
    + exists v. split; [exact V|]. split; [exact Hv|].
      intros G. rewrite Hi.
      destruct (get_flag O (interval_for (iop gp) G) =? 0);
        [apply get_opt_put_opt|reflexivity].
Qed.

Lemma interval_setters_frame_witness :
  interval_for (iop Sample.error_every_5) state_file
  = interval_for (iop Sample.gp) state_file
  /\ default_interval (iop Sample.error_every_5)
     = default_interval (iop Sample.gp).
Proof.
  destruct (proj1 (interval_setters_frame Sample.L opt_interval (Some "5")
                     Sample.gp Sample.error_every_5 [])
              error_file eq_refl)
    as (_ & _ & _ & _ & Df & Other & _).
  split; [|exact Df]. apply Other. discriminate.
Defined.

(** ** Flags *)

Lemma flag_value_set_default f O v gp :
  (O = opt_use_logscale_interval -> v = 1) ->
  raised f gp -> raised f (set_default_opt O v gp).
Proof.
  unfold raised. intros V H.
  destruct (set_default_opt_spec O v gp) as (M & _ & _ & _ & _).
  cbn zeta in M.
  pose proof (set_default_opt_files O v gp) as S.
  unfold same_files in S.
  repeat match goal with
         | X : _ /\ _ |- _ => destruct X
         end.
  destruct f; cbn [flag_value] in *; try congruence.
  unfold set_default_opt, SET_DEFAULT_VALUE_OF_PRINT_INTERVAL.
  cbn [on_iop with_iop iop].
  destruct (set_default_fold O interval_files
              (with_default_interval
                 (put_opt O v (default_interval (iop gp))) (iop gp)))
    as [Hd _].
  cbn zeta in Hd. rewrite Hd. cbn [with_default_interval default_interval].
  destruct O; cbn; auto.
Qed.

Lemma default_setter_keeps_raised L f O a :
  keeps (raised f) (default_setter L O a).
Proof.
  intros gp l gp' HP H.
  destruct O, a; cbn [default_setter] in H;
    unfold set_print_interval, set_print_init, set_print_end,
      set_use_logscale_interval, reading, ret, bind, after in H;
    cbn [app] in H; try discriminate H; inversion H; subst;
    (apply flag_value_set_default; [|exact HP]);
    first [discriminate | reflexivity].
Qed.

Lemma per_stream_setter_keeps_raised L f F O a :
  keeps (raised f) (per_stream_setter L F O a).
Proof.
  intros gp l gp' HP H. apply per_stream_setter_returns in H.
  destruct H as [v ->]. destruct f; exact HP.
Qed.

Section Raised.

Variables (L : libc) (f : raised_flag).

Lemma opt_info_keeps_raised cfg (a : option string) :
  keeps (raised f) (cfg a) ->
  Forall (fun e => keeps (raised f) (setter_of e a)) (opt_info L cfg).
Proof.
  intros Hc. unfold opt_info, ENTRY_PRINT_INTERVAL_SETTER. cbn [app].
  repeat (apply Forall_cons;
          [cbn [setter_of name entry ENTRY_PRINT_INTERVAL_SETTER_II];
           first
             [ assumption
             | exact (default_setter_keeps_raised L f opt_interval _)
             | exact (default_setter_keeps_raised L f opt_init _)
             | exact (default_setter_keeps_raised L f opt_end _)
             | exact (default_setter_keeps_raised L f
                        opt_use_logscale_interval _)
             | exact (per_stream_setter_keeps_raised L f _ opt_interval _)
             | exact (per_stream_setter_keeps_raised L f _ opt_init _)
             | exact (per_stream_setter_keeps_raised L f _ opt_end _)
             | exact (per_stream_setter_keeps_raised L f _
                        opt_use_logscale_interval _)
             | let gp := fresh "gp" in
               let H := fresh "H" in
               let HP := fresh "HP" in
               intros gp ? ? HP H; destruct a;
               cbn in H; inversion H; subst;
               destruct f; first [exact HP | reflexivity] ]|]).
  apply Forall_nil.
Qed.

Lemma read_config_lines_keeps_raised cfg lines :
  (forall a, keeps (raised f) (cfg a)) ->
  forall n, keeps (raised f) (read_config_lines L cfg n lines).
Proof.
  intros Hc. induction lines as [|str lines IH]; intros n gp l gp' HP H.
  - inversion H; subst; exact HP.
  - cbn [read_config_lines] in H. apply bind_returns in H.
    destruct H as (l1 & gp1 & l2 & E1 & E2 & _).
    eapply IH; [|exact E2]. clear E2 IH.
    unfold read_config_line in E1.
    destruct (parse_option_and_arg str) as [[opt|] arg];
      [|inversion E1; subst; exact HP].
    destruct (0 <? CString.strlen opt); [|inversion E1; subst; exact HP].
    destruct (find_option opt (opt_info L cfg)) as [e|] eqn:Fo;
      [|inversion E1; subst; exact HP].
    apply find_option_in in Fo.
    pose proof (opt_info_keeps_raised cfg arg (Hc arg)) as A.
    rewrite Forall_forall in A. specialize (A _ Fo).
    destruct (has_arg e =? 0), arg; try (eapply A; eassumption).
    inversion E1; subst; exact HP.
Qed.

Lemma set_config_file_keeps_raised fs fuel :
  forall a, keeps (raised f) (set_config_file L fs fuel a).
Proof.
  induction fuel as [|fuel IH]; intros a gp l gp' HP H.
  - discriminate H.
  - cbn [set_config_file] in H.
    destruct a as [path|]; [|discriminate H].
    destruct (fs path) as [lines|]; [|discriminate H].
    eapply read_config_lines_keeps_raised; eauto.
Qed.

Lemma read_option_keeps_raised cfg opt optarg :
  (forall a, keeps (raised f) (cfg a)) ->
  keeps (raised f) (read_option L cfg opt optarg).
Proof.
  intros Hc gp l gp' HP H. unfold read_option in H.
  repeat match type of H with
         | (if ?c then _ else _) = _ =>
             destruct c;
             [first
                [ discriminate H
                | exact (Hc _ _ _ _ HP H)
                | exact (default_setter_keeps_raised L f opt_interval _
                           _ _ _ HP H)
                | destruct optarg; cbn in H; inversion H; subst;
                  destruct f; first [exact HP | reflexivity] ]
             |]
         end.
  discriminate H.
Qed.

Lemma read_options_loop_keeps_raised cfg scan :
  (forall a, keeps (raised f) (cfg a)) ->
  keeps (raised f) (read_options_loop L cfg scan).
Proof.
  intros Hc. induction scan as [|[opt optarg] scan IH]; intros gp l gp' HP H.
  - inversion H; subst; exact HP.
  - cbn [read_options_loop] in H. apply bind_returns in H.
    destruct H as (l1 & gp1 & l2 & E1 & E2 & _).
    eapply IH; [|exact E2].
    eapply read_option_keeps_raised; eauto.
Qed.

End Raised.

(** X19. No option lowers a flag: once use_adaptive_lr, fixed_weight,
    fixed_threshold, fixed_tau, fixed_init_c_state, verbose or the default
    use_logscale_interval is 1, it is still 1 after any further options of
    the command line and any further lines of configuration files have
    been read. *)
Theorem raised_flags_stay_raised :
  forall (L : libc) (fs : filesystem) (fuel : nat) (f : raised_flag)
         (gp gp' : general_parameters) (l : list event),
    raised f gp ->
    (forall argv, read_options L fs fuel argv gp = Returns l gp' ->
                  raised f gp')
    /\ (forall n lines,
           read_config_lines L (set_config_file L fs fuel) n lines gp
           = Returns l gp' ->
           raised f gp').
Proof.
  intros L fs fuel f gp gp' l R. split.
  - intros argv H. unfold read_options in H.
    eapply read_options_loop_keeps_raised; [|exact R|exact H].
    apply set_config_file_keeps_raised.
  - intros n lines H.
    eapply read_config_lines_keeps_raised; [|exact R|exact H].
    apply set_config_file_keeps_raised.
Qed.

Lemma raised_flags_stay_raised_witness :
  exists l gp',
    read_options Sample.L Sample.files 3
      ["rnn-learn"; "-x"; "2"; "-c"; "rnn.conf"]
      (on_mp (with_use_adaptive_lr 1) Sample.gp)
    = Returns l gp'
    /\ use_adaptive_lr (mp gp') = 1.
Proof.
  destruct (read_options Sample.L Sample.files 3
              ["rnn-learn"; "-x"; "2"; "-c"; "rnn.conf"]
              (on_mp (with_use_adaptive_lr 1) Sample.gp))
    as [l gp'| | |] eqn:E; try (vm_compute in E; discriminate E).
  exists l, gp'. split; [reflexivity|].
  exact (proj1 (raised_flags_stay_raised Sample.L Sample.files 3
                  flag_use_adaptive_lr
                  (on_mp (with_use_adaptive_lr 1) Sample.gp) gp' l eq_refl)
           ["rnn-learn"; "-x"; "2"; "-c"; "rnn.conf"] E).
Defined.
